(** * Tabular Review: the extraction orchestration core

    A shallow embedding of the state handlers of the [App] component
    (document/column grid, result store, run controller) and of the column
    library merge of [utils/fileStorage.ts], with the properties the
    specification states about them.

    Conventions.
    - A JavaScript object used as a dictionary is a [gmap string _] of its own
      properties; a read of it that finds no own property goes on to
      [Object.prototype], whose built-in objects are a parameter ([Host]).
    - [ExtractionCell | null] is [option ExtractionCell]; a key that is absent
      from the object is a key absent from the map.
    - A string is the UTF-8 encoding of the program's string.
    - React state is one record; a functional updater [setX(prev => f prev)]
      is [f] applied to the current value of the field, in call order.
    - Each call of [processExtraction] creates one [AbortController]; the
      controllers are numbered in creation order and a reference to one of
      them is its number. *)

From Stdlib Require Import String Ascii ZArith Bool.
From stdpp Require Import base option list gmap strings pretty sorting.

(** ** Types ([types.ts]) *)

Inductive ColumnType := TyText | TyNumber | TyDate | TyBoolean | TyList.

Inductive ColumnStatus := idle | extracting | completed | error.

Inductive Confidence := High | Medium | Low.

Inductive ReviewStatus := verified | needs_review | edited.

Inductive SidebarMode := SbNone | SbVerify | SbChat.

#[global] Instance ColumnType_eq_dec : EqDecision ColumnType.
Proof. solve_decision. Defined.
#[global] Instance ColumnStatus_eq_dec : EqDecision ColumnStatus.
Proof. solve_decision. Defined.
#[global] Instance Confidence_eq_dec : EqDecision Confidence.
Proof. solve_decision. Defined.
#[global] Instance ReviewStatus_eq_dec : EqDecision ReviewStatus.
Proof. solve_decision. Defined.
#[global] Instance SidebarMode_eq_dec : EqDecision SidebarMode.
Proof. solve_decision. Defined.

Record DocumentFile := mkDocumentFile {
  doc_id : string;
  doc_name : string;
  doc_type : string;
  doc_size : Z;
  doc_content : string;
  doc_mimeType : string
}.

Record Column := mkColumn {
  col_id : string;
  col_name : string;
  col_type : ColumnType;
  col_prompt : string;
  col_status : ColumnStatus;
  col_width : option Z
}.

Record ExtractionCell := mkExtractionCell {
  cell_value : string;
  cell_confidence : Confidence;
  cell_quote : string;
  cell_page : Z;
  cell_reasoning : string;
  cell_status : option ReviewStatus
}.

#[global] Instance DocumentFile_eq_dec : EqDecision DocumentFile.
Proof. solve_decision. Defined.
#[global] Instance Column_eq_dec : EqDecision Column.
Proof. solve_decision. Defined.
#[global] Instance ExtractionCell_eq_dec : EqDecision ExtractionCell.
Proof. solve_decision. Defined.

(** [ExtractionResult]: document id, then column id, to a cell or [null]. *)
Abbreviation ExtractionResult := (gmap string (gmap string (option ExtractionCell))).

(** ** Property reads on plain objects

    [results] and each of its rows is a plain object: it is made by an object
    literal, by a spread or by [JSON.parse], so its prototype is
    [Object.prototype].  A read [o[k]] finds the own property [k] of [o] and,
    when [o] has none, the property [k] of [Object.prototype]. *)

(** The string-keyed properties of [Object.prototype] (ECMAScript 20.1.3 and
    B.2.2).  The value of [__proto__] is [Object.prototype] itself, the value
    of every other one is a built-in function. *)
Definition objectPrototypeKeys : list string :=
  ["constructor"; "__defineGetter__"; "__defineSetter__"; "hasOwnProperty";
   "__lookupGetter__"; "__lookupSetter__"; "isPrototypeOf";
   "propertyIsEnumerable"; "toString"; "valueOf"; "__proto__";
   "toLocaleString"].

(** What reading a property of a built-in object gives, as far as the
    handlers tell values apart: a falsy value ([undefined], [null], [0], the
    empty string), a truthy one, or an exception thrown by an accessor. *)
Inductive BuiltinValue := BuiltinFalsy | BuiltinTruthy | BuiltinThrows.

(** The built-in objects of the engine that runs the component.
    [builtinRead m c] is the read [Object.prototype[m][c]] for a key [m] of
    [Object.prototype]: property [c] of a built-in function, or of
    [Object.prototype] when [m] is [__proto__].  Which properties these
    objects have is decided by the engine, not by the source. *)
Class Host := { builtinRead : string → string → BuiltinValue }.

(** The value of a read on the store, as far as the handlers tell values
    apart. *)
Inductive Read :=
  | ReadCell (cell : ExtractionCell)   (* an own entry that holds a cell *)
  | ReadFalsy                          (* undefined, null, 0, the empty string *)
  | ReadOther                          (* a truthy value that is not a cell *)
  | ReadThrows.                        (* the read throws *)

Definition readBuiltin (v : BuiltinValue) : Read :=
  match v with
  | BuiltinFalsy => ReadFalsy
  | BuiltinTruthy => ReadOther
  | BuiltinThrows => ReadThrows
  end.

(** [if (x)] *)
Definition truthy (r : Read) : bool :=
  match r with
  | ReadCell _ | ReadOther => true
  | ReadFalsy | ReadThrows => false
  end.

(** [row[colId]] for a row of the store. *)
Definition readRow (row : gmap string (option ExtractionCell)) (colId : string) : Read :=
  match row !! colId with
  | Some (Some cell) => ReadCell cell
  | Some None => ReadFalsy
  | None => if decide (colId ∈ objectPrototypeKeys) then ReadOther else ReadFalsy
  end.

(** An identifier that is not a key of [Object.prototype]. *)
Definition plainId (id : string) : Prop := id ∉ objectPrototypeKeys.

#[global] Instance plainId_dec id : Decision (plainId id).
Proof. unfold plainId. apply _. Defined.

(** The result of evaluating code that may throw. *)
Inductive Completion (A : Type) :=
  | Normal (a : A)
  | Throws.
Arguments Normal {A} a.
Arguments Throws {A}.

(** [array.map(f)] and [array.forEach(f)] for an [f] that may throw: the
    elements are visited in order and the first exception ends the visit. *)
Fixpoint mapThrowing {A B : Type} (f : A → Completion B) (l : list A)
  : Completion (list B) :=
  match l with
  | [] => Normal []
  | x :: l' =>
      match f x with
      | Normal y =>
          match mapThrowing f l' with
          | Normal ys => Normal (y :: ys)
          | Throws => Throws
          end
      | Throws => Throws
      end
  end.

Section Model.
Context {host : Host}.

(** [results[docId]?.[colId]] *)
Definition readStore (results : ExtractionResult) (docId colId : string) : Read :=
  match results !! docId with
  | Some row => readRow row colId
  | None =>
      if decide (docId ∈ objectPrototypeKeys)
      then readBuiltin (builtinRead docId colId)
      else ReadFalsy
  end.

(** The cell the store holds for a document and a column: the own entry of
    the own row, when it is a cell.  This is what the store contains; what a
    read of the store evaluates to is [readStore]. *)
Definition cellAt (results : ExtractionResult) (docId colId : string)
  : option ExtractionCell :=
  match results !! docId with
  | Some row =>
      match row !! colId with
      | Some (Some cell) => Some cell
      | Some None => None
      | None => None
      end
  | None => None
  end.

(** The raw entry [results[docId][colId]] when the row exists: [None] for
    a missing key, [Some None] for [null]. *)
Definition entryAt (results : ExtractionResult) (docId colId : string)
  : option (option ExtractionCell) :=
  match results !! docId with
  | Some row => row !! colId
  | None => None
  end.

(** ** Task planner (the nested loop of [processExtraction]) *)

(** The test [forceOverwrite || !results[doc.id]?.[col.id]]; [None] when the
    read throws.  With [forceOverwrite] the store is not read. *)
Definition needsTask (results : ExtractionResult) (forceOverwrite : bool)
    (doc : DocumentFile) (col : Column) : option bool :=
  if forceOverwrite then Some true
  else
    match readStore results (doc_id doc) (col_id col) with
    | ReadThrows => None
    | r => Some (negb (truthy r))
    end.

(** The inner loop; [None] when a read throws. *)
Fixpoint planCols (results : ExtractionResult) (forceOverwrite : bool)
    (doc : DocumentFile) (colsToProcess : list Column)
  : option (list (DocumentFile * Column)) :=
  match colsToProcess with
  | [] => Some []
  | col :: cols =>
      needed ← needsTask results forceOverwrite doc col;
      rest ← planCols results forceOverwrite doc cols;
      Some (if needed : bool then (doc, col) :: rest else rest)
  end.

(** The nested loop; [None] when it is left by an exception. *)
Fixpoint planLoop (docsToProcess : list DocumentFile) (colsToProcess : list Column)
    (results : ExtractionResult) (forceOverwrite : bool)
  : option (list (DocumentFile * Column)) :=
  match docsToProcess with
  | [] => Some []
  | doc :: docs =>
      row ← planCols results forceOverwrite doc colsToProcess;
      rest ← planLoop docs colsToProcess results forceOverwrite;
      Some (row ++ rest)
  end.

(** The tasks that are dispatched: the list the loop has built, and none
    when the loop is left by an exception. *)
Definition planTasks (docsToProcess : list DocumentFile) (colsToProcess : list Column)
    (results : ExtractionResult) (forceOverwrite : bool)
  : list (DocumentFile * Column) :=
  default [] (planLoop docsToProcess colsToProcess results forceOverwrite).

Definition plannerThrows (docsToProcess : list DocumentFile)
    (colsToProcess : list Column) (results : ExtractionResult)
    (forceOverwrite : bool) : bool :=
  match planLoop docsToProcess colsToProcess results forceOverwrite with
  | Some _ => false
  | None => true
  end.

(** The product D×C in the loop's order. *)
Definition allPairs (docs : list DocumentFile) (cols : list Column)
  : list (DocumentFile * Column) :=
  d ← docs; c ← cols; [(d, c)].

(** ** Result store merge (the functional updater of a completed task) *)

Definition mergeCell (docId colId : string) (data : ExtractionCell)
    (prev : ExtractionResult) : ExtractionResult :=
  <[docId := <[colId := Some data]> (default ∅ (prev !! docId))]> prev.

(** ** Application state *)

(** One task of a run: the async arrow function mapped over the task list.
    [TaskSkipped]: it returned at its entry check, without calling the client.
    [TaskAwaiting]: it is suspended on [await extractColumnData(...)].
    [TaskDone]: its continuation after the [await] has run. *)
Inductive TaskPhase := TaskSkipped | TaskAwaiting | TaskDone.

#[global] Instance TaskPhase_eq_dec : EqDecision TaskPhase.
Proof. solve_decision. Defined.

Record Task := mkTask {
  task_doc : DocumentFile;
  task_col : Column;
  task_phase : TaskPhase
}.

(** One invocation of [processExtraction] together with its controller. *)
Record Run := mkRun {
  run_aborted : bool;            (* controller.signal.aborted *)
  run_cols : list Column;        (* colsToProcess *)
  run_tasks : list Task;         (* tasks / promises *)
  run_finished : bool            (* the code after [await Promise.all] has run *)
}.

(** The outcome of one Extraction Client call. *)
Inductive ClientOutcome :=
  | Resolved (data : ExtractionCell)
  | Rejected (e : string).

Record App := mkApp {
  documents : list DocumentFile;
  columns : list Column;
  results : ExtractionResult;
  sidebarMode : SidebarMode;
  selectedCell : option (string * string);     (* docId, colId *)
  previewDocId : option string;
  isSidebarExpanded : bool;
  isProcessing : bool;
  abortControllerRef : option nat;             (* abortControllerRef.current *)
  selectedDocIds : gset string;
  runs : list Run;
  console : list (string * string)             (* console.error(message, e) *)
}.

Definition setColumns (f : list Column → list Column) (st : App) : App :=
  mkApp (documents st) (f (columns st)) (results st) (sidebarMode st)
    (selectedCell st) (previewDocId st) (isSidebarExpanded st) (isProcessing st)
    (abortControllerRef st) (selectedDocIds st) (runs st) (console st).

Definition setDocuments (f : list DocumentFile → list DocumentFile) (st : App) : App :=
  mkApp (f (documents st)) (columns st) (results st) (sidebarMode st)
    (selectedCell st) (previewDocId st) (isSidebarExpanded st) (isProcessing st)
    (abortControllerRef st) (selectedDocIds st) (runs st) (console st).

Definition setResults (f : ExtractionResult → ExtractionResult) (st : App) : App :=
  mkApp (documents st) (columns st) (f (results st)) (sidebarMode st)
    (selectedCell st) (previewDocId st) (isSidebarExpanded st) (isProcessing st)
    (abortControllerRef st) (selectedDocIds st) (runs st) (console st).

Definition setSidebarMode (m : SidebarMode) (st : App) : App :=
  mkApp (documents st) (columns st) (results st) m
    (selectedCell st) (previewDocId st) (isSidebarExpanded st) (isProcessing st)
    (abortControllerRef st) (selectedDocIds st) (runs st) (console st).

Definition setSelectedCell (c : option (string * string)) (st : App) : App :=
  mkApp (documents st) (columns st) (results st) (sidebarMode st)
    c (previewDocId st) (isSidebarExpanded st) (isProcessing st)
    (abortControllerRef st) (selectedDocIds st) (runs st) (console st).

Definition setPreviewDocId (d : option string) (st : App) : App :=
  mkApp (documents st) (columns st) (results st) (sidebarMode st)
    (selectedCell st) d (isSidebarExpanded st) (isProcessing st)
    (abortControllerRef st) (selectedDocIds st) (runs st) (console st).

Definition setIsSidebarExpanded (b : bool) (st : App) : App :=
  mkApp (documents st) (columns st) (results st) (sidebarMode st)
    (selectedCell st) (previewDocId st) b (isProcessing st)
    (abortControllerRef st) (selectedDocIds st) (runs st) (console st).

Definition setIsProcessing (b : bool) (st : App) : App :=
  mkApp (documents st) (columns st) (results st) (sidebarMode st)
    (selectedCell st) (previewDocId st) (isSidebarExpanded st) b
    (abortControllerRef st) (selectedDocIds st) (runs st) (console st).

Definition setAbortControllerRef (r : option nat) (st : App) : App :=
  mkApp (documents st) (columns st) (results st) (sidebarMode st)
    (selectedCell st) (previewDocId st) (isSidebarExpanded st) (isProcessing st)
    r (selectedDocIds st) (runs st) (console st).

Definition setSelectedDocIds (f : gset string → gset string) (st : App) : App :=
  mkApp (documents st) (columns st) (results st) (sidebarMode st)
    (selectedCell st) (previewDocId st) (isSidebarExpanded st) (isProcessing st)
    (abortControllerRef st) (f (selectedDocIds st)) (runs st) (console st).

Definition setRuns (f : list Run → list Run) (st : App) : App :=
  mkApp (documents st) (columns st) (results st) (sidebarMode st)
    (selectedCell st) (previewDocId st) (isSidebarExpanded st) (isProcessing st)
    (abortControllerRef st) (selectedDocIds st) (f (runs st)) (console st).

Definition consoleError (msg e : string) (st : App) : App :=
  mkApp (documents st) (columns st) (results st) (sidebarMode st)
    (selectedCell st) (previewDocId st) (isSidebarExpanded st) (isProcessing st)
    (abortControllerRef st) (selectedDocIds st) (runs st) (console st ++ [(msg, e)]).

(** ** Run controller *)

(** [controller.abort()] *)
Definition abortRun (r : Run) : Run :=
  mkRun true (run_cols r) (run_tasks r) (run_finished r).

Definition finishRun (r : Run) : Run :=
  mkRun (run_aborted r) (run_cols r) (run_tasks r) true.

Definition settleTask (t : Task) : Task :=
  mkTask (task_doc t) (task_col t) TaskDone.

Definition settleTaskOf (tid : nat) (r : Run) : Run :=
  mkRun (run_aborted r) (run_cols r) (alter settleTask tid (run_tasks r)) (run_finished r).

(** [if (abortControllerRef.current) abortControllerRef.current.abort()] *)
Definition abortCurrent (st : App) : App :=
  match abortControllerRef st with
  | Some i => setRuns (alter abortRun i) st
  | None => st
  end.

Definition withStatus (s : ColumnStatus) (c : Column) : Column :=
  mkColumn (col_id c) (col_name c) (col_type c) (col_prompt c) s (col_width c).

(** [colsToProcess.some(target => target.id === c.id)] *)
Definition isTarget (colsToProcess : list Column) (c : Column) : bool :=
  existsb (λ target, String.eqb (col_id target) (col_id c)) colsToProcess.

(** [prev.map(c => colsToProcess.some(...) ? { ...c, status: s } : c)] *)
Definition markTargets (s : ColumnStatus) (colsToProcess : list Column)
    (prev : list Column) : list Column :=
  map (λ c, if isTarget colsToProcess c then withStatus s c else c) prev.

(** [prev.map(c => c.status === 'extracting' ? { ...c, status: 'idle' } : c)] *)
Definition resetExtracting (prev : list Column) : list Column :=
  map (λ c, if decide (col_status c = extracting) then withStatus idle c else c) prev.

(** The task body up to its [await]: [if (controller.signal.aborted) return;]
    and otherwise the client is called and the task suspends. *)
Definition taskBegin (aborted : bool) : TaskPhase :=
  if aborted then TaskSkipped else TaskAwaiting.

(** The task body after its [await], on the shared state. *)
Definition taskResume (aborted : bool) (doc : DocumentFile) (col : Column)
    (outcome : ClientOutcome) (st : App) : App :=
  match outcome with
  | Resolved data =>
      if aborted then st
      else setResults (mergeCell (doc_id doc) (col_id col) data) st
  | Rejected e =>
      consoleError ("Failed to extract " +:+ col_name col +:+ " for " +:+ doc_name doc) e st
  end.

(** [processExtraction] up to [await Promise.all(promises)].  [closureResults]
    is the [results] value captured by the handler that calls it.  When the
    loop that builds the task list throws, no task is started and the
    [finally] block runs at once, with this run's controller still the
    referenced one; the run is over. *)
Definition processExtraction (closureResults : ExtractionResult)
    (docsToProcess : list DocumentFile) (colsToProcess : list Column)
    (forceOverwrite : bool) (st : App) : App :=
  let st1 := abortCurrent st in
  let controller := length (runs st1) in
  let st2 := setIsProcessing true (setAbortControllerRef (Some controller) st1) in
  let st3 := setColumns (markTargets extracting colsToProcess) st2 in
  let aborted := false in
  match planLoop docsToProcess colsToProcess closureResults forceOverwrite with
  | Some tasks =>
      let promises := map (λ '(doc, col), mkTask doc col (taskBegin aborted)) tasks in
      setRuns (λ rs, rs ++ [mkRun aborted colsToProcess promises false]) st3
  | None =>
      setRuns (λ rs, rs ++ [mkRun aborted colsToProcess [] true])
        (setColumns resetExtracting
           (setAbortControllerRef None (setIsProcessing false st3)))
  end.

Definition isAwaiting (t : Task) : bool :=
  bool_decide (task_phase t = TaskAwaiting).

(** The Extraction Client call of task [tid] of run [rid] settles and the task
    resumes.  Nothing happens unless that task is suspended on its call. *)
Definition clientReturns (rid tid : nat) (outcome : ClientOutcome) (st : App) : App :=
  match runs st !! rid with
  | Some r =>
      match run_tasks r !! tid with
      | Some t =>
          if isAwaiting t then
            taskResume (run_aborted r) (task_doc t) (task_col t) outcome
              (setRuns (alter (settleTaskOf tid) rid) st)
          else st
      | None => st
      end
  | None => st
  end.

(** [processExtraction] after [await Promise.all(promises)], including its
    [finally] block.  Nothing happens while a task of the run is suspended. *)
Definition allSettled (rid : nat) (st : App) : App :=
  match runs st !! rid with
  | Some r =>
      if run_finished r || existsb isAwaiting (run_tasks r) then st
      else
        let st1 :=
          if negb (run_aborted r)
          then setColumns (markTargets completed (run_cols r)) st
          else st in
        let st2 :=
          if decide (abortControllerRef st1 = Some rid)
          then setColumns resetExtracting
                 (setAbortControllerRef None (setIsProcessing false st1))
          else st1 in
        setRuns (alter finishRun rid) st2
  | None => st
  end.

Definition handleStopExtraction (st : App) : App :=
  match abortControllerRef st with
  | Some _ => setIsProcessing false (abortCurrent st)
  | None => st
  end.

Definition handleRunAnalysis (st : App) : App :=
  if (length (documents st) =? 0)%nat || (length (columns st) =? 0)%nat then st
  else processExtraction (results st) (documents st) (columns st) false st.

Definition handleRerunSelected (st : App) : App :=
  if (size (selectedDocIds st) =? 0)%nat || (length (columns st) =? 0)%nat then st
  else
    let selectedDocs :=
      filter (λ d, doc_id d ∈ selectedDocIds st) (documents st) in
    let st1 :=
      setResults (λ prev,
        set_fold (λ docId next, delete docId next) prev (selectedDocIds st)) st in
    processExtraction (results st) selectedDocs (columns st) true st1.

Definition handleToggleDocSelection (docId : string) (st : App) : App :=
  setSelectedDocIds (λ prev,
    if decide (docId ∈ prev) then prev ∖ {[docId]} else prev ∪ {[docId]}) st.

Definition handleRemoveDoc (docId : string) (st : App) : App :=
  let st1 := setDocuments (filter (λ d, doc_id d ≠ docId)) st in
  let st2 := setResults (delete docId) st1 in
  let st3 :=
    match selectedCell st with
    | Some (d, _) =>
        if decide (d = docId)
        then setSelectedCell None (setSidebarMode SbNone st2)
        else st2
    | None => st2
    end in
  if decide (previewDocId st = Some docId)
  then setSidebarMode SbNone (setPreviewDocId None st3)
  else st3.

(** When the read throws, the handler is left before any setter is called. *)
Definition handleCellClick (docId colId : string) (st : App) : App :=
  if truthy (readStore (results st) docId colId)
  then
    setIsSidebarExpanded false
      (setSidebarMode SbVerify
         (setPreviewDocId None (setSelectedCell (Some (docId, colId)) st)))
  else st.

(** What running the updater of [handleVerifyCell] produces.
    [TypeError]: reading [prev[docId][colId]] throws, because [prev[docId]]
    is [undefined] or because an accessor of a built-in object throws.
    [StatusOnlyEntry]: [prev[docId][colId]] is not a cell; spreading it copies
    no field of a cell and the entry becomes an object that has a [status]
    field and no other field of an [ExtractionCell]. *)
Inductive Outcome (A : Type) :=
  | Updated (a : A)
  | StatusOnlyEntry
  | TypeError.
Arguments Updated {A} a.
Arguments StatusOnlyEntry {A}.
Arguments TypeError {A}.

(** [{ ...cell, status: 'verified' }] *)
Definition withReview (s : ReviewStatus) (cell : ExtractionCell) : ExtractionCell :=
  mkExtractionCell (cell_value cell) (cell_confidence cell) (cell_quote cell)
    (cell_page cell) (cell_reasoning cell) (Some s).

Definition verifyUpdater (docId colId : string) (prev : ExtractionResult)
  : Outcome ExtractionResult :=
  match prev !! docId with
  | None =>
      if decide (docId ∈ objectPrototypeKeys)
      then
        match builtinRead docId colId with
        | BuiltinThrows => TypeError
        | BuiltinFalsy | BuiltinTruthy => StatusOnlyEntry
        end
      else TypeError
  | Some row =>
      match row !! colId with
      | Some (Some cell) =>
          Updated (<[docId := <[colId := Some (withReview verified cell)]> row]> prev)
      | Some None => StatusOnlyEntry
      | None => StatusOnlyEntry
      end
  end.

Definition handleVerifyCell (st : App) : Outcome App :=
  match selectedCell st with
  | None => Updated st
  | Some (docId, colId) =>
      match verifyUpdater docId colId (results st) with
      | Updated next => Updated (setResults (λ _, next) st)
      | StatusOnlyEntry => StatusOnlyEntry
      | TypeError => TypeError
      end
  end.

(** [handleLoadProject], when a project file was chosen and validated.  The
    project name and the selected model are not part of this model. *)
Definition handleLoadProject (projectColumns : list Column)
    (projectDocuments : list DocumentFile) (projectResults : ExtractionResult)
    (st : App) : App :=
  setSelectedDocIds (λ _, ∅)
    (setPreviewDocId None
       (setSelectedCell None
          (setSidebarMode SbNone
             (setResults (λ _, projectResults)
                (setDocuments (λ _, projectDocuments)
                   (setColumns (λ _, projectColumns) st)))))).

(** The run control of the toolbar: Stop while a run is in progress,
    otherwise Re-run when documents are selected, otherwise Run Analysis;
    the last two can be disabled. *)
Inductive RunControl :=
  | StopButton
  | RerunButton (disabled : bool)
  | RunButton (disabled : bool).

Definition runControl (st : App) : RunControl :=
  if isProcessing st then StopButton
  else if (0 <? size (selectedDocIds st))%nat
  then RerunButton (length (columns st) =? 0)%nat
  else RunButton ((length (documents st) =? 0)%nat || (length (columns st) =? 0)%nat).

(** ** Events and executions

    An event is a call of a handler by the user interface or the resumption
    of suspended code.  The toolbar offers Stop while [isProcessing] holds
    and otherwise Re-run (with a selection) or Run; the executions below put
    no such restriction on the order of events. *)

Inductive Event :=
  | EvLoadProject (projectColumns : list Column)
      (projectDocuments : list DocumentFile) (projectResults : ExtractionResult)
  | EvRunAnalysis
  | EvRerunSelected
  | EvStopExtraction
  | EvToggleDocSelection (docId : string)
  | EvRemoveDoc (docId : string)
  | EvCellClick (docId colId : string)
  | EvClientReturns (rid tid : nat) (outcome : ClientOutcome)
  | EvAllSettled (rid : nat).

Definition step (e : Event) (st : App) : App :=
  match e with
  | EvLoadProject cols docs res => handleLoadProject cols docs res st
  | EvRunAnalysis => handleRunAnalysis st
  | EvRerunSelected => handleRerunSelected st
  | EvStopExtraction => handleStopExtraction st
  | EvToggleDocSelection docId => handleToggleDocSelection docId st
  | EvRemoveDoc docId => handleRemoveDoc docId st
  | EvCellClick docId colId => handleCellClick docId colId st
  | EvClientReturns rid tid outcome => clientReturns rid tid outcome st
  | EvAllSettled rid => allSettled rid st
  end.

Fixpoint exec (evs : list Event) (st : App) : App :=
  match evs with
  | [] => st
  | e :: evs' => exec evs' (step e st)
  end.

(** The state of a freshly mounted [App]. *)
Definition initialApp : App :=
  mkApp [] [] ∅ SbNone None None false false None ∅ [] [].

(** Events that belong to runs already started or to the selection UI: they
    start no run and are not a deletion or replacement of stored results. *)
Definition drainsOnly (e : Event) : bool :=
  match e with
  | EvStopExtraction | EvToggleDocSelection _ | EvCellClick _ _
  | EvClientReturns _ _ _ | EvAllSettled _ => true
  | _ => false
  end.

(** ** CSV export ([handleExportCSV]) *)

Definition dquote : ascii := "034"%char.
Definition dq : string := String dquote EmptyString.

Definition quoted (s : string) : string :=
  String dquote (s +:+ String dquote EmptyString).

(** [String.prototype.replace] with the global pattern that matches one
    double quote and a replacement of two double quotes. *)
Fixpoint escapeQuotes (s : string) : string :=
  match s with
  | EmptyString => EmptyString
  | String c rest =>
      if Ascii.eqb c dquote
      then String dquote (String dquote (escapeQuotes rest))
      else String c (escapeQuotes rest)
  end.

(** One pass of the [forEach] over the columns: the field pushed for [col].
    A truthy value that is not a cell has no [value] property, so
    [cell.value.replace] reads [replace] of [undefined] and throws. *)
Definition csvField (results : ExtractionResult) (doc : DocumentFile) (col : Column)
  : Completion string :=
  match readStore results (doc_id doc) (col_id col) with
  | ReadCell cell => Normal (quoted (escapeQuotes (cell_value cell)))
  | ReadFalsy => Normal (quoted EmptyString)
  | ReadOther => Throws
  | ReadThrows => Throws
  end.

(** [rowData.join(",")] *)
Definition csvRow (results : ExtractionResult) (cols : list Column)
    (doc : DocumentFile) : Completion string :=
  match mapThrowing (csvField results doc) cols with
  | Normal fields => Normal (String.concat "," ([doc_name doc] ++ fields))
  | Throws => Throws
  end.

Definition csvHeaderRow (cols : list Column) : list string :=
  "Document Name" :: map col_name cols.

Definition csvContent (docs : list DocumentFile) (cols : list Column)
    (results : ExtractionResult) : Completion string :=
  let headerRow := csvHeaderRow cols in
  match mapThrowing (csvRow results cols) docs with
  | Normal rows =>
      Normal (String.concat (String "010"%char EmptyString)
                (String.concat "," headerRow :: rows))
  | Throws => Throws
  end.

(** The text handed to the download; [Normal None] when the handler returns
    at its first line, [Throws] when it is left by an exception and nothing
    is downloaded. *)
Definition handleExportCSV (st : App) : Completion (option string) :=
  if (length (documents st) =? 0)%nat then Normal None
  else
    match csvContent (documents st) (columns st) (results st) with
    | Normal content => Normal (Some content)
    | Throws => Throws
    end.

(** ** Column library ([utils/fileStorage.ts]) *)

Record ColumnTemplate := mkColumnTemplate {
  tpl_id : string;
  tpl_name : string;
  tpl_type : ColumnType;
  tpl_prompt : string;
  tpl_category : option string;
  tpl_createdAt : string
}.

Record ColumnLibrary := mkColumnLibrary {
  lib_version : Z;
  lib_templates : list ColumnTemplate
}.

#[global] Instance ColumnTemplate_eq_dec : EqDecision ColumnTemplate.
Proof. solve_decision. Defined.

Definition mergeLibraries (existing imported : ColumnLibrary) : ColumnLibrary :=
  let existingIds : gset string := list_to_set (map tpl_id (lib_templates existing)) in
  let newTemplates :=
    filter (λ t, tpl_id t ∉ existingIds) (lib_templates imported) in
  mkColumnLibrary 1 (lib_templates existing ++ newTemplates).

(** The [localStorage] item of the library: [None] when there is no item or
    the item does not parse to a valid library. *)
Definition loadColumnLibrary (storage : option ColumnLibrary) : ColumnLibrary :=
  match storage with
  | Some library => library
  | None => mkColumnLibrary 1 []
  end.

(** [saveColumnLibrary(library)] with [toFile = false]. *)
Definition saveColumnLibrary (library : ColumnLibrary)
    (storage : option ColumnLibrary) : option ColumnLibrary :=
  Some library.

(** [importColumnLibrary]: what its promise settles to ([Throws]: it is
    rejected) and the storage it leaves.

    Its first step is the call [isFileSystemAccessSupported()].  The module
    has no declaration and no import of that identifier; [fsAccess] is what
    the scope of the call binds it to: [None] when it is unbound, so that the
    call throws a ReferenceError, [Some b] for a function that returns [b].
    Both branches of the test read the picked file, which holds the valid
    [library], and then merge and save in the same way. *)
Definition importColumnLibrary (fsAccess : option bool) (library : ColumnLibrary)
    (storage : option ColumnLibrary)
  : Completion ColumnLibrary * option ColumnLibrary :=
  match fsAccess with
  | None => (Throws, storage)
  | Some _ =>
      let existing := loadColumnLibrary storage in
      let merged := mergeLibraries existing library in
      (Normal merged, saveColumnLibrary merged storage)
  end.

(** What one event can do to the record of run [i]. *)
Inductive run_change (e : Event) (i : nat) : Run → Run → Prop :=
  | rc_same r : run_change e i r r
  | rc_abort r : run_change e i r (abortRun r)
  | rc_settle r tid o :
      e = EvClientReturns i tid o → run_change e i r (settleTaskOf tid r)
  | rc_finish r :
      e = EvAllSettled i → existsb isAwaiting (run_tasks r) = false →
      run_change e i r (finishRun r).

(** A run that can no longer write to the store: its token is signaled or
    none of its tasks is suspended on a client call. *)
Definition dead (r : Run) : Prop :=
  run_aborted r = true ∨ Forall (λ t, task_phase t ≠ TaskAwaiting) (run_tasks r).

(** Every run other than the one the controller reference points to is dead. *)
Definition onlyActiveRunLive (st : App) : Prop :=
  ∀ i r, runs st !! i = Some r → abortControllerRef st ≠ Some i → dead r.

(** Every run that can still write to the store has tasks for documents of
    [S] only. *)
Definition writesWithin (S : gset string) (st : App) : Prop :=
  ∀ i r, runs st !! i = Some r →
    dead r ∨ Forall (λ t, doc_id (task_doc t) ∈ S) (run_tasks r).

(** The events issued by the run controller itself. *)
Definition runControllerEvent (e : Event) : bool :=
  match e with
  | EvRunAnalysis | EvRerunSelected | EvStopExtraction
  | EvClientReturns _ _ _ | EvAllSettled _ => true
  | _ => false
  end.

(** Column list [l'] is [l] with some statuses changed, none of them to
    [error]. *)
Definition noNewError (l l' : list Column) : Prop :=
  ∀ i c', l' !! i = Some c' →
    ∃ c, l !! i = Some c ∧ col_id c' = col_id c
         ∧ (col_status c' = error → col_status c = error).

(** ** Sample data for the concrete scenarios *)

Definition docA : DocumentFile :=
  mkDocumentFile "A" "a.pdf" "application/pdf" 1024 "IyBB" "text/markdown".
Definition docB : DocumentFile :=
  mkDocumentFile "B" "b.pdf" "application/pdf" 2048 "IyBC" "text/markdown".
Definition colX : Column :=
  mkColumn "X" "Term" TyText "What is the term?" idle (Some 250%Z).
Definition cellA1 : ExtractionCell :=
  mkExtractionCell "12 months" High "a term of twelve months" 3 "stated in clause 2" None.
Definition cellA2 : ExtractionCell :=
  mkExtractionCell "24 months" Medium "extended to two years" 4 "amended in clause 9" None.

(** ** Further handlers of the [App] component *)

(** Truthiness of a string-or-null value: [null], [undefined] and the empty
    string are falsy. *)
Definition truthyString (o : option string) : option string :=
  match o with
  | Some s => if decide (s = EmptyString) then None else Some s
  | None => None
  end.

Definition handleDocumentClick (docId : string) (st : App) : App :=
  setIsSidebarExpanded true
    (setSidebarMode SbVerify
       (setPreviewDocId (Some docId) (setSelectedCell None st))).

Definition toggleChat (st : App) : App :=
  if decide (sidebarMode st = SbChat) then setSidebarMode SbNone st
  else
    setIsSidebarExpanded false
      (setPreviewDocId None (setSelectedCell None (setSidebarMode SbChat st))).

(** [onClose] of the verification sidebar, which is mounted only while
    [sidebarMode === 'verify'] and [sidebarData] is not null. *)
Definition closeVerificationSidebar (st : App) : App :=
  setPreviewDocId None (setSelectedCell None (setSidebarMode SbNone st)).

(** [onClose] of the chat panel, which is mounted only while
    [sidebarMode === 'chat']. *)
Definition closeChat (st : App) : App := setSidebarMode SbNone st.

Record SidebarData := mkSidebarData {
  sd_cell : Read;
  sd_document : option DocumentFile;
  sd_column : option Column
}.

(** [array.find(p)]: the first element that satisfies [p]. *)
Definition findDoc (docId : string) (docs : list DocumentFile) : option DocumentFile :=
  snd <$> list_find (λ d, doc_id d = docId) docs.

Definition findCol (colId : string) (cols : list Column) : option Column :=
  snd <$> list_find (λ c, col_id c = colId) cols.

(** [getSidebarData], called while [App] renders; [x || null] turns every
    falsy value into [null]. *)
Definition getSidebarData (st : App) : Completion (option SidebarData) :=
  match selectedCell st with
  | Some (docId, colId) =>
      match readStore (results st) docId colId with
      | ReadThrows => Throws
      | ReadFalsy =>
          Normal (Some (mkSidebarData ReadFalsy
                          (findDoc docId (documents st)) (findCol colId (columns st))))
      | cell =>
          Normal (Some (mkSidebarData cell
                          (findDoc docId (documents st)) (findCol colId (columns st))))
      end
  | None =>
      match truthyString (previewDocId st) with
      | Some docId =>
          Normal (Some (mkSidebarData ReadFalsy (findDoc docId (documents st)) None))
      | None => Normal None
      end
  end.

(** The success path of [processUploadedFiles]: the converted files are
    appended. *)
Definition appendDocuments (processedFiles : list DocumentFile) (st : App) : App :=
  setDocuments (λ prev, prev ++ processedFiles) st.

(** [SAMPLE_COLUMNS] is a constant of a module that is not modelled; it is
    the argument. *)
Definition handleLoadSample (sampleCols : list Column) (st : App) : App :=
  setSelectedCell None
    (setPreviewDocId None
       (setSidebarMode SbNone
          (setResults (λ _, ∅) (setColumns (λ _, sampleCols) st)))).

Definition withWidth (w : Z) (c : Column) : Column :=
  mkColumn (col_id c) (col_name c) (col_type c) (col_prompt c) (col_status c) (Some w).

Definition handleColumnResize (colId : string) (newWidth : Z) (st : App) : App :=
  setColumns (map (λ c, if decide (col_id c = colId) then withWidth newWidth c else c)) st.

Definition handleToggleAllDocSelection (st : App) : App :=
  if (size (selectedDocIds st) =? length (documents st))%nat
  then setSelectedDocIds (λ _, ∅) st
  else setSelectedDocIds (λ _, list_to_set (map doc_id (documents st))) st.

(** The column created by [handleSaveColumn] and [handleSelectTemplate] at
    time [now] (the value of [Date.now()]). *)
Definition newColumn (now : N) (name : string) (type : ColumnType) (prompt : string)
  : Column :=
  mkColumn ("col_" +:+ pretty now) name type prompt idle (Some 250%Z).

(** [{ ...c, ...colDef }] *)
Definition withColDef (name : string) (type : ColumnType) (prompt : string)
    (c : Column) : Column :=
  mkColumn (col_id c) name type prompt (col_status c) (col_width c).

(** The updater of [handleDeleteColumn] on the results. *)
Definition dropColumnResults (colId : string) (prev : ExtractionResult)
  : ExtractionResult :=
  (λ row : gmap string (option ExtractionCell),
     match row !! colId with
     | Some (Some _) => delete colId row
     | Some None => row
     | None => row
     end) <$> prev.

(** The part of the component state that the column menu and the library
    modal add to [App].  [Rect] stands for [DOMRect], which the handlers only
    store and clear. *)
Record Shell (Rect : Type) := mkShell {
  app : App;
  editingColumnId : option string;
  addColumnAnchor : option Rect;
  isLibraryOpen : bool
}.
Arguments mkShell {Rect} _ _ _ _.
Arguments app {Rect} _.
Arguments editingColumnId {Rect} _.
Arguments addColumnAnchor {Rect} _.
Arguments isLibraryOpen {Rect} _.

Definition onApp {Rect} (f : App → App) (s : Shell Rect) : Shell Rect :=
  mkShell (f (app s)) (editingColumnId s) (addColumnAnchor s) (isLibraryOpen s).

Definition handleSaveColumn {Rect} (now : N) (name : string) (type : ColumnType)
    (prompt : string) (s : Shell Rect) : Shell Rect :=
  match truthyString (editingColumnId s) with
  | Some editing =>
      mkShell
        (setColumns
           (map (λ c, if decide (col_id c = editing)
                      then withColDef name type prompt c else c)) (app s))
        None None (isLibraryOpen s)
  | None =>
      mkShell
        (setColumns (λ prev, prev ++ [newColumn now name type prompt]) (app s))
        (editingColumnId s) None (isLibraryOpen s)
  end.

Definition handleDeleteColumn {Rect} (s : Shell Rect) : Shell Rect :=
  match truthyString (editingColumnId s) with
  | Some editing =>
      let st1 := setColumns (filter (λ c, col_id c ≠ editing)) (app s) in
      let st2 := setResults (dropColumnResults editing) st1 in
      let st3 :=
        match selectedCell (app s) with
        | Some (_, c) =>
            if decide (c = editing)
            then setSidebarMode SbNone (setSelectedCell None st2)
            else st2
        | None => st2
        end in
      mkShell st3 None None (isLibraryOpen s)
  | None => s
  end.

Definition handleEditColumn {Rect} (colId : string) (rect : Rect) (s : Shell Rect)
  : Shell Rect :=
  mkShell (app s) (Some colId) (Some rect) (isLibraryOpen s).

Definition handleCloseMenu {Rect} (s : Shell Rect) : Shell Rect :=
  mkShell (app s) None None (isLibraryOpen s).

Definition handleOpenLibrary {Rect} (s : Shell Rect) : Shell Rect :=
  mkShell (app s) (editingColumnId s) None true.

Definition handleSelectTemplate {Rect} (now : N) (name : string) (type : ColumnType)
    (prompt : string) (s : Shell Rect) : Shell Rect :=
  mkShell (setColumns (λ prev, prev ++ [newColumn now name type prompt]) (app s))
    (editingColumnId s) (addColumnAnchor s) false.

(** [handleClearAll]; [confirmed] is the answer of [window.confirm], which is
    asked only when the store has a key. *)
Definition handleClearAll {Rect} (confirmed : bool) (s : Shell Rect) : Shell Rect :=
  let hasWork := negb (size (results (app s)) =? 0)%nat in
  if hasWork && negb confirmed then s
  else
    let st1 := setIsProcessing false (abortCurrent (app s)) in
    let st2 :=
      setPreviewDocId None
        (setSelectedCell None
           (setSidebarMode SbNone
              (setResults (λ _, ∅)
                 (setColumns (λ _, []) (setDocuments (λ _, []) st1))))) in
    mkShell st2 None None (isLibraryOpen s).

(** ** Actions: the handlers of the component

    One constructor per callback that [App] passes to its children or binds
    to a control.  The bare state setters bound to controls (project name,
    model, text wrap, expansion of the sidebar) write state that no handler
    reads; they have no constructor. *)

Inductive Action (Rect : Type) :=
  | ActEvent (e : Event)
  | ActUpload (processedFiles : list DocumentFile)
  | ActLoadSample (sampleCols : list Column)
  | ActClearAll (confirmed : bool)
  | ActAddColumn (rect : Rect)
  | ActEditColumn (colId : string) (rect : Rect)
  | ActCloseMenu
  | ActSaveColumn (now : N) (name : string) (type : ColumnType) (prompt : string)
  | ActDeleteColumn
  | ActColumnResize (colId : string) (newWidth : Z)
  | ActOpenLibrary
  | ActCloseLibrary
  | ActSelectTemplate (now : N) (name : string) (type : ColumnType) (prompt : string)
  | ActToggleAllDocSelection
  | ActDocumentClick (docId : string)
  | ActToggleChat
  | ActCloseVerificationSidebar
  | ActCloseChat
  | ActVerifyCell.
Arguments ActEvent {Rect} e.
Arguments ActUpload {Rect} processedFiles.
Arguments ActLoadSample {Rect} sampleCols.
Arguments ActClearAll {Rect} confirmed.
Arguments ActAddColumn {Rect} rect.
Arguments ActEditColumn {Rect} colId rect.
Arguments ActCloseMenu {Rect}.
Arguments ActSaveColumn {Rect} now name type prompt.
Arguments ActDeleteColumn {Rect}.
Arguments ActColumnResize {Rect} colId newWidth.
Arguments ActOpenLibrary {Rect}.
Arguments ActCloseLibrary {Rect}.
Arguments ActSelectTemplate {Rect} now name type prompt.
Arguments ActToggleAllDocSelection {Rect}.
Arguments ActDocumentClick {Rect} docId.
Arguments ActToggleChat {Rect}.
Arguments ActCloseVerificationSidebar {Rect}.
Arguments ActCloseChat {Rect}.
Arguments ActVerifyCell {Rect}.

(** One action.  [None]: the action cannot be taken in this state (its
    control is not mounted) or its updater does not return a store of
    extraction cells. *)
Definition act {Rect} (a : Action Rect) (s : Shell Rect) : option (Shell Rect) :=
  match a with
  | ActEvent e => Some (onApp (step e) s)
  | ActUpload files => Some (onApp (appendDocuments files) s)
  | ActLoadSample sampleCols => Some (onApp (handleLoadSample sampleCols) s)
  | ActClearAll confirmed => Some (handleClearAll confirmed s)
  | ActAddColumn rect =>
      Some (mkShell (app s) (editingColumnId s) (Some rect) (isLibraryOpen s))
  | ActEditColumn colId rect => Some (handleEditColumn colId rect s)
  | ActCloseMenu => Some (handleCloseMenu s)
  | ActSaveColumn now name type prompt => Some (handleSaveColumn now name type prompt s)
  | ActDeleteColumn => Some (handleDeleteColumn s)
  | ActColumnResize colId newWidth => Some (onApp (handleColumnResize colId newWidth) s)
  | ActOpenLibrary => Some (handleOpenLibrary s)
  | ActCloseLibrary =>
      Some (mkShell (app s) (editingColumnId s) (addColumnAnchor s) false)
  | ActSelectTemplate now name type prompt =>
      Some (handleSelectTemplate now name type prompt s)
  | ActToggleAllDocSelection => Some (onApp handleToggleAllDocSelection s)
  | ActDocumentClick docId => Some (onApp (handleDocumentClick docId) s)
  | ActToggleChat => Some (onApp toggleChat s)
  | ActCloseVerificationSidebar =>
      match sidebarMode (app s), getSidebarData (app s) with
      | SbVerify, Normal (Some _) => Some (onApp closeVerificationSidebar s)
      | _, _ => None
      end
  | ActCloseChat =>
      match sidebarMode (app s) with
      | SbChat => Some (onApp closeChat s)
      | _ => None
      end
  | ActVerifyCell =>
      match sidebarMode (app s), getSidebarData (app s) with
      | SbVerify, Normal (Some _) =>
          match handleVerifyCell (app s) with
          | Updated st' => Some (onApp (λ _, st') s)
          | StatusOnlyEntry => None
          | TypeError => None
          end
      | _, _ => None
      end
  end.

Fixpoint acts {Rect} (l : list (Action Rect)) (s : Shell Rect) : option (Shell Rect) :=
  match l with
  | [] => Some s
  | a :: l' =>
      match act a s with
      | Some s' => acts l' s'
      | None => None
      end
  end.

Definition initialShell {Rect} : Shell Rect := mkShell initialApp None None false.

(** ** Column template helpers ([utils/fileStorage.ts]) *)

(** [Omit<ColumnTemplate, 'id' | 'createdAt'>] *)
Record TemplateInput := mkTemplateInput {
  in_name : string;
  in_type : ColumnType;
  in_prompt : string;
  in_category : option string
}.

(** [now] is [Date.now()], [rand] is
    [Math.random().toString(36).substring(2, 7)] and [createdAt] is
    [new Date().toISOString()]. *)
Definition addTemplateToLibrary (template : TemplateInput) (now : N) (rand : string)
    (createdAt : string) (storage : option ColumnLibrary)
  : ColumnTemplate * option ColumnLibrary :=
  let library := loadColumnLibrary storage in
  let newTemplate :=
    mkColumnTemplate ("tpl_" +:+ pretty now +:+ "_" +:+ rand)
      (in_name template) (in_type template) (in_prompt template)
      (in_category template) createdAt in
  let library' :=
    mkColumnLibrary (lib_version library) (lib_templates library ++ [newTemplate]) in
  (newTemplate, saveColumnLibrary library' storage).

Definition removeTemplateFromLibrary (templateId : string)
    (storage : option ColumnLibrary) : option ColumnLibrary :=
  let library := loadColumnLibrary storage in
  let library' :=
    mkColumnLibrary (lib_version library)
      (filter (λ t, tpl_id t ≠ templateId) (lib_templates library)) in
  saveColumnLibrary library' storage.

(** [Partial<Omit<ColumnTemplate, 'id' | 'createdAt'>>]: a field that is
    present carries its new value; [category] may be present and undefined. *)
Record TemplateUpdates := mkTemplateUpdates {
  upd_name : option string;
  upd_type : option ColumnType;
  upd_prompt : option string;
  upd_category : option (option string)
}.

(** [{ ...template, ...updates }] *)
Definition applyUpdates (updates : TemplateUpdates) (t : ColumnTemplate)
  : ColumnTemplate :=
  mkColumnTemplate (tpl_id t)
    (default (tpl_name t) (upd_name updates))
    (default (tpl_type t) (upd_type updates))
    (default (tpl_prompt t) (upd_prompt updates))
    (default (tpl_category t) (upd_category updates))
    (tpl_createdAt t).

Definition updateTemplateInLibrary (templateId : string) (updates : TemplateUpdates)
    (storage : option ColumnLibrary) : option ColumnLibrary :=
  let library := loadColumnLibrary storage in
  match list_find (λ t, tpl_id t = templateId) (lib_templates library) with
  | Some (index, t) =>
      saveColumnLibrary
        (mkColumnLibrary (lib_version library)
           (<[index := applyUpdates updates t]> (lib_templates library)))
        storage
  | None => storage
  end.

(** [Array.prototype.sort] without a comparator orders strings by their
    UTF-16 code units.  A string here is the UTF-8 encoding of the program's
    string.  Byte order and code unit order agree except between a character
    of U+E000..U+FFFF, whose first byte is 0xEE or 0xEF, and a character
    beyond U+FFFF, whose first byte is 0xF0..0xF4 and whose first code unit is
    a surrogate, below 0xE000.  [utf16Rank] puts the two bytes above the
    five; no other byte of an encoding is that large. *)
Definition utf16Rank (b : ascii) : N :=
  let n := N_of_ascii b in
  if (238 <=? n)%N && (n <=? 239)%N then (n + 256)%N else n.

Fixpoint utf16Compare (s1 s2 : string) : comparison :=
  match s1, s2 with
  | EmptyString, EmptyString => Eq
  | EmptyString, String _ _ => Lt
  | String _ _, EmptyString => Gt
  | String b1 rest1, String b2 rest2 =>
      match N.compare (utf16Rank b1) (utf16Rank b2) with
      | Eq => utf16Compare rest1 rest2
      | c => c
      end
  end.

(** The order of [Array.prototype.sort] without a comparator, on strings. *)
Definition stringLe (s1 s2 : string) : Prop := utf16Compare s1 s2 ≠ Gt.

#[global] Instance stringLe_dec s1 s2 : Decision (stringLe s1 s2).
Proof. unfold stringLe. apply _. Defined.

Definition getTemplateCategories (storage : option ColumnLibrary) : list string :=
  let library := loadColumnLibrary storage in
  let categories : gset string :=
    list_to_set (omap (λ t, truthyString (tpl_category t)) (lib_templates library)) in
  merge_sort stringLe (elements categories).

(** ** The column menu ([AddColumnMenu]) *)

(** The form state of the menu. *)
Record MenuForm := mkMenuForm {
  mf_name : string;
  mf_type : ColumnType;
  mf_prompt : string;
  mf_category : string;
  mf_saveToLibrary : bool
}.

(** [handleSave] of the menu, with [handleSaveColumn] as its [onSave].
    [tplNow], [rand] and [createdAt] are what [addTemplateToLibrary] reads
    from the clock and the random source; [colNow] is the [Date.now()] of
    [handleSaveColumn]. *)
Definition menuHandleSave {Rect} (form : MenuForm) (tplNow : N)
    (rand createdAt : string) (colNow : N) (s : Shell Rect)
    (storage : option ColumnLibrary) : Shell Rect * option ColumnLibrary :=
  match truthyString (Some (mf_name form)), truthyString (Some (mf_prompt form)) with
  | Some name, Some prompt =>
      let storage' :=
        if mf_saveToLibrary form
        then (addTemplateToLibrary
                (mkTemplateInput name (mf_type form) prompt
                   (truthyString (Some (mf_category form))))
                tplNow rand createdAt storage).2
        else storage in
      (handleSaveColumn colNow name (mf_type form) prompt s, storage')
  | _, _ => (s, storage)
  end.

(** ** Notions used by the further properties *)

(** The store key of a planned pair. *)
Definition pairKey (p : DocumentFile * Column) : string * string :=
  (doc_id p.1, col_id p.2).

(** Events that do not delete or replace stored rows. *)
Definition keepsCells (e : Event) : bool :=
  match e with
  | EvLoadProject _ _ _ | EvRemoveDoc _ | EvRerunSelected => false
  | _ => true
  end.

(** The controller reference points to the newest run, the processing flag
    is raised only under a referenced controller, the referenced run has not
    finished and a finished run has no suspended task. *)
Definition controllerConsistent (st : App) : Prop :=
  (∀ i, abortControllerRef st = Some i → S i = length (runs st))
  ∧ (isProcessing st = true → is_Some (abortControllerRef st))
  ∧ (∀ i r, abortControllerRef st = Some i → runs st !! i = Some r →
            run_finished r = false)
  ∧ (∀ i r, runs st !! i = Some r → run_finished r = true →
            Forall (λ t, task_phase t ≠ TaskAwaiting) (run_tasks r)).

(** In verify mode exactly one of the inspected cell and the previewed
    document is set; in the other modes neither is. *)
Definition sidebarConsistent (st : App) : Prop :=
  match sidebarMode st with
  | SbVerify =>
      (is_Some (selectedCell st) ∧ previewDocId st = None)
      ∨ (selectedCell st = None ∧ is_Some (previewDocId st))
  | SbNone | SbChat => selectedCell st = None ∧ previewDocId st = None
  end.

(** The inspected cell, if any, is a cell of the store. *)
Definition selectedCellPresent (st : App) : Prop :=
  ∀ d c, selectedCell st = Some (d, c) → is_Some (cellAt (results st) d c).

Definition isRerun {Rect} (a : Action Rect) : bool :=
  match a with
  | ActEvent EvRerunSelected => true
  | _ => false
  end.

(** A click, if the action is one, is on identifiers that are not keys of
    [Object.prototype]. *)
Definition clicksPlain {Rect} (a : Action Rect) : bool :=
  match a with
  | ActEvent (EvCellClick docId colId) =>
      bool_decide (plainId docId) && bool_decide (plainId colId)
  | _ => true
  end.

(** Events in which no client call returns and the user does no more than
    stop the run or change the selection of documents. *)
Definition noReturn (e : Event) : bool :=
  match e with
  | EvStopExtraction | EvToggleDocSelection _ | EvAllSettled _ => true
  | _ => false
  end.

(** A settled task of a run in which every call succeeds has left a cell at
    its key. *)
Definition taskSettledOk (results : ExtractionResult) (t : Task) : Prop :=
  match task_phase t with
  | TaskAwaiting => True
  | TaskDone =>
      is_Some (cellAt results (doc_id (task_doc t)) (col_id (task_col t)))
  | TaskSkipped => False
  end.

(** The state of run [rid], started with plan [plan] over store [R0] and
    column list [cols], while its calls return successfully. *)
Definition runProgress (rid : nat) (plan : list (DocumentFile * Column))
    (R0 : ExtractionResult) (cols cols1 : list Column) (st : App) : Prop :=
  (∃ r, runs st !! rid = Some r
        ∧ run_aborted r = false ∧ run_finished r = false ∧ run_cols r = cols
        ∧ map (λ t, (task_doc t, task_col t)) (run_tasks r) = plan
        ∧ ∀ j t, run_tasks r !! j = Some t → taskSettledOk (results st) t)
  ∧ (∀ d c x, cellAt R0 d c = Some x → cellAt (results st) d c = Some x)
  ∧ abortControllerRef st = Some rid
  ∧ columns st = cols1.

Definition taskDone (rid tid : nat) (st : App) : Prop :=
  ∃ r t, runs st !! rid = Some r ∧ run_tasks r !! tid = Some t
         ∧ task_phase t = TaskDone.

(** A state reached by the handlers, for the concrete scenarios: two
    documents, one column, a run in flight. *)
Definition sampleActions : list (Action unit) :=
  [ActEvent (EvLoadProject [colX] [docA; docB] ∅); ActEvent EvRunAnalysis].

Definition runningShell : Shell unit :=
  mkShell
    (exec [EvLoadProject [colX] [docA; docB] ∅; EvRunAnalysis] initialApp)
    None None false.

(** A stored library for the concrete scenarios. *)
Definition tplTerm : ColumnTemplate :=
  mkColumnTemplate "tpl_1_aaaaa" "Term" TyText "What is the term?" (Some "Legal")
    "2025-01-01T00:00:00.000Z".
Definition tplFee : ColumnTemplate :=
  mkColumnTemplate "tpl_2_bbbbb" "Fee" TyNumber "What is the fee?" (Some "Financial")
    "2025-01-02T00:00:00.000Z".
Definition sampleStorage : option ColumnLibrary :=
  Some (mkColumnLibrary 1 [tplTerm; tplFee]).

(** Two categories of one character each: U+FF5E, with the encoding
    EF BD 9E and the code unit FF5E, and U+1F600, with the encoding
    F0 9F 98 80 and the code units D83D DE00. *)
Definition categoryFF5E : string :=
  String "239"%char (String "189"%char (String "158"%char EmptyString)).
Definition category1F600 : string :=
  String "240"%char
    (String "159"%char (String "152"%char (String "128"%char EmptyString))).
Definition unicodeStorage : option ColumnLibrary :=
  Some (mkColumnLibrary 1
          [mkColumnTemplate "tpl_4_ddddd" "Wave" TyText "p" (Some categoryFF5E)
             "2025-01-04T00:00:00.000Z";
           mkColumnTemplate "tpl_5_eeeee" "Face" TyText "p" (Some category1F600)
             "2025-01-05T00:00:00.000Z"]).

End Model.

(** The implicit arguments declared in the section, outside of it. *)
Arguments Updated {A} a.
Arguments StatusOnlyEntry {A}.
Arguments TypeError {A}.
Arguments mkShell {Rect} _ _ _ _.
Arguments app {Rect} _.
Arguments editingColumnId {Rect} _.
Arguments addColumnAnchor {Rect} _.
Arguments isLibraryOpen {Rect} _.
Arguments ActEvent {Rect} e.
Arguments ActUpload {Rect} processedFiles.
Arguments ActLoadSample {Rect} sampleCols.
Arguments ActClearAll {Rect} confirmed.
Arguments ActAddColumn {Rect} rect.
Arguments ActEditColumn {Rect} colId rect.
Arguments ActCloseMenu {Rect}.
Arguments ActSaveColumn {Rect} now name type prompt.
Arguments ActDeleteColumn {Rect}.
Arguments ActColumnResize {Rect} colId newWidth.
Arguments ActOpenLibrary {Rect}.
Arguments ActCloseLibrary {Rect}.
Arguments ActSelectTemplate {Rect} now name type prompt.
Arguments ActToggleAllDocSelection {Rect}.
Arguments ActDocumentClick {Rect} docId.
Arguments ActToggleChat {Rect}.
Arguments ActCloseVerificationSidebar {Rect}.
Arguments ActCloseChat {Rect}.
Arguments ActVerifyCell {Rect}.

(** ** A host for the concrete scenarios

    The built-in objects as ECMAScript 2023 specifies them (20.1.2, 20.1.3,
    20.2.3, 10.2.4 and B.2.2). *)

(** The [length] of the built-in function that is the value of a key of
    [Object.prototype]. *)
Definition builtinLength (m : string) : N :=
  if bool_decide (m ∈ ["__defineGetter__"; "__defineSetter__"]) then 2
  else if bool_decide (m ∈ ["toString"; "valueOf"; "toLocaleString"]) then 0
  else 1.

(** The function properties of the [Object] constructor. *)
Definition objectConstructorKeys : list string :=
  ["assign"; "create"; "defineProperties"; "defineProperty"; "entries";
   "freeze"; "fromEntries"; "getOwnPropertyDescriptor";
   "getOwnPropertyDescriptors"; "getOwnPropertyNames";
   "getOwnPropertySymbols"; "getPrototypeOf"; "hasOwn"; "is"; "isExtensible";
   "isFrozen"; "isSealed"; "keys"; "preventExtensions"; "seal";
   "setPrototypeOf"; "values"; "prototype"].

(** Reading [c] of a built-in function: [caller] and [arguments] are
    accessors of [Function.prototype] that throw; [name] is a non-empty
    string; the other properties found on the function, on
    [Function.prototype] or on [Object.prototype] are objects. *)
Definition functionRead (m c : string) : BuiltinValue :=
  if bool_decide (c ∈ ["caller"; "arguments"]) then BuiltinThrows
  else if bool_decide (c = "length")
  then (if (0 <? builtinLength m)%N then BuiltinTruthy else BuiltinFalsy)
  else if bool_decide (c ∈ ["name"; "apply"; "bind"; "call"]) then BuiltinTruthy
  else if bool_decide (c ∈ objectPrototypeKeys) then BuiltinTruthy
  else if bool_decide (m = "constructor") && bool_decide (c ∈ objectConstructorKeys)
  then BuiltinTruthy
  else BuiltinFalsy.

(** Reading [c] of [Object.prototype]: its own [__proto__] is [null]. *)
Definition objectPrototypeRead (c : string) : BuiltinValue :=
  if bool_decide (c = "__proto__") then BuiltinFalsy
  else if bool_decide (c ∈ objectPrototypeKeys) then BuiltinTruthy
  else BuiltinFalsy.

Definition sampleHost : Host :=
  {| builtinRead m c :=
       if bool_decide (m = "__proto__") then objectPrototypeRead c
       else functionRead m c |}.

(** A project file whose document is named like a property of
    [Object.prototype] and whose column is named like a property of the
    value found there. *)
Definition docConstructor : DocumentFile :=
  mkDocumentFile "constructor" "c.pdf" "application/pdf" 1024 "IyBD" "text/markdown".
Definition colName : Column :=
  mkColumn "name" "Name" TyText "What is the name?" idle (Some 250%Z).

(** * Properties *)

Section Properties.
Context {host : Host}.

(** ** Task planner *)

Lemma readRow_plain row c :
  plainId c →
  readRow row c
  = match row !! c with
    | Some (Some cell) => ReadCell cell
    | _ => ReadFalsy
    end.
Proof.
  intros Hc. unfold readRow. destruct (row !! c) as [[cell|]|]; try done.
  by rewrite decide_False.
Qed.

(** On plain identifiers a read of the store sees what the store holds. *)
Lemma readStore_plain R d c :
  plainId d → plainId c →
  readStore R d c
  = match cellAt R d c with
    | Some cell => ReadCell cell
    | None => ReadFalsy
    end.
Proof.
  intros Hd Hc. unfold readStore, cellAt. destruct (R !! d) as [row|].
  - rewrite readRow_plain by done. by destruct (row !! c) as [[cell|]|].
  - by rewrite decide_False.
Qed.

Lemma readStore_cell R d c cell :
  cellAt R d c = Some cell → readStore R d c = ReadCell cell.
Proof.
  unfold cellAt, readStore, readRow. destruct (R !! d) as [row|]; [|done].
  destruct (row !! c) as [[x|]|]; try done. by intros [= ->].
Qed.

Lemma readStore_ReadCell R d c cell :
  readStore R d c = ReadCell cell → cellAt R d c = Some cell.
Proof.
  unfold cellAt, readStore, readRow. destruct (R !! d) as [row|].
  - destruct (row !! c) as [[x|]|]; try done; [by intros [= ->]|].
    by case_decide.
  - case_decide; [|done]. by destruct (builtinRead d c).
Qed.

(** A read that goes through [Object.prototype]. *)
Lemma readStore_inherited R d c :
  R !! d = None → d ∈ objectPrototypeKeys →
  readStore R d c = readBuiltin (builtinRead d c).
Proof. intros Hrow Hd. unfold readStore. rewrite Hrow. by rewrite decide_True. Qed.

Lemma plainIds_decide {A} (f : A → string) (l : list A) :
  forallb (λ x, bool_decide (plainId (f x))) l = true →
  ∀ x, x ∈ l → plainId (f x).
Proof.
  intros Hall x Hx. apply list_elem_of_In in Hx.
  apply (proj1 (forallb_forall _ _) Hall x) in Hx.
  by apply bool_decide_eq_true in Hx.
Qed.

Lemma needsTask_overwrite R d c : needsTask R true d c = Some true.
Proof. reflexivity. Qed.

Lemma needsTask_plain R d c :
  plainId (doc_id d) → plainId (col_id c) →
  needsTask R false d c = Some (bool_decide (cellAt R (doc_id d) (col_id c) = None)).
Proof.
  intros Hd Hc. unfold needsTask. rewrite readStore_plain by done.
  by destruct (cellAt R (doc_id d) (col_id c)).
Qed.

Lemma needsTask_cell R d c cell :
  cellAt R (doc_id d) (col_id c) = Some cell → needsTask R false d c = Some false.
Proof. intros Hcell. unfold needsTask. by rewrite (readStore_cell _ _ _ cell). Qed.

Lemma planCols_filter R f d (cols : list Column) l :
  planCols R f d cols = Some l →
  l = filter (λ p, needsTask R f p.1 p.2 = Some true) (c ← cols; [(d, c)]).
Proof.
  revert l. induction cols as [|c cols IH]; intros l; [by intros [= <-]|].
  cbn [planCols].
  change (c ← c :: cols; [(d, c)]) with ((d, c) :: (c ← cols; [(d, c)])).
  rewrite filter_cons. cbn [fst snd].
  destruct (needsTask R f d c) as [b|] eqn:E; [|done]. cbn.
  destruct (planCols R f d cols) as [rest|]; [|done]. cbn. intros [= <-].
  rewrite <- (IH rest eq_refl). destruct b.
  - by rewrite decide_True.
  - by rewrite decide_False.
Qed.

Lemma planCols_is_Some R f d (cols : list Column) :
  (∀ c, c ∈ cols → is_Some (needsTask R f d c)) → is_Some (planCols R f d cols).
Proof.
  induction cols as [|c cols IH]; intros Hall; [by eexists|].
  cbn [planCols]. destruct (Hall c) as [b ->]; [left|]. cbn.
  destruct IH as [rest ->]; [intros c' Hc'; apply Hall; by right|]. by eexists.
Qed.

Lemma planLoop_filter (D : list DocumentFile) (C : list Column) R f l :
  planLoop D C R f = Some l →
  l = filter (λ p, needsTask R f p.1 p.2 = Some true) (allPairs D C).
Proof.
  unfold allPairs. revert l. induction D as [|d D IH]; intros l; [by intros [= <-]|].
  cbn [planLoop].
  change (d0 ← d :: D; c ← C; [(d0, c)])
    with ((c ← C; [(d, c)]) ++ (d0 ← D; c ← C; [(d0, c)])).
  destruct (planCols R f d C) as [row|] eqn:Hrow; [|done]. cbn.
  destruct (planLoop D C R f) as [rest|]; [|done]. cbn. intros [= <-].
  by rewrite filter_app, <- (planCols_filter _ _ _ _ _ Hrow), <- (IH rest eq_refl).
Qed.

Lemma planLoop_is_Some (D : list DocumentFile) (C : list Column) R f :
  (∀ d c, d ∈ D → c ∈ C → is_Some (needsTask R f d c)) →
  is_Some (planLoop D C R f).
Proof.
  induction D as [|d D IH]; intros Hall; [by eexists|].
  cbn [planLoop].
  destruct (planCols_is_Some R f d C) as [row ->];
    [intros c Hc; apply Hall; [left|done]|]. cbn.
  destruct IH as [rest ->]; [intros d' c Hd' Hc; apply Hall; [by right|done]|].
  by eexists.
Qed.

(** The loop throws exactly when the read of some pair does. *)
Lemma planLoop_None (D : list DocumentFile) (C : list Column) R f :
  planLoop D C R f = None
  ↔ ∃ d c, d ∈ D ∧ c ∈ C ∧ needsTask R f d c = None.
Proof.
  split.
  - intros Hnone.
    destruct (decide (Forall (λ d, Forall (λ c, is_Some (needsTask R f d c)) C) D))
      as [Hall|Hex].
    + destruct (planLoop_is_Some D C R f) as [l Hl]; [|congruence].
      intros d c Hd Hc.
      exact (proj1 (Forall_forall _ _) (proj1 (Forall_forall _ _) Hall d Hd) c Hc).
    + apply not_Forall_Exists in Hex; [|apply _].
      apply Exists_exists in Hex as (d & Hd & Hex).
      apply not_Forall_Exists in Hex; [|apply _].
      apply Exists_exists in Hex as (c & Hc & Hn). cbv [compose] in Hn.
      exists d, c. split; [done|]. split; [done|].
      destruct (needsTask R f d c); [|done]. destruct Hn. by eexists.
  - intros (d & c & Hd & Hc & Hn).
    destruct (planLoop D C R f) as [l|] eqn:Hl; [|done]. exfalso. revert l Hl.
    induction D as [|d0 D IH]; intros l Hl; [by apply elem_of_nil in Hd|].
    cbn [planLoop] in Hl.
    destruct (planCols R f d0 C) as [row|] eqn:Hrow; [|done]. cbn in Hl.
    destruct (planLoop D C R f) as [rest|] eqn:Hrest; [|done].
    apply elem_of_cons in Hd as [->|Hd]; [|by apply (IH Hd rest)].
    clear -Hc Hn Hrow. revert row Hrow.
    induction C as [|c0 C IH]; intros row Hrow; [by apply elem_of_nil in Hc|].
    cbn [planCols] in Hrow.
    destruct (needsTask R f d0 c0) as [b|] eqn:Hb; [|done]. cbn in Hrow.
    destruct (planCols R f d0 C) as [rest|] eqn:Hrest; [|done].
    apply elem_of_cons in Hc as [->|Hc]; [congruence|]. by apply (IH Hc rest).
Qed.

Lemma planTasks_Some (D : list DocumentFile) (C : list Column) R f l :
  planLoop D C R f = Some l → planTasks D C R f = l.
Proof. intros Hl. unfold planTasks. by rewrite Hl. Qed.

Lemma plannerThrows_false (D : list DocumentFile) (C : list Column) R f :
  is_Some (planLoop D C R f) → plannerThrows D C R f = false.
Proof. intros [l Hl]. unfold plannerThrows. by rewrite Hl. Qed.

(** The dispatched tasks are picked from D×C, in its order. *)
Lemma planTasks_sublist (D : list DocumentFile) (C : list Column) R f :
  planTasks D C R f `sublist_of` allPairs D C.
Proof.
  unfold planTasks. destruct (planLoop D C R f) as [l|] eqn:Hl.
  - rewrite (planLoop_filter _ _ _ _ _ Hl). apply sublist_filter.
  - apply sublist_nil_l.
Qed.

Lemma filter_all {A} (P : A → Prop) `{!∀ x, Decision (P x)} (l : list A) :
  (∀ x, P x) → filter P l = l.
Proof.
  intros HP. induction l as [|x l IH]; [done|].
  rewrite filter_cons_True by apply HP. by rewrite IH.
Qed.

Lemma elem_of_allPairs (D : list DocumentFile) (C : list Column) d c :
  (d, c) ∈ allPairs D C ↔ d ∈ D ∧ c ∈ C.
Proof.
  unfold allPairs. rewrite list_elem_of_bind. split.
  - intros (d' & Hin & Hd). apply list_elem_of_bind in Hin as (c' & Hin & Hc).
    apply list_elem_of_singleton in Hin. by simplify_eq.
  - intros [Hd Hc]. exists d. split; [|done].
    apply list_elem_of_bind. exists c. split; [|done]. by apply list_elem_of_singleton.
Qed.

Lemma filter_iff_in {A} (P Q : A → Prop) `{!∀ x, Decision (P x)}
    `{!∀ x, Decision (Q x)} (l : list A) :
  (∀ x, x ∈ l → (P x ↔ Q x)) → filter P l = filter Q l.
Proof.
  induction l as [|x l IH]; intros Hiff; [done|].
  rewrite !filter_cons.
  rewrite IH by (intros y Hy; apply Hiff; by right).
  destruct (decide (P x)) as [HP|HP].
  - rewrite decide_True; [done|]. apply Hiff; [left|done].
  - rewrite decide_False; [done|]. intros HQ. apply HP. apply Hiff; [left|done].
Qed.

Lemma planLoop_overwrite (D : list DocumentFile) (C : list Column) R :
  planLoop D C R true = Some (allPairs D C).
Proof.
  destruct (planLoop_is_Some D C R true) as [l Hl]; [by eexists|].
  rewrite Hl. f_equal. rewrite (planLoop_filter _ _ _ _ _ Hl).
  apply filter_all. by intros [d c].
Qed.

(** Without a read through [Object.prototype] the loop returns the pairs for
    which the store holds no cell. *)
Lemma planLoop_plain (D : list DocumentFile) (C : list Column) R :
  (∀ d, d ∈ D → plainId (doc_id d)) → (∀ c, c ∈ C → plainId (col_id c)) →
  planLoop D C R false
  = Some (filter (λ p, cellAt R (doc_id p.1) (col_id p.2) = None) (allPairs D C)).
Proof.
  intros HD HC.
  destruct (planLoop_is_Some D C R false) as [l Hl].
  { intros d c Hd Hc. rewrite needsTask_plain by auto. by eexists. }
  rewrite Hl. f_equal. rewrite (planLoop_filter _ _ _ _ _ Hl).
  apply filter_iff_in. intros [d c] [Hd Hc]%elem_of_allPairs. cbn [fst snd].
  rewrite needsTask_plain by auto. split.
  - intros [= Hb]. by apply bool_decide_eq_true in Hb.
  - intros Hb. f_equal. by apply bool_decide_eq_true.
Qed.

(** C1.  The planner misses pairs that hold no cell.  When the document id
    is a key of [Object.prototype] for which the store has no row, and the
    built-in object found there has a truthy property named like the column
    id, the read [results[doc.id]?.[col.id]] is truthy although the store
    holds no cell for the pair, and without overwrite the pair is not among
    the dispatched tasks.  With the document id [constructor] and the column
    id [name] the read gives the name of the [Object] function. *)
Theorem planner_misses_inherited_pair (D : list DocumentFile) (C : list Column)
    (R : ExtractionResult) (d : DocumentFile) (c : Column) :
  d ∈ D → c ∈ C →
  R !! doc_id d = None → doc_id d ∈ objectPrototypeKeys →
  builtinRead (doc_id d) (col_id c) = BuiltinTruthy →
  cellAt R (doc_id d) (col_id c) = None
  ∧ ((d, c) ∈ allPairs D C)
  ∧ ((d, c) ∉ planTasks D C R false)
  ∧ (∀ st r, last (runs (processExtraction R D C false st)) = Some r →
             ∀ t, t ∈ run_tasks r → (task_doc t, task_col t) ≠ (d, c)).
Proof.
  intros Hd Hc Hrow Hkey Hread.
  assert (Hneed : needsTask R false d c = Some false).
  { unfold needsTask. rewrite readStore_inherited, Hread by done. reflexivity. }
  assert (Hnot : (d, c) ∉ planTasks D C R false).
  { unfold planTasks. destruct (planLoop D C R false) as [l|] eqn:Hl;
      [|apply not_elem_of_nil].
    rewrite (planLoop_filter _ _ _ _ _ Hl). intros [Hn _]%list_elem_of_filter.
    cbn [fst snd] in Hn. congruence. }
  split; [unfold cellAt; by rewrite Hrow|]. split; [by apply elem_of_allPairs|].
  split; [exact Hnot|].
  intros st r. unfold processExtraction, planTasks in *.
  destruct (planLoop D C R false) as [l|];
    cbn [runs setRuns setColumns setIsProcessing setAbortControllerRef];
    rewrite last_snoc; intros [= <-] t Hin; cbn [run_tasks] in Hin;
    [|by apply elem_of_nil in Hin].
  change map with (@fmap list _) in Hin.
  apply list_elem_of_fmap in Hin as ([d' c'] & -> & Hin).
  cbn. intros [= -> ->]. by apply Hnot.
Qed.

(** ** Result store *)

(** Goals about a field that [handleRemoveDoc] sets in the same way on each
    of its branches. *)
Ltac removeDoc_cases st :=
  unfold handleRemoveDoc;
  destruct (selectedCell st) as [[? ?]|]; repeat case_decide; reflexivity.

Lemma cellAt_entryAt R d c :
  cellAt R d c = mjoin (entryAt R d c).
Proof.
  unfold cellAt, entryAt. destruct (R !! d) as [row|]; [|done].
  by destruct (row !! c) as [[?|]|].
Qed.

Lemma entryAt_merge_same R d c x :
  entryAt (mergeCell d c x R) d c = Some (Some x).
Proof.
  unfold entryAt, mergeCell. rewrite lookup_insert_eq. apply lookup_insert_eq.
Qed.

Lemma entryAt_merge_other R d c x d' c' :
  (d', c') ≠ (d, c) → entryAt (mergeCell d c x R) d' c' = entryAt R d' c'.
Proof.
  intros Hne. unfold entryAt, mergeCell.
  destruct (decide (d' = d)) as [->|Hd].
  - rewrite lookup_insert_eq. rewrite lookup_insert_ne by congruence.
    by destruct (R !! d).
  - by rewrite lookup_insert_ne.
Qed.

Lemma lookup_merge_other_doc R d c x d' :
  d' ≠ d → mergeCell d c x R !! d' = R !! d'.
Proof. intros Hne. unfold mergeCell. by rewrite lookup_insert_ne. Qed.

Lemma cellAt_merge_same R d c x :
  cellAt (mergeCell d c x R) d c = Some x.
Proof. by rewrite cellAt_entryAt, entryAt_merge_same. Qed.

Lemma cellAt_merge_other R d c x d' c' :
  (d', c') ≠ (d, c) → cellAt (mergeCell d c x R) d' c' = cellAt R d' c'.
Proof. intros Hne. by rewrite !cellAt_entryAt, entryAt_merge_other. Qed.

Lemma mergeCell_comm_cols R d cA cB x y :
  cA ≠ cB →
  mergeCell d cB y (mergeCell d cA x R) = mergeCell d cA x (mergeCell d cB y R).
Proof.
  intros Hne. unfold mergeCell. rewrite !lookup_insert_eq. cbn [default].
  rewrite !insert_insert_eq. f_equal. by apply insert_insert_ne.
Qed.

(** C2. Merge isolation.  For two distinct columns of one document, applying
    the two merges in either order leaves both cells in the store, and the
    two orders give the same store.  The two merges are what two resuming,
    non-cancelled tasks of that document do to the store, one after the
    other. *)
Theorem merge_isolation (R : ExtractionResult) (doc1 colA colB : string)
    (cellX cellY : ExtractionCell) :
  colA ≠ colB →
  let RAB := mergeCell doc1 colB cellY (mergeCell doc1 colA cellX R) in
  let RBA := mergeCell doc1 colA cellX (mergeCell doc1 colB cellY R) in
  cellAt RAB doc1 colA = Some cellX ∧ cellAt RAB doc1 colB = Some cellY
  ∧ cellAt RBA doc1 colA = Some cellX ∧ cellAt RBA doc1 colB = Some cellY
  ∧ RAB = RBA
  ∧ (∀ st doc cA cB,
       doc_id doc = doc1 → col_id cA = colA → col_id cB = colB →
       results (taskResume false doc cB (Resolved cellY)
                  (taskResume false doc cA (Resolved cellX) st))
       = mergeCell doc1 colB cellY (mergeCell doc1 colA cellX (results st))
       ∧ results (taskResume false doc cA (Resolved cellX)
                    (taskResume false doc cB (Resolved cellY) st))
         = mergeCell doc1 colA cellX (mergeCell doc1 colB cellY (results st))).
Proof.
  intros Hne RAB RBA. subst RAB RBA.
  split; [|split; [|split; [|split; [|split]]]].
  - rewrite cellAt_merge_other by congruence. apply cellAt_merge_same.
  - apply cellAt_merge_same.
  - apply cellAt_merge_same.
  - rewrite cellAt_merge_other by congruence. apply cellAt_merge_same.
  - by apply mergeCell_comm_cols.
  - intros st doc cA cB <- <- <-. split; reflexivity.
Qed.


(** C6. Deletion cascade.  Removing document [d] erases the row of [d] from
    the store and nothing else, removes [d] from the document list, and
    clears the inspected cell selection exactly when it referred to [d]. *)
Theorem deletion_cascade (st : App) (d : string) :
  let st' := handleRemoveDoc d st in
  results st' !! d = None
  ∧ (∀ c, cellAt (results st') d c = None)
  ∧ (∀ d', d' ≠ d → results st' !! d' = results st !! d')
  ∧ (∀ c, selectedCell st = Some (d, c) → selectedCell st' = None)
  ∧ (∀ d' c, d' ≠ d → selectedCell st = Some (d', c) → selectedCell st' = Some (d', c))
  ∧ documents st' = filter (λ doc, doc_id doc ≠ d) (documents st).
Proof.
  intros st'.
  assert (Hres : results st' = delete d (results st))
    by (subst st'; removeDoc_cases st).
  assert (Hdocs : documents st' = filter (λ doc, doc_id doc ≠ d) (documents st))
    by (subst st'; removeDoc_cases st).
  split; [by rewrite Hres, lookup_delete_eq|].
  split; [intros c; unfold cellAt; by rewrite Hres, lookup_delete_eq|].
  split; [intros d' Hne; by rewrite Hres, lookup_delete_ne|].
  split; [|split; [|exact Hdocs]].
  - intros c Hsel. subst st'. unfold handleRemoveDoc. rewrite Hsel.
    repeat case_decide; try reflexivity; congruence.
  - intros d' c Hne Hsel. subst st'. unfold handleRemoveDoc. rewrite Hsel.
    repeat case_decide; try exact Hsel; congruence.
Qed.


(** ** Cell verification *)

(** C9. Verifying a cell is a pure status overlay.  With a selected cell whose
    entry is a non-null cell, the handler sets that cell's review status to
    [verified], keeps its value, confidence, quote, page and reasoning, keeps
    every other entry of the store and every other part of the state.  The
    precondition is needed: when the selected entry holds no cell the updater
    does not return such a store. *)
Theorem verify_is_status_overlay (st : App) (docId colId : string) :
  selectedCell st = Some (docId, colId) →
  (∀ cell, cellAt (results st) docId colId = Some cell →
     ∃ st' cell',
       handleVerifyCell st = Updated st'
       ∧ cellAt (results st') docId colId = Some cell'
       ∧ cell_status cell' = Some verified
       ∧ cell_value cell' = cell_value cell
       ∧ cell_confidence cell' = cell_confidence cell
       ∧ cell_quote cell' = cell_quote cell
       ∧ cell_page cell' = cell_page cell
       ∧ cell_reasoning cell' = cell_reasoning cell
       ∧ (∀ d c, (d, c) ≠ (docId, colId) →
            entryAt (results st') d c = entryAt (results st) d c)
       ∧ (∀ d, d ≠ docId → results st' !! d = results st !! d)
       ∧ st' = setResults (λ _, results st') st)
  ∧ (cellAt (results st) docId colId = None →
       ∀ st', handleVerifyCell st ≠ Updated st').
Proof.
  intros Hsel. split.
  - intros cell Hcell. unfold handleVerifyCell, verifyUpdater. rewrite Hsel.
    unfold cellAt in Hcell.
    destruct (results st !! docId) as [row|] eqn:Hrow; [|discriminate].
    destruct (row !! colId) as [[cell0|]|] eqn:Hcol; try discriminate.
    injection Hcell as ->.
    eexists _, (withReview verified cell). split; [reflexivity|].
    cbn [results setResults].
    split; [unfold cellAt; by rewrite lookup_insert_eq, lookup_insert_eq|].
    do 6 (split; [reflexivity|]).
    split; [|split; [|reflexivity]].
    + intros d c Hne. unfold entryAt.
      destruct (decide (d = docId)) as [->|Hd].
      * rewrite lookup_insert_eq, Hrow. apply lookup_insert_ne. congruence.
      * by rewrite lookup_insert_ne.
    + intros d Hd. by rewrite lookup_insert_ne.
  - intros Hnone st'. unfold handleVerifyCell, verifyUpdater. rewrite Hsel.
    unfold cellAt in Hnone.
    destruct (results st !! docId) as [row|].
    + destruct (row !! colId) as [[cell0|]|]; discriminate.
    + case_decide; [|discriminate]. destruct (builtinRead docId colId); discriminate.
Qed.


(** ** Column library *)

Lemma not_elem_of_existingIds (E : list ColumnTemplate) (t : ColumnTemplate) :
  tpl_id t ∉ (list_to_set (map tpl_id E) : gset string)
  ↔ tpl_id t ∉ map tpl_id E.
Proof. by rewrite elem_of_list_to_set. Qed.

Lemma filter_none {A} (P : A → Prop) `{!∀ x, Decision (P x)} (l : list A) :
  (∀ x, x ∈ l → ¬ P x) → filter P l = [].
Proof.
  intros HP. induction l as [|x l IH]; [done|].
  rewrite filter_cons_False by (apply HP; left).
  apply IH. intros y Hy. apply HP. by right.
Qed.

Lemma mergeLibraries_idem (E I : ColumnLibrary) :
  mergeLibraries (mergeLibraries E I) I = mergeLibraries E I.
Proof.
  assert (Hnil :
    filter (λ t, tpl_id t ∉ (list_to_set
                   (map tpl_id (lib_templates (mergeLibraries E I))) : gset string))
      (lib_templates I) = []).
  { apply filter_none. intros t Ht Hnot. apply Hnot.
    cbn [mergeLibraries lib_templates].
    rewrite elem_of_list_to_set, map_app, elem_of_app.
    destruct (decide (tpl_id t ∈ map tpl_id (lib_templates E))) as [Hin|Hout]; [by left|].
    right. apply list_elem_of_fmap. exists t. split; [done|].
    apply list_elem_of_filter. split; [|done]. by rewrite elem_of_list_to_set. }
  unfold mergeLibraries at 1. rewrite Hnil. by rewrite app_nil_r.
Qed.

(** C10.  Importing a column library.  As the module stands, with no binding
    for [isFileSystemAccessSupported], the import is rejected at its first
    step for every picked library: nothing is merged and the storage is left
    as it was.  Only with the identifier bound does the import do what it is
    written to do: it resolves to, and stores, the merge by template id of
    the stored and the picked library, which has version 1, the stored
    templates in their order and then the picked templates whose id is not
    among the stored ones, in their order; a second import of the same
    library changes nothing. *)
Theorem import_rejects_before_merging (E I : ColumnLibrary)
    (storage : option ColumnLibrary) :
  importColumnLibrary None (mkColumnLibrary 1 [tplFee]) sampleStorage
    = (Throws, sampleStorage)
  ∧ importColumnLibrary None I storage = (Throws, storage)
  ∧ lib_version (mergeLibraries E I) = 1%Z
  ∧ lib_templates (mergeLibraries E I)
    = lib_templates E
      ++ filter (λ t, tpl_id t ∉ map tpl_id (lib_templates E)) (lib_templates I)
  ∧ mergeLibraries (mergeLibraries E I) I = mergeLibraries E I
  ∧ ∀ b,
      let merged := mergeLibraries (loadColumnLibrary storage) I in
      importColumnLibrary (Some b) I storage = (Normal merged, Some merged)
      ∧ loadColumnLibrary (importColumnLibrary (Some b) I storage).2 = merged
      ∧ importColumnLibrary (Some b) I (Some merged) = (Normal merged, Some merged).
Proof.
  split; [reflexivity|]. split; [reflexivity|]. split; [reflexivity|].
  split; [|split; [apply mergeLibraries_idem|]].
  - cbn [mergeLibraries lib_templates]. f_equal.
    apply list_filter_iff. intros t. apply not_elem_of_existingIds.
  - intros b merged. split; [reflexivity|]. split; [reflexivity|].
    unfold importColumnLibrary, saveColumnLibrary. cbn [loadColumnLibrary].
    subst merged. by rewrite mergeLibraries_idem.
Qed.

(** ** CSV export *)

Lemma escapeQuotes_app (s1 s2 : string) :
  escapeQuotes (s1 +:+ s2) = escapeQuotes s1 +:+ escapeQuotes s2.
Proof.
  induction s1 as [|c s1 IH]; [done|].
  simpl. rewrite IH. by destruct (Ascii.eqb c dquote).
Qed.

Lemma escapeQuotes_char (c : ascii) :
  escapeQuotes (String c EmptyString)
  = if decide (c = dquote) then dq +:+ dq else String c EmptyString.
Proof.
  cbn [escapeQuotes]. destruct (Ascii.eqb_spec c dquote) as [->|Hne].
  - by rewrite decide_True.
  - by rewrite decide_False.
Qed.

Lemma mapThrowing_Normal {A B} (f : A → Completion B) (g : A → B) (l : list A) :
  (∀ x, x ∈ l → f x = Normal (g x)) → mapThrowing f l = Normal (map g l).
Proof.
  induction l as [|x l IH]; intros Hall; [done|].
  cbn [mapThrowing map]. rewrite (Hall x) by left.
  by rewrite IH by (intros y Hy; apply Hall; by right).
Qed.

Lemma mapThrowing_Throws {A B} (f : A → Completion B) (l : list A) (x : A) :
  x ∈ l → f x = Throws → mapThrowing f l = Throws.
Proof.
  intros Hx Hf. induction l as [|y l IH]; [by apply elem_of_nil in Hx|].
  cbn [mapThrowing]. apply elem_of_cons in Hx as [<-|Hx]; [by rewrite Hf|].
  rewrite (IH Hx). by destruct (f y).
Qed.

(** C7.  The export throws on a pair that holds no cell.  When the document
    id is a key of [Object.prototype] for which the store has no row, and the
    built-in object found there has a truthy property named like the column
    id, the export reads that value in place of a missing cell, finds no
    [value] in it and is left by a TypeError: no text is produced, where a
    missing cell is to be rendered as the empty string. *)
Theorem export_throws_on_inherited_pair (st : App) (d : DocumentFile) (c : Column) :
  d ∈ documents st → c ∈ columns st →
  results st !! doc_id d = None → doc_id d ∈ objectPrototypeKeys →
  builtinRead (doc_id d) (col_id c) = BuiltinTruthy →
  cellAt (results st) (doc_id d) (col_id c) = None
  ∧ csvField (results st) d c = Throws
  ∧ handleExportCSV st = Throws.
Proof.
  intros Hd Hc Hrow Hkey Hread.
  assert (Hfield : csvField (results st) d c = Throws).
  { unfold csvField. by rewrite readStore_inherited, Hread. }
  split; [unfold cellAt; by rewrite Hrow|]. split; [exact Hfield|].
  unfold handleExportCSV. destruct (documents st) as [|d0 ds] eqn:Hdocs;
    [by apply elem_of_nil in Hd|].
  cbn [length Nat.eqb]. unfold csvContent.
  rewrite (mapThrowing_Throws _ _ d); [done|done|].
  unfold csvRow. by rewrite (mapThrowing_Throws _ _ c).
Qed.

(** X24. The exported text.  When no document id and no column id is a key
    of [Object.prototype], the export does not throw.  With no document it
    produces nothing.  Otherwise the text is the header line, [Document Name]
    and the column names joined by commas, followed by one line per
    document in document order, the lines joined by line feeds; a line is
    the document name and one field per column in column order, joined by
    commas; a field is, between two double quotes, the value of the cell
    with every double quote doubled, and nothing for a pair without a cell.
    Names are written as they are. *)
Theorem csv_export_text (st : App) :
  let docs := documents st in
  let cols := columns st in
  let R := results st in
  let quote := String "034"%char EmptyString in
  let field doc col :=
    quote
    +:+ match cellAt R (doc_id doc) (col_id col) with
        | Some cell => escapeQuotes (cell_value cell)
        | None => EmptyString
        end
    +:+ quote in
  let line doc := String.concat "," (doc_name doc :: map (field doc) cols) in
  (∀ d, d ∈ docs → plainId (doc_id d)) → (∀ c, c ∈ cols → plainId (col_id c)) →
  (docs = [] → handleExportCSV st = Normal None)
  ∧ (docs ≠ [] →
       handleExportCSV st
       = Normal (Some (String.concat (String "010"%char EmptyString)
                         (String.concat "," ("Document Name" :: map col_name cols)
                          :: map line docs))))
  ∧ (∀ s1 s2, escapeQuotes (s1 +:+ s2) = escapeQuotes s1 +:+ escapeQuotes s2)
  ∧ (∀ c, escapeQuotes (String c EmptyString)
          = if decide (c = "034"%char) then quote +:+ quote
            else String c EmptyString).
Proof.
  intros docs cols R quote field line HD HC.
  split; [|split; [|split; [apply escapeQuotes_app|apply escapeQuotes_char]]].
  - intros Hnil. unfold handleExportCSV. fold docs. by rewrite Hnil.
  - intros Hne. unfold handleExportCSV. fold docs cols R.
    destruct docs as [|d0 ds] eqn:Hdocs; [done|]. cbn [length Nat.eqb].
    unfold csvContent. rewrite (mapThrowing_Normal _ line); [done|].
    intros d Hd. unfold csvRow.
    rewrite (mapThrowing_Normal _ (field d)); [done|].
    intros c Hc. unfold csvField, field.
    rewrite readStore_plain by auto. unfold quoted.
    by destruct (cellAt R (doc_id d) (col_id c)).
Qed.


(** ** Run controller: single steps *)

Lemma isAwaiting_true (t : Task) : isAwaiting t = true ↔ task_phase t = TaskAwaiting.
Proof. unfold isAwaiting. apply bool_decide_eq_true. Qed.

Lemma clientReturns_awaiting st rid tid r t o :
  runs st !! rid = Some r → run_tasks r !! tid = Some t →
  task_phase t = TaskAwaiting →
  clientReturns rid tid o st
  = taskResume (run_aborted r) (task_doc t) (task_col t) o
      (setRuns (alter (settleTaskOf tid) rid) st).
Proof.
  intros Hr Ht Hph. unfold clientReturns. rewrite Hr, Ht.
  by rewrite (proj2 (isAwaiting_true t) Hph).
Qed.

Lemma results_taskResume aborted doc col o st :
  results (taskResume aborted doc col o st)
  = match o with
    | Resolved data =>
        if aborted then results st
        else mergeCell (doc_id doc) (col_id col) data (results st)
    | Rejected _ => results st
    end.
Proof. destruct o, aborted; reflexivity. Qed.

Lemma columns_taskResume aborted doc col o st :
  columns (taskResume aborted doc col o st) = columns st.
Proof. destruct o, aborted; reflexivity. Qed.

Lemma runs_taskResume aborted doc col o st :
  runs (taskResume aborted doc col o st) = runs st.
Proof. destruct o, aborted; reflexivity. Qed.

Lemma ref_taskResume aborted doc col o st :
  abortControllerRef (taskResume aborted doc col o st) = abortControllerRef st.
Proof. destruct o, aborted; reflexivity. Qed.

Lemma columns_clientReturns rid tid o st :
  columns (clientReturns rid tid o st) = columns st.
Proof.
  unfold clientReturns. destruct (runs st !! rid) as [r|]; [|done].
  destruct (run_tasks r !! tid) as [t|]; [|done].
  destruct (isAwaiting t); [|done]. by rewrite columns_taskResume.
Qed.

Lemma ref_clientReturns rid tid o st :
  abortControllerRef (clientReturns rid tid o st) = abortControllerRef st.
Proof.
  unfold clientReturns. destruct (runs st !! rid) as [r|]; [|done].
  destruct (run_tasks r !! tid) as [t|]; [|done].
  destruct (isAwaiting t); [|done]. by rewrite ref_taskResume.
Qed.

Lemma runs_clientReturns rid tid o st :
  runs (clientReturns rid tid o st) = runs st
  ∨ runs (clientReturns rid tid o st) = alter (settleTaskOf tid) rid (runs st).
Proof.
  unfold clientReturns. destruct (runs st !! rid) as [r|]; [|by left].
  destruct (run_tasks r !! tid) as [t|]; [|by left].
  destruct (isAwaiting t); [|by left]. right. by rewrite runs_taskResume.
Qed.

(** The part of a state that decides what a resuming task does to the store
    and the columns. *)
Lemma clientReturns_results_ext rid tid o st1 st2 r1 r2 :
  results st1 = results st2 →
  runs st1 !! rid = Some r1 → runs st2 !! rid = Some r2 →
  run_aborted r1 = run_aborted r2 → run_tasks r1 !! tid = run_tasks r2 !! tid →
  results (clientReturns rid tid o st1) = results (clientReturns rid tid o st2).
Proof.
  intros Hres H1 H2 Hab Htk. unfold clientReturns. rewrite H1, H2, Htk.
  destruct (run_tasks r2 !! tid) as [t|]; [|done].
  destruct (isAwaiting t); [|done].
  rewrite !results_taskResume. cbn [results setRuns]. by rewrite Hab, Hres.
Qed.

(** C8. Task failure isolation.  When the client call of a suspended task
    fails, the failure is written to the console, the store and the columns
    are unchanged, no controller is aborted and no other task or run record
    changes, so that any other task that resumes afterwards does to the store
    and to the columns exactly what it would have done without the failure. *)
Theorem task_failure_isolated (st : App) (rid tid : nat) (r : Run) (t : Task)
    (e : string) :
  runs st !! rid = Some r → run_tasks r !! tid = Some t →
  task_phase t = TaskAwaiting →
  let st' := clientReturns rid tid (Rejected e) st in
  console st'
  = console st
    ++ [("Failed to extract " +:+ col_name (task_col t) +:+ " for "
           +:+ doc_name (task_doc t), e)]
  ∧ results st' = results st
  ∧ columns st' = columns st
  ∧ isProcessing st' = isProcessing st
  ∧ abortControllerRef st' = abortControllerRef st
  ∧ (∀ rid' r', runs st !! rid' = Some r' →
       ∃ r'', runs st' !! rid' = Some r''
         ∧ run_aborted r'' = run_aborted r'
         ∧ run_finished r'' = run_finished r'
         ∧ run_cols r'' = run_cols r'
         ∧ ∀ tid', (rid', tid') ≠ (rid, tid) →
             run_tasks r'' !! tid' = run_tasks r' !! tid')
  ∧ (∀ rid' tid' o, (rid', tid') ≠ (rid, tid) →
       results (clientReturns rid' tid' o st') = results (clientReturns rid' tid' o st)
       ∧ columns (clientReturns rid' tid' o st') = columns (clientReturns rid' tid' o st)).
Proof.
  intros Hr Ht Hph st'.
  assert (Hst' : st' = consoleError
            ("Failed to extract " +:+ col_name (task_col t) +:+ " for "
               +:+ doc_name (task_doc t)) e
            (setRuns (alter (settleTaskOf tid) rid) st)).
  { subst st'. by rewrite (clientReturns_awaiting st rid tid r t). }
  assert (Hruns : ∀ rid' r', runs st !! rid' = Some r' →
       ∃ r'', runs st' !! rid' = Some r''
         ∧ run_aborted r'' = run_aborted r'
         ∧ run_finished r'' = run_finished r'
         ∧ run_cols r'' = run_cols r'
         ∧ ∀ tid', (rid', tid') ≠ (rid, tid) →
             run_tasks r'' !! tid' = run_tasks r' !! tid').
  { intros rid' r' Hr'. rewrite Hst'. cbn [runs consoleError setRuns].
    destruct (decide (rid' = rid)) as [->|Hne].
    - rewrite list_lookup_alter_eq, Hr'. cbn. eexists. split; [reflexivity|].
      cbn. repeat split. intros tid' Hne'.
      apply list_lookup_alter_ne. congruence.
    - rewrite list_lookup_alter_ne by done. exists r'. by rewrite Hr'. }
  split; [by rewrite Hst'|]. split; [by rewrite Hst'|]. split; [by rewrite Hst'|].
  split; [by rewrite Hst'|]. split; [by rewrite Hst'|]. split; [exact Hruns|].
  intros rid' tid' o Hne. split; [|by rewrite !columns_clientReturns, Hst'].
  destruct (runs st !! rid') as [r'|] eqn:Hr'.
  - destruct (Hruns rid' r' Hr') as (r'' & Hr'' & Hab & _ & _ & Htk).
    apply (clientReturns_results_ext rid' tid' o st' st r'' r'); auto.
    by rewrite Hst'.
  - assert (runs st' !! rid' = None) as Hnone.
    { rewrite Hst'. cbn [runs consoleError setRuns].
      apply lookup_ge_None. rewrite length_alter. by apply lookup_ge_None. }
    unfold clientReturns. rewrite Hr', Hnone. by rewrite Hst'.
Qed.


(** ** Run records along a step *)

Lemma runs_abortCurrent st :
  runs (abortCurrent st)
  = match abortControllerRef st with
    | Some i => alter abortRun i (runs st)
    | None => runs st
    end.
Proof. unfold abortCurrent. by destruct (abortControllerRef st). Qed.

Lemma ref_abortCurrent st :
  abortControllerRef (abortCurrent st) = abortControllerRef st.
Proof. unfold abortCurrent. by destruct (abortControllerRef st) eqn:E. Qed.

Lemma results_abortCurrent st : results (abortCurrent st) = results st.
Proof. unfold abortCurrent. by destruct (abortControllerRef st). Qed.

Lemma columns_abortCurrent st : columns (abortCurrent st) = columns st.
Proof. unfold abortCurrent. by destruct (abortControllerRef st). Qed.

Lemma length_runs_abortCurrent st :
  length (runs (abortCurrent st)) = length (runs st).
Proof.
  rewrite runs_abortCurrent. destruct (abortControllerRef st); [|done].
  apply length_alter.
Qed.

Lemma plannerThrows_overwrite (D : list DocumentFile) (C : list Column) R :
  plannerThrows D C R true = false.
Proof. unfold plannerThrows. by rewrite planLoop_overwrite. Qed.

Lemma planTasks_throws (D : list DocumentFile) (C : list Column) R f :
  plannerThrows D C R f = true → planTasks D C R f = [].
Proof.
  unfold plannerThrows, planTasks. by destruct (planLoop D C R f).
Qed.

Lemma runs_processExtraction cr docs cols f st :
  runs (processExtraction cr docs cols f st)
  = runs (abortCurrent st)
    ++ [mkRun false cols
          (map (λ p, mkTask p.1 p.2 TaskAwaiting) (planTasks docs cols cr f))
          (plannerThrows docs cols cr f)].
Proof.
  unfold processExtraction, planTasks, plannerThrows.
  destruct (planLoop docs cols cr f) as [tasks|];
    cbn [runs setRuns setColumns setIsProcessing setAbortControllerRef default];
    [|done].
  do 2 f_equal. f_equal. apply map_ext. by intros [d c].
Qed.

Lemma ref_processExtraction cr docs cols f st :
  abortControllerRef (processExtraction cr docs cols f st)
  = if plannerThrows docs cols cr f then None else Some (length (runs st)).
Proof.
  unfold processExtraction, plannerThrows.
  destruct (planLoop docs cols cr f); cbn; [|done].
  by rewrite length_runs_abortCurrent.
Qed.

Lemma isProcessing_processExtraction cr docs cols f st :
  isProcessing (processExtraction cr docs cols f st)
  = negb (plannerThrows docs cols cr f).
Proof.
  unfold processExtraction, plannerThrows. by destruct (planLoop docs cols cr f).
Qed.

Lemma results_processExtraction cr docs cols f st :
  results (processExtraction cr docs cols f st) = results st.
Proof.
  unfold processExtraction. destruct (planLoop docs cols cr f); cbn;
    apply results_abortCurrent.
Qed.

Lemma columns_processExtraction cr docs cols f st :
  columns (processExtraction cr docs cols f st)
  = if plannerThrows docs cols cr f
    then resetExtracting (markTargets extracting cols (columns st))
    else markTargets extracting cols (columns st).
Proof.
  unfold processExtraction, plannerThrows.
  destruct (planLoop docs cols cr f); cbn; by rewrite columns_abortCurrent.
Qed.

Lemma runs_handleRemoveDoc d st : runs (handleRemoveDoc d st) = runs st.
Proof. removeDoc_cases st. Qed.

Lemma ref_handleRemoveDoc d st :
  abortControllerRef (handleRemoveDoc d st) = abortControllerRef st.
Proof. removeDoc_cases st. Qed.

Lemma handleCellClick_frame d c st :
  runs (handleCellClick d c st) = runs st
  ∧ abortControllerRef (handleCellClick d c st) = abortControllerRef st
  ∧ results (handleCellClick d c st) = results st
  ∧ columns (handleCellClick d c st) = columns st.
Proof. unfold handleCellClick. by destruct (truthy _). Qed.

Lemma allSettled_cases rid st :
  allSettled rid st = st
  ∨ ∃ r, runs st !! rid = Some r
      ∧ run_finished r = false
      ∧ existsb isAwaiting (run_tasks r) = false
      ∧ runs (allSettled rid st) = alter finishRun rid (runs st)
      ∧ results (allSettled rid st) = results st
      ∧ abortControllerRef (allSettled rid st)
        = (if decide (abortControllerRef st = Some rid) then None
           else abortControllerRef st)
      ∧ columns (allSettled rid st)
        = (if decide (abortControllerRef st = Some rid) then resetExtracting else id)
            ((if run_aborted r then id else markTargets completed (run_cols r))
               (columns st)).
Proof.
  unfold allSettled. destruct (runs st !! rid) as [r|] eqn:Hr; [|by left].
  destruct (run_finished r) eqn:Hfin; [by left|].
  destruct (existsb isAwaiting (run_tasks r)) eqn:Haw; [by left|].
  right. exists r. cbn [orb]. do 3 (split; [done|]).
  destruct (run_aborted r); cbn [negb];
    destruct (decide (abortControllerRef st = Some rid)) as [Heq|Hne];
    cbn [abortControllerRef setColumns];
    try rewrite decide_True by done; try rewrite decide_False by done;
    by cbn.
Qed.

Lemma step_runs e st i r :
  runs st !! i = Some r →
  ∃ r', runs (step e st) !! i = Some r' ∧ run_change e i r r'.
Proof.
  intros Hr.
  assert (Hsame : ∃ r', runs st !! i = Some r' ∧ run_change e i r r')
    by (exists r; split; [done|constructor]).
  assert (Habort : ∃ r', runs (abortCurrent st) !! i = Some r' ∧ run_change e i r r').
  { rewrite runs_abortCurrent. destruct (abortControllerRef st) as [j|]; [|done].
    destruct (decide (j = i)) as [->|Hne].
    - rewrite list_lookup_alter_eq, Hr. eexists; split; [done|constructor].
    - by rewrite list_lookup_alter_ne. }
  assert (Hproc : ∀ cr docs cols f st0, runs (abortCurrent st0) = runs (abortCurrent st) →
            ∃ r', runs (processExtraction cr docs cols f st0) !! i = Some r'
                  ∧ run_change e i r r').
  { intros cr docs cols f st0 Heq. destruct Habort as (r' & Hr' & Hch).
    exists r'. split; [|done]. rewrite runs_processExtraction, Heq.
    by apply lookup_app_l_Some. }
  destruct e; cbn [step].
  - exact Hsame.
  - unfold handleRunAnalysis. destruct (_ || _); [exact Hsame|]. by apply Hproc.
  - unfold handleRerunSelected. destruct (_ || _); [exact Hsame|]. apply Hproc.
    by rewrite !runs_abortCurrent.
  - unfold handleStopExtraction.
    destruct (abortControllerRef st) eqn:Href; [|exact Hsame]. exact Habort.
  - exact Hsame.
  - by rewrite runs_handleRemoveDoc.
  - by rewrite (proj1 (handleCellClick_frame _ _ _)).
  - destruct (runs_clientReturns rid tid outcome st) as [->| ->]; [exact Hsame|].
    destruct (decide (rid = i)) as [->|Hne].
    + rewrite list_lookup_alter_eq, Hr. eexists; split; [done|].
      by eapply rc_settle.
    + by rewrite list_lookup_alter_ne.
  - destruct (allSettled_cases rid st) as [-> | (r0 & Hr0 & _ & Haw & -> & _)];
      [exact Hsame|].
    destruct (decide (rid = i)) as [->|Hne].
    + rewrite list_lookup_alter_eq, Hr. eexists; split; [done|].
      apply rc_finish; [done|]. congruence.
    + by rewrite list_lookup_alter_ne.
Qed.

Lemma run_change_aborted e i r r' :
  run_change e i r r' → run_aborted r = true → run_aborted r' = true.
Proof. by destruct 1. Qed.

Lemma run_change_task e i tid r r' :
  run_change e i r r' → (∀ o, e ≠ EvClientReturns i tid o) →
  run_tasks r' !! tid = run_tasks r !! tid.
Proof.
  destruct 1 as [r|r|r tid' o ->|r -> _]; intros Hne; try reflexivity.
  cbn [run_tasks settleTaskOf]. apply list_lookup_alter_ne.
  intros ->. by apply (Hne o).
Qed.

Lemma exec_aborted evs : ∀ st i r,
  runs st !! i = Some r → run_aborted r = true →
  ∃ r', runs (exec evs st) !! i = Some r' ∧ run_aborted r' = true.
Proof.
  induction evs as [|e evs IH]; intros st i r Hr Hab; [by exists r|].
  cbn [exec]. destruct (step_runs e st i r Hr) as (r1 & Hr1 & Hch).
  apply (IH _ i r1 Hr1). by eapply run_change_aborted.
Qed.

Lemma exec_task_untouched rid tid evs : ∀ st r t,
  Forall (λ e, ∀ o, e ≠ EvClientReturns rid tid o) evs →
  runs st !! rid = Some r → run_tasks r !! tid = Some t →
  ∃ r', runs (exec evs st) !! rid = Some r' ∧ run_tasks r' !! tid = Some t.
Proof.
  induction evs as [|e evs IH]; intros st r t Hevs Hr Ht; [by exists r|].
  cbn [exec]. apply Forall_cons in Hevs as [He Hevs].
  destruct (step_runs e st rid r Hr) as (r1 & Hr1 & Hch).
  apply (IH _ r1 t Hevs Hr1). by rewrite (run_change_task _ _ _ _ _ Hch He).
Qed.

Lemma clientReturns_aborted_noop st rid tid r data :
  runs st !! rid = Some r → run_aborted r = true →
  clientReturns rid tid (Resolved data) st
  = setRuns (λ _, runs (clientReturns rid tid (Resolved data) st)) st.
Proof.
  intros Hr Hab. unfold clientReturns. rewrite Hr.
  destruct (run_tasks r !! tid) as [t|]; [|by destruct st].
  destruct (isAwaiting t); [|by destruct st].
  rewrite Hab. by cbn.
Qed.

(** ** Cancellation *)

(** C3. Cancellation discards.  Let a task be suspended on its client call
    while its run is the active one, and let [stop()] be invoked.  Whatever
    happens afterwards, the run's token stays signaled; the task stays
    suspended until its own call returns; and when that call returns
    successfully the task changes nothing but its own promise: the store, the
    columns and the console are as before.  The flag is read at the two
    points of the task body: a signaled flag at entry makes the task return
    without calling the client, a signaled flag after the call makes the
    continuation return without merging. *)
Theorem cancellation_discards (st : App) (rid tid : nat) (r : Run) (t : Task)
    (data : ExtractionCell) (evs : list Event) :
  abortControllerRef st = Some rid →
  runs st !! rid = Some r → run_tasks r !! tid = Some t →
  task_phase t = TaskAwaiting →
  let st1 := exec evs (handleStopExtraction st) in
  let st2 := clientReturns rid tid (Resolved data) st1 in
  (∃ r1, runs st1 !! rid = Some r1 ∧ run_aborted r1 = true)
  ∧ (Forall (λ e, ∀ o, e ≠ EvClientReturns rid tid o) evs →
       ∃ r1, runs st1 !! rid = Some r1 ∧ run_tasks r1 !! tid = Some t)
  ∧ results st2 = results st1
  ∧ columns st2 = columns st1
  ∧ console st2 = console st1
  ∧ st2 = setRuns (λ _, runs st2) st1
  ∧ taskBegin true = TaskSkipped
  ∧ (∀ doc col st0, taskResume true doc col (Resolved data) st0 = st0).
Proof.
  intros Href Hr Ht Hph st1 st2.
  assert (Hstop : runs (handleStopExtraction st) !! rid = Some (abortRun r)).
  { unfold handleStopExtraction. rewrite Href. cbn [runs setIsProcessing].
    rewrite runs_abortCurrent, Href, list_lookup_alter_eq. by rewrite Hr. }
  assert (Hab : ∃ r1, runs st1 !! rid = Some r1 ∧ run_aborted r1 = true).
  { subst st1. by apply (exec_aborted evs _ rid (abortRun r)). }
  destruct Hab as (r1 & Hr1 & Hab1).
  assert (Hnoop : st2 = setRuns (λ _, runs st2) st1).
  { subst st2. by apply (clientReturns_aborted_noop st1 rid tid r1). }
  split; [by exists r1|]. split.
  { intros Hevs. subst st1.
    by apply (exec_task_untouched rid tid evs _ (abortRun r) t). }
  split; [by rewrite Hnoop|]. split; [by rewrite Hnoop|]. split; [by rewrite Hnoop|].
  split; [exact Hnoop|]. split; reflexivity.
Qed.


(** ** Column status finalization *)

Lemma noNewError_refl l : noNewError l l.
Proof. intros i c' Hc'. by exists c'. Qed.

Lemma noNewError_trans l1 l2 l3 :
  noNewError l1 l2 → noNewError l2 l3 → noNewError l1 l3.
Proof.
  intros H12 H23 i c3 Hc3.
  destruct (H23 i c3 Hc3) as (c2 & Hc2 & Hid2 & Herr2).
  destruct (H12 i c2 Hc2) as (c1 & Hc1 & Hid1 & Herr1).
  exists c1. split; [done|]. split; [congruence|tauto].
Qed.

Lemma noNewError_map (f : Column → Column) l :
  (∀ c, col_id (f c) = col_id c ∧ (col_status (f c) = error → col_status c = error)) →
  noNewError l (map f l).
Proof.
  intros Hf i c' Hc'. change map with (@fmap list _) in Hc'.
  rewrite list_lookup_fmap in Hc'.
  destruct (l !! i) as [c|]; [|discriminate]. injection Hc' as <-.
  exists c. split; [done|]. apply Hf.
Qed.

Lemma noNewError_markTargets s cols l :
  s ≠ error → noNewError l (markTargets s cols l).
Proof.
  intros Hs. apply noNewError_map. intros c.
  destruct (isTarget cols c); [|done]. split; [done|]. cbn. congruence.
Qed.

Lemma noNewError_resetExtracting l : noNewError l (resetExtracting l).
Proof.
  apply noNewError_map. intros c. case_decide; [|done]. split; [done|]. discriminate.
Qed.

Lemma columns_handleStopExtraction st :
  columns (handleStopExtraction st) = columns st.
Proof.
  unfold handleStopExtraction. destruct (abortControllerRef st); [|done].
  cbn. apply columns_abortCurrent.
Qed.

Lemma noNewError_processExtraction cr docs cols f st st0 :
  columns st0 = columns st →
  noNewError (columns st) (columns (processExtraction cr docs cols f st0)).
Proof.
  intros Hcols. rewrite columns_processExtraction, Hcols.
  destruct (plannerThrows docs cols cr f); [|by apply noNewError_markTargets].
  apply (noNewError_trans _ (markTargets extracting cols (columns st)));
    [by apply noNewError_markTargets|apply noNewError_resetExtracting].
Qed.

Lemma step_noNewError e st :
  runControllerEvent e = true → noNewError (columns st) (columns (step e st)).
Proof.
  destruct e; try discriminate; intros _; cbn [step].
  - unfold handleRunAnalysis. destruct (_ || _); [apply noNewError_refl|].
    by apply noNewError_processExtraction.
  - unfold handleRerunSelected. destruct (_ || _); [apply noNewError_refl|].
    by apply noNewError_processExtraction.
  - rewrite columns_handleStopExtraction. apply noNewError_refl.
  - rewrite columns_clientReturns. apply noNewError_refl.
  - destruct (allSettled_cases rid st) as [-> | (r & _ & _ & _ & _ & _ & _ & ->)];
      [apply noNewError_refl|].
    apply (noNewError_trans _
             ((if run_aborted r then id else markTargets completed (run_cols r))
                (columns st))).
    + destruct (run_aborted r); [apply noNewError_refl|].
      by apply noNewError_markTargets.
    + case_decide; [apply noNewError_resetExtracting|apply noNewError_refl].
Qed.

Lemma elem_of_markTargets s cols l c' :
  c' ∈ markTargets s cols l → isTarget cols c' = true → col_status c' = s.
Proof.
  unfold markTargets. change map with (@fmap list _).
  intros (c & -> & _)%list_elem_of_fmap.
  destruct (isTarget cols c) eqn:E; [done|]. congruence.
Qed.

Lemma elem_of_resetExtracting l c' :
  c' ∈ resetExtracting l →
  col_status c' ≠ extracting
  ∧ ∃ c, c ∈ l ∧ col_id c' = col_id c
         ∧ (col_status c ≠ extracting → c' = c)
         ∧ (col_status c = extracting → col_status c' = idle).
Proof.
  unfold resetExtracting. change map with (@fmap list _).
  intros (c & -> & Hc)%list_elem_of_fmap.
  case_decide as Hst; (split; [done|]); exists c; by repeat split.
Qed.




(** ** Scoped re-run *)

Lemma run_change_dead e i r r' : run_change e i r r' → dead r → dead r'.
Proof.
  destruct 1 as [r|r|r tid o _|r _ _]; intros Hd; try done.
  - by left.
  - destruct Hd as [Hab|Hall]; [by left|]. right.
    cbn [run_tasks settleTaskOf]. apply Forall_alter; [done|]. by intros t _ _.
Qed.

Lemma run_change_docs (P : DocumentFile → Prop) e i r r' :
  run_change e i r r' →
  Forall (λ t, P (task_doc t)) (run_tasks r) →
  Forall (λ t, P (task_doc t)) (run_tasks r').
Proof.
  destruct 1 as [r|r|r tid o _|r _ _]; intros Hall; try done.
  cbn [run_tasks settleTaskOf]. apply Forall_alter; [done|]. by intros t _ Ht.
Qed.

Lemma no_awaiting_Forall (l : list Task) :
  existsb isAwaiting l = false → Forall (λ t, task_phase t ≠ TaskAwaiting) l.
Proof.
  induction l as [|t l IH]; [constructor|]. cbn [existsb].
  intros [Ht Hl]%orb_false_elim. constructor; [|by apply IH].
  intros Hph. apply isAwaiting_true in Hph. congruence.
Qed.

Lemma length_runs_drainsOnly e st :
  drainsOnly e = true → length (runs (step e st)) = length (runs st).
Proof.
  destruct e; try discriminate; intros _; cbn [step].
  - unfold handleStopExtraction. destruct (abortControllerRef st); [|done].
    cbn [runs setIsProcessing]. apply length_runs_abortCurrent.
  - reflexivity.
  - by rewrite (proj1 (handleCellClick_frame _ _ _)).
  - destruct (runs_clientReturns rid tid outcome st) as [->| ->]; [done|].
    apply length_alter.
  - destruct (allSettled_cases rid st) as [-> | (r & _ & _ & _ & -> & _)]; [done|].
    apply length_alter.
Qed.

Lemma step_runs_inv e st i r' :
  drainsOnly e = true → runs (step e st) !! i = Some r' →
  ∃ r, runs st !! i = Some r ∧ run_change e i r r'.
Proof.
  intros He Hr'. pose proof (lookup_lt_Some _ _ _ Hr') as Hlt.
  rewrite length_runs_drainsOnly in Hlt by done.
  apply lookup_lt_is_Some_2 in Hlt as [r Hr]. exists r. split; [done|].
  destruct (step_runs e st i r Hr) as (r'' & Hr'' & Hch). congruence.
Qed.

Lemma results_clientReturns_cases rid tid o st :
  results (clientReturns rid tid o st) = results st
  ∨ ∃ r t data,
      o = Resolved data ∧ runs st !! rid = Some r ∧ run_tasks r !! tid = Some t
      ∧ task_phase t = TaskAwaiting ∧ run_aborted r = false
      ∧ results (clientReturns rid tid o st)
        = mergeCell (doc_id (task_doc t)) (col_id (task_col t)) data (results st).
Proof.
  unfold clientReturns. destruct (runs st !! rid) as [r|] eqn:Hr; [|by left].
  destruct (run_tasks r !! tid) as [t|] eqn:Ht; [|by left].
  destruct (isAwaiting t) eqn:Haw; [|by left].
  rewrite results_taskResume. cbn [results setRuns].
  destruct o as [data|e]; [|by left].
  destruct (run_aborted r) eqn:Hab; [by left|].
  right. exists r, t, data. by rewrite <- isAwaiting_true.
Qed.

Lemma results_drainsOnly S e st d :
  drainsOnly e = true → writesWithin S st → d ∉ S →
  results (step e st) !! d = results st !! d.
Proof.
  intros He Hw Hd. destruct e; try discriminate; cbn [step].
  - unfold handleStopExtraction. destruct (abortControllerRef st); [|done].
    cbn [results setIsProcessing]. by rewrite results_abortCurrent.
  - reflexivity.
  - by rewrite (proj1 (proj2 (proj2 (handleCellClick_frame _ _ _)))).
  - destruct (results_clientReturns_cases rid tid outcome st)
      as [-> | (r & t & data & _ & Hr & Ht & Hph & Hab & ->)]; [done|].
    apply lookup_merge_other_doc. intros ->.
    destruct (Hw rid r Hr) as [[Hab'|Hall]|Hall].
    + congruence.
    + by apply (proj1 (Forall_lookup _ _) Hall tid t Ht).
    + by apply Hd, (proj1 (Forall_lookup _ _) Hall tid t Ht).
  - by destruct (allSettled_cases rid st) as [-> | (r & _ & _ & _ & _ & -> & _)].
Qed.

Lemma writesWithin_drainsOnly S e st :
  drainsOnly e = true → writesWithin S st → writesWithin S (step e st).
Proof.
  intros He Hw i r' Hr'.
  destruct (step_runs_inv e st i r' He Hr') as (r & Hr & Hch).
  destruct (Hw i r Hr) as [Hd|Hall].
  - left. by eapply run_change_dead.
  - right. by apply (run_change_docs (λ doc, doc_id doc ∈ S) e i r r').
Qed.

Lemma results_exec_drainsOnly S evs : ∀ st d,
  forallb drainsOnly evs = true → writesWithin S st → d ∉ S →
  results (exec evs st) !! d = results st !! d.
Proof.
  induction evs as [|e evs IH]; intros st d Hevs Hw Hd; [done|].
  cbn [forallb] in Hevs. apply andb_prop in Hevs as [He Hevs]. cbn [exec].
  rewrite IH by (try done; by apply writesWithin_drainsOnly).
  by apply (results_drainsOnly S).
Qed.

(** The invariant of reachable states. *)
Lemma onlyActiveRunLive_processExtraction cr docs cols f st st0 :
  runs st0 = runs st → abortControllerRef st0 = abortControllerRef st →
  onlyActiveRunLive st →
  onlyActiveRunLive (processExtraction cr docs cols f st0).
Proof.
  intros Hruns Href Hinv i r Hr Hne.
  rewrite ref_processExtraction, Hruns in Hne.
  rewrite runs_processExtraction, runs_abortCurrent, Href, Hruns in Hr.
  apply lookup_app_Some in Hr as [Hr|[Hlen Hr]].
  - destruct (abortControllerRef st) as [j|] eqn:Hj.
    + destruct (decide (j = i)) as [->|Hji].
      * rewrite list_lookup_alter_eq in Hr.
        destruct (runs st !! i); [|discriminate]. injection Hr as <-. by left.
      * rewrite list_lookup_alter_ne in Hr by done.
        apply (Hinv i r Hr). congruence.
    + apply (Hinv i r Hr). congruence.
  - destruct (plannerThrows docs cols cr f) eqn:Hthrows.
    { apply list_lookup_singleton_Some in Hr as [_ <-]. right. cbn [run_tasks].
      rewrite planTasks_throws by done. constructor. }
    exfalso. apply Hne. f_equal.
    assert (length (match abortControllerRef st with
                    | Some i0 => alter abortRun i0 (runs st)
                    | None => runs st
                    end) = length (runs st)) as Hl
      by (destruct (abortControllerRef st); [apply length_alter|done]).
    rewrite Hl in Hlen, Hr.
    apply lookup_lt_Some in Hr. cbn in Hr. lia.
Qed.

Lemma onlyActiveRunLive_step e st :
  onlyActiveRunLive st → onlyActiveRunLive (step e st).
Proof.
  intros Hinv. destruct e; cbn [step].
  - exact Hinv.
  - unfold handleRunAnalysis. destruct (_ || _); [exact Hinv|].
    by apply (onlyActiveRunLive_processExtraction _ _ _ _ st).
  - unfold handleRerunSelected. destruct (_ || _); [exact Hinv|].
    by apply (onlyActiveRunLive_processExtraction _ _ _ _ st).
  - intros i r' Hr' Hne.
    destruct (step_runs_inv EvStopExtraction st i r' eq_refl Hr') as (r & Hr & Hch).
    apply (run_change_dead _ _ _ _ Hch), (Hinv i r Hr).
    revert Hne. cbn [step]. unfold handleStopExtraction.
    destruct (abortControllerRef st) eqn:Href; [|by rewrite Href].
    cbn [abortControllerRef setIsProcessing]. by rewrite ref_abortCurrent, Href.
  - exact Hinv.
  - intros i r. rewrite runs_handleRemoveDoc, ref_handleRemoveDoc. apply Hinv.
  - intros i r. destruct (handleCellClick_frame docId colId st) as (-> & -> & _).
    apply Hinv.
  - intros i r' Hr' Hne. rewrite ref_clientReturns in Hne.
    destruct (step_runs_inv (EvClientReturns rid tid outcome) st i r' eq_refl Hr')
      as (r & Hr & Hch).
    by apply (run_change_dead _ _ _ _ Hch), (Hinv i r Hr).
  - destruct (allSettled_cases rid st)
      as [-> | (r0 & Hr0 & _ & Haw & Hruns & _ & Href & _)]; [exact Hinv|].
    intros i r' Hr' Hne. rewrite Href in Hne. rewrite Hruns in Hr'.
    destruct (decide (rid = i)) as [->|Hrid].
    + rewrite list_lookup_alter_eq, Hr0 in Hr'. injection Hr' as <-.
      right. cbn. by apply no_awaiting_Forall.
    + rewrite list_lookup_alter_ne in Hr' by done.
      apply (Hinv i r' Hr'). intros Heq. case_decide; congruence.
Qed.

Lemma onlyActiveRunLive_reachable evs : onlyActiveRunLive (exec evs initialApp).
Proof.
  assert (H : ∀ st, onlyActiveRunLive st → onlyActiveRunLive (exec evs st)).
  { induction evs as [|e evs IH]; intros st Hinv; [done|].
    cbn [exec]. by apply IH, onlyActiveRunLive_step. }
  apply H. intros i r Hr. discriminate.
Qed.

Lemma planTasks_overwrite (D : list DocumentFile) (C : list Column) R :
  planTasks D C R true = allPairs D C.
Proof. apply planTasks_Some, planLoop_overwrite. Qed.

Lemma rerun_guard_passes st :
  selectedDocIds st ≠ ∅ → columns st ≠ [] →
  ((size (selectedDocIds st) =? 0)%nat || (length (columns st) =? 0)%nat) = false.
Proof.
  intros HS Hcols. apply orb_false_intro; apply Nat.eqb_neq.
  - intros Hsz. apply HS. apply leibniz_equiv. by apply size_empty_iff.
  - by destruct (columns st).
Qed.

(** Where the toolbar offers Re-run, enabled, the guard of the handler
    passes and no run is in progress. *)
Lemma runControl_rerun st :
  runControl st = RerunButton false →
  selectedDocIds st ≠ ∅ ∧ columns st ≠ [] ∧ isProcessing st = false.
Proof.
  unfold runControl. destruct (isProcessing st); [done|].
  destruct (0 <? size (selectedDocIds st))%nat eqn:Hsz; [|done].
  intros [= Hcols]. split; [|split; [|done]].
  - intros HS. rewrite HS, size_empty in Hsz. discriminate.
  - intros Hnil. by rewrite Hnil in Hcols.
Qed.

Lemma results_handleRerunSelected st :
  selectedDocIds st ≠ ∅ → columns st ≠ [] →
  results (handleRerunSelected st)
  = foldr delete (results st) (elements (selectedDocIds st)).
Proof.
  intros HS Hcols. unfold handleRerunSelected.
  rewrite rerun_guard_passes by done. by rewrite results_processExtraction.
Qed.

Lemma writesWithin_handleRerunSelected st :
  onlyActiveRunLive st → selectedDocIds st ≠ ∅ → columns st ≠ [] →
  writesWithin (selectedDocIds st) (handleRerunSelected st).
Proof.
  intros Hinv HS Hcols i r Hr. unfold handleRerunSelected in Hr.
  rewrite rerun_guard_passes in Hr by done.
  rewrite runs_processExtraction in Hr.
  apply lookup_app_Some in Hr as [Hr|[_ Hr]].
  - left. rewrite runs_abortCurrent in Hr. cbn [abortControllerRef runs setResults] in Hr.
    destruct (abortControllerRef st) as [j|] eqn:Hj.
    + destruct (decide (j = i)) as [->|Hji].
      * rewrite list_lookup_alter_eq in Hr.
        destruct (runs st !! i); [|discriminate]. injection Hr as <-. by left.
      * rewrite list_lookup_alter_ne in Hr by done.
        apply (Hinv i r Hr). congruence.
    + apply (Hinv i r Hr). congruence.
  - right. apply list_lookup_singleton_Some in Hr as [_ <-]. cbn [run_tasks].
    apply Forall_forall. intros t Ht. change map with (@fmap list _) in Ht.
    apply list_elem_of_fmap in Ht as ([d c] & -> & Hin). cbn [task_doc fst].
    rewrite planTasks_overwrite in Hin.
    apply elem_of_allPairs in Hin as [Hd _]. by apply list_elem_of_filter in Hd as [Hd _].
Qed.


(** C5.  Scoped re-run.  In every reachable state in which the toolbar
    offers Re-run, for the selection [S]: the re-run deletes the row of every
    document of [S], leaves the row of every other document, and starts a
    run with overwrite, with the previous controller aborted, whose tasks
    are all pairs of a selected document and a column; while that run and
    the earlier ones drain, the rows of the documents outside [S] stay
    exactly as they were before the re-run. *)
Theorem scoped_rerun (evs0 : list Event) :
  let st := exec evs0 initialApp in
  let S := selectedDocIds st in
  let selectedDocs := filter (λ d, doc_id d ∈ S) (documents st) in
  let st' := handleRerunSelected st in
  runControl st = RerunButton false →
  (∀ d, d ∈ S → results st' !! d = None)
  ∧ (∀ d, d ∉ S → results st' !! d = results st !! d)
  ∧ runs st'
    = runs (abortCurrent st)
      ++ [mkRun false (columns st)
            (map (λ p, mkTask p.1 p.2 TaskAwaiting)
               (allPairs selectedDocs (columns st))) false]
  ∧ abortControllerRef st' = Some (length (runs st))
  ∧ isProcessing st' = true
  ∧ (∀ evs d, forallb drainsOnly evs = true → d ∉ S →
       results (exec evs st') !! d = results st !! d).
Proof.
  intros st S selectedDocs st' (HS & Hcols & _)%runControl_rerun.
  assert (Hin : ∀ d, d ∈ S → results st' !! d = None).
  { intros d Hd. subst st'. rewrite results_handleRerunSelected by done.
    apply lookup_foldr_delete. by apply elem_of_elements. }
  assert (Hout : ∀ d, d ∉ S → results st' !! d = results st !! d).
  { intros d Hd. subst st'. rewrite results_handleRerunSelected by done.
    apply lookup_foldr_delete_not_elem_of. by rewrite elem_of_elements. }
  split; [exact Hin|]. split; [exact Hout|]. split; [|split; [|split]].
  - subst st'. unfold handleRerunSelected. rewrite rerun_guard_passes by done.
    rewrite runs_processExtraction, planTasks_overwrite, plannerThrows_overwrite.
    by rewrite !runs_abortCurrent.
  - subst st'. unfold handleRerunSelected. rewrite rerun_guard_passes by done.
    by rewrite ref_processExtraction, plannerThrows_overwrite.
  - subst st'. unfold handleRerunSelected. rewrite rerun_guard_passes by done.
    by rewrite isProcessing_processExtraction, plannerThrows_overwrite.
  - intros evs d Hevs Hd. rewrite <- (Hout d Hd).
    apply (results_exec_drainsOnly S); [done| |done].
    apply writesWithin_handleRerunSelected; [|done|done].
    apply onlyActiveRunLive_reachable.
Qed.


(** * Further properties *)

(** ** The plan *)

Lemma allPairs_cons (d : DocumentFile) (D : list DocumentFile) (C : list Column) :
  allPairs (d :: D) C = map (pair d) C ++ allPairs D C.
Proof.
  unfold allPairs. change (d0 ← d :: D; c ← C; [(d0, c)])
    with ((c ← C; [(d, c)]) ++ (d0 ← D; c ← C; [(d0, c)])).
  f_equal.
Qed.

Lemma NoDup_allPairs_keys (D : list DocumentFile) (C : list Column) :
  NoDup (map doc_id D) → NoDup (map col_id C) →
  NoDup (map pairKey (allPairs D C)).
Proof.
  intros HD HC. induction D as [|d D IH]; [constructor|].
  rewrite allPairs_cons, map_app. cbn [map] in HD.
  apply NoDup_cons in HD as [Hd HD]. apply NoDup_app. split; [|split].
  - rewrite map_map. unfold pairKey. cbn [fst snd].
    change (map (λ x, (doc_id d, col_id x)) C)
      with ((λ x, (doc_id d, col_id x)) <$> C).
    rewrite (list_fmap_compose col_id (pair (doc_id d))).
    apply (NoDup_fmap_2 _). exact HC.
  - intros k Hk Hk'. change map with (@fmap list _) in Hk, Hk'.
    apply list_elem_of_fmap in Hk as ([d1 c1] & -> & H1).
    apply list_elem_of_fmap in Hk' as ([d2 c2] & Heq & H2).
    apply list_elem_of_fmap in H1 as (c & [= <- <-] & _).
    apply elem_of_allPairs in H2 as [H2 _].
    apply Hd. unfold pairKey in Heq. cbn in Heq. injection Heq as -> _.
    change map with (@fmap list _). by apply list_elem_of_fmap_2.
  - by apply IH.
Qed.

(** X1. At most one task per key: when the documents have distinct ids and
    the columns have distinct ids, no two planned pairs have the same
    (document id, column id), with or without overwrite. *)
Theorem plan_has_distinct_keys (D : list DocumentFile) (C : list Column)
    (R : ExtractionResult) (overwrite : bool) :
  NoDup (map doc_id D) → NoDup (map col_id C) →
  NoDup (map pairKey (planTasks D C R overwrite)).
Proof.
  intros HD HC.
  apply (sublist_NoDup _ (map pairKey (allPairs D C)));
    [by apply NoDup_allPairs_keys|].
  change map with (@fmap list _). apply fmap_sublist, planTasks_sublist.
Qed.

(** X23. The planner on plain identifiers.  When no document id and no
    column id is a key of [Object.prototype], the loop does not throw and the
    dispatched tasks are, in loop order, exactly the pairs of D×C for which
    the store holds no cell: no row for the document, no entry for the
    column in the row, or an entry that is [null].  With overwrite they are
    all of D×C.  The run that [processExtraction] records has one suspended
    task per planned pair. *)
Theorem planner_exact_on_plain_ids (D : list DocumentFile) (C : list Column)
    (R : ExtractionResult) :
  (∀ d, d ∈ D → plainId (doc_id d)) → (∀ c, c ∈ C → plainId (col_id c)) →
  planLoop D C R false
    = Some (filter (λ p, cellAt R (doc_id p.1) (col_id p.2) = None) (allPairs D C))
  ∧ planTasks D C R false
    = filter (λ p, cellAt R (doc_id p.1) (col_id p.2) = None) (allPairs D C)
  ∧ (∀ d c, cellAt R d c = None
            ↔ ¬ ∃ row cell, R !! d = Some row ∧ row !! c = Some (Some cell))
  ∧ (∀ d c, (d, c) ∈ planTasks D C R false
            ↔ d ∈ D ∧ c ∈ C
              ∧ ¬ ∃ row cell, R !! doc_id d = Some row
                              ∧ row !! col_id c = Some (Some cell))
  ∧ planTasks D C R true = allPairs D C
  ∧ (∀ overwrite st,
       last (runs (processExtraction R D C overwrite st))
       = Some (mkRun false C
                 (map (λ p, mkTask p.1 p.2 TaskAwaiting) (planTasks D C R overwrite))
                 false)).
Proof.
  intros HD HC.
  pose proof (planLoop_plain D C R HD HC) as Hloop.
  assert (Hraw : ∀ d c, cellAt R d c = None
            ↔ ¬ ∃ row cell, R !! d = Some row ∧ row !! c = Some (Some cell)).
  { intros d c. unfold cellAt. split.
    - intros Hnone (row & cell & Hrow & Hcell). by rewrite Hrow, Hcell in Hnone.
    - intros Hno. destruct (R !! d) as [row|]; [|done].
      destruct (row !! c) as [[cell|]|] eqn:Hcell; try done.
      destruct Hno. by exists row, cell. }
  split; [exact Hloop|]. split; [by apply planTasks_Some|]. split; [exact Hraw|].
  split; [|split; [apply planTasks_Some, planLoop_overwrite|]].
  - intros d c. rewrite (planTasks_Some _ _ _ _ _ Hloop), list_elem_of_filter,
      elem_of_allPairs. cbn [fst snd]. rewrite Hraw. tauto.
  - intros overwrite st. rewrite runs_processExtraction, last_snoc. do 2 f_equal.
    destruct overwrite.
    + apply plannerThrows_overwrite.
    + apply plannerThrows_false. by rewrite Hloop.
Qed.


(** ** Shape of one event on the run records and the controller *)

Lemma isProcessing_taskResume aborted doc col o st :
  isProcessing (taskResume aborted doc col o st) = isProcessing st.
Proof. destruct o, aborted; reflexivity. Qed.

Lemma isProcessing_clientReturns rid tid o st :
  isProcessing (clientReturns rid tid o st) = isProcessing st.
Proof.
  unfold clientReturns. destruct (runs st !! rid) as [r|]; [|done].
  destruct (run_tasks r !! tid) as [t|]; [|done].
  destruct (isAwaiting t); [|done]. by rewrite isProcessing_taskResume.
Qed.

Lemma isProcessing_allSettled rid st r :
  runs st !! rid = Some r → run_finished r = false →
  existsb isAwaiting (run_tasks r) = false →
  isProcessing (allSettled rid st)
  = if decide (abortControllerRef st = Some rid) then false else isProcessing st.
Proof.
  intros Hr Hfin Haw. unfold allSettled. rewrite Hr, Hfin, Haw. cbn [orb].
  destruct (run_aborted r); cbn [negb];
    destruct (decide (abortControllerRef st = Some rid)) as [Heq|Hne];
    cbn [abortControllerRef setColumns];
    try rewrite decide_True by done; try rewrite decide_False by done;
    reflexivity.
Qed.

Lemma removeDoc_controller d st :
  runs (handleRemoveDoc d st) = runs st
  ∧ abortControllerRef (handleRemoveDoc d st) = abortControllerRef st
  ∧ isProcessing (handleRemoveDoc d st) = isProcessing st.
Proof. repeat split; removeDoc_cases st. Qed.

Lemma cellClick_isProcessing d c st :
  isProcessing (handleCellClick d c st) = isProcessing st.
Proof. unfold handleCellClick. by destruct (truthy _). Qed.

Lemma processExtraction_controller cr docs cols f st st0 :
  runs st0 = runs st → abortControllerRef st0 = abortControllerRef st →
  ∃ new,
    runs (processExtraction cr docs cols f st0) = runs (abortCurrent st) ++ [new]
    ∧ run_aborted new = false
    ∧ ((run_finished new = false
        ∧ abortControllerRef (processExtraction cr docs cols f st0)
          = Some (length (runs st))
        ∧ isProcessing (processExtraction cr docs cols f st0) = true)
       ∨ (run_finished new = true ∧ run_tasks new = []
          ∧ abortControllerRef (processExtraction cr docs cols f st0) = None
          ∧ isProcessing (processExtraction cr docs cols f st0) = false)).
Proof.
  intros Hruns Href. eexists.
  rewrite runs_processExtraction, ref_processExtraction,
    isProcessing_processExtraction.
  rewrite !runs_abortCurrent, Hruns, Href. split; [reflexivity|].
  split; [reflexivity|]. cbn [run_finished run_tasks].
  destruct (plannerThrows docs cols cr f) eqn:Hthrows; [right|left; by repeat split].
  rewrite planTasks_throws by done. by repeat split.
Qed.

Lemma step_shape e st :
  (runs (step e st) = runs st
   ∧ abortControllerRef (step e st) = abortControllerRef st
   ∧ isProcessing (step e st) = isProcessing st)
  ∨ (∃ new,
       runs (step e st) = runs (abortCurrent st) ++ [new]
       ∧ run_aborted new = false
       ∧ ((run_finished new = false
           ∧ abortControllerRef (step e st) = Some (length (runs st))
           ∧ isProcessing (step e st) = true)
          ∨ (run_finished new = true ∧ run_tasks new = []
             ∧ abortControllerRef (step e st) = None
             ∧ isProcessing (step e st) = false)))
  ∨ (∃ j, abortControllerRef st = Some j
       ∧ runs (step e st) = alter abortRun j (runs st)
       ∧ abortControllerRef (step e st) = abortControllerRef st
       ∧ isProcessing (step e st) = false)
  ∨ (∃ rid tid,
       runs (step e st) = alter (settleTaskOf tid) rid (runs st)
       ∧ abortControllerRef (step e st) = abortControllerRef st
       ∧ isProcessing (step e st) = isProcessing st)
  ∨ (∃ rid r,
       runs st !! rid = Some r ∧ run_finished r = false
       ∧ existsb isAwaiting (run_tasks r) = false
       ∧ runs (step e st) = alter finishRun rid (runs st)
       ∧ abortControllerRef (step e st)
         = (if decide (abortControllerRef st = Some rid) then None
            else abortControllerRef st)
       ∧ isProcessing (step e st)
         = (if decide (abortControllerRef st = Some rid) then false
            else isProcessing st)).
Proof.
  destruct e; cbn [step].
  - by left.
  - unfold handleRunAnalysis. destruct (_ || _); [by left|]. right; left.
    by apply processExtraction_controller.
  - unfold handleRerunSelected. destruct (_ || _); [by left|]. right; left.
    by apply processExtraction_controller.
  - unfold handleStopExtraction.
    destruct (abortControllerRef st) as [j|] eqn:Href; [|left; by rewrite Href].
    right; right; left. exists j. cbn [runs abortControllerRef isProcessing setIsProcessing].
    by rewrite runs_abortCurrent, ref_abortCurrent, Href.
  - by left.
  - left. apply removeDoc_controller.
  - left. destruct (handleCellClick_frame docId colId st) as (-> & -> & _).
    by rewrite cellClick_isProcessing.
  - rewrite ref_clientReturns, isProcessing_clientReturns.
    destruct (runs_clientReturns rid tid outcome st) as [->| ->]; [by left|].
    right; right; right; left. by exists rid, tid.
  - destruct (allSettled_cases rid st)
      as [-> | (r & Hr & Hfin & Haw & Hruns & _ & Href & _)]; [by left|].
    right; right; right; right. exists rid, r.
    by rewrite (isProcessing_allSettled rid st r).
Qed.

Lemma lookup_alter_inv {A} (f : A → A) (l : list A) (j i : nat) (y : A) :
  alter f j l !! i = Some y →
  ∃ x, l !! i = Some x ∧ y = if decide (j = i) then f x else x.
Proof.
  intros Hy. destruct (decide (j = i)) as [->|Hne].
  - rewrite list_lookup_alter_eq in Hy.
    destruct (l !! i) as [x|]; [|discriminate]. injection Hy as <-. by exists x.
  - rewrite list_lookup_alter_ne in Hy by done. by exists y.
Qed.

Lemma lookup_abortCurrent_inv st i r' :
  runs (abortCurrent st) !! i = Some r' →
  ∃ r, runs st !! i = Some r
       ∧ ((r' = r ∧ abortControllerRef st ≠ Some i)
          ∨ (r' = abortRun r ∧ abortControllerRef st = Some i)).
Proof.
  rewrite runs_abortCurrent. destruct (abortControllerRef st) as [j|].
  - intros (r & Hr & ->)%lookup_alter_inv. exists r. split; [done|].
    case_decide; [right; by subst|left; split; [done|congruence]].
  - intros Hr. exists r'. split; [done|by left].
Qed.

Lemma no_awaiting_settle tid (l : list Task) :
  Forall (λ t, task_phase t ≠ TaskAwaiting) l →
  Forall (λ t, task_phase t ≠ TaskAwaiting) (alter settleTask tid l).
Proof. intros Hl. apply Forall_alter; [done|]. by intros t _ _. Qed.

Lemma controllerConsistent_step e st :
  controllerConsistent st → controllerConsistent (step e st).
Proof.
  intros (Ha & Hb & Hc & Hd).
  destruct (step_shape e st)
    as [(Hruns & Href & Hproc)
       |[(new & Hruns & Hab & [(Hfin & Href & Hproc)|(Hfin & Hnil & Href & Hproc)])
        |[(j & Hj & Hruns & Href & Hproc)
         |[(rid & tid & Hruns & Href & Hproc)
          |(rid & r & Hr & Hfin & Haw & Hruns & Href & Hproc)]]]].
  - unfold controllerConsistent. by rewrite Hruns, Href, Hproc.
  - unfold controllerConsistent. rewrite Hruns, Href, Hproc.
    rewrite length_app, length_runs_abortCurrent. cbn [length].
    split; [intros i [= <-]; lia|]. split; [by eauto|]. split.
    + intros i r' [= <-] Hr'.
      rewrite lookup_app_r in Hr' by (rewrite length_runs_abortCurrent; lia).
      rewrite length_runs_abortCurrent, Nat.sub_diag in Hr'. by injection Hr' as <-.
    + intros i r' Hr' Hfin'. apply lookup_app_Some in Hr' as [Hr'|[_ Hr']].
      * apply lookup_abortCurrent_inv in Hr' as (r & Hr & [[-> _]|[-> _]]);
          by apply (Hd i r).
      * apply list_lookup_singleton_Some in Hr' as [_ <-]. congruence.
  - unfold controllerConsistent. rewrite Hruns, Href, Hproc.
    split; [done|]. split; [done|]. split; [done|].
    intros i r' Hr' Hfin'. apply lookup_app_Some in Hr' as [Hr'|[_ Hr']].
    + apply lookup_abortCurrent_inv in Hr' as (r & Hr & [[-> _]|[-> _]]);
        by apply (Hd i r).
    + apply list_lookup_singleton_Some in Hr' as [_ <-]. rewrite Hnil. constructor.
  - unfold controllerConsistent. rewrite Hruns, Href, Hproc, length_alter.
    split; [done|]. split; [done|]. split.
    + intros i r' Hi (r & Hr & ->)%lookup_alter_inv.
      case_decide; [cbn|]; by apply (Hc i r).
    + intros i r' (r & Hr & ->)%lookup_alter_inv Hfin'.
      case_decide; [cbn in *|]; by apply (Hd i r).
  - unfold controllerConsistent. rewrite Hruns, Href, Hproc, length_alter.
    split; [done|]. split; [done|]. split.
    + intros i r' Hi (r & Hr & ->)%lookup_alter_inv.
      case_decide; [cbn|]; by apply (Hc i r).
    + intros i r' (r0 & Hr0 & ->)%lookup_alter_inv Hfin'.
      case_decide; [cbn in *; apply no_awaiting_settle|]; by apply (Hd i r0).
  - unfold controllerConsistent. rewrite Hruns, Href, Hproc, length_alter.
    split; [|split; [|split]].
    + intros i Hi. apply Ha. by case_decide.
    + intros Hp. case_decide; [done|]. by apply Hb.
    + intros i r' Hi (r0 & Hr0 & ->)%lookup_alter_inv.
      case_decide as Hact; [done|]. case_decide as Hrid; [congruence|].
      by apply (Hc i r0).
    + intros i r' (r0 & Hr0 & ->)%lookup_alter_inv Hfin'.
      case_decide as Hrid.
      * subst i. cbn. assert (r0 = r) as -> by congruence.
        by apply no_awaiting_Forall.
      * by apply (Hd i r0).
Qed.

(** ** Actions and the controller *)

Lemma controllerConsistent_ext st st' :
  runs st' = runs st → abortControllerRef st' = abortControllerRef st →
  (isProcessing st' = true → isProcessing st = true) →
  controllerConsistent st → controllerConsistent st'.
Proof.
  intros Hruns Href Hproc (Ha & Hb & Hc & Hd). unfold controllerConsistent.
  rewrite Hruns, Href. repeat split; auto.
Qed.

Lemma onlyActiveRunLive_ext st st' :
  runs st' = runs st → abortControllerRef st' = abortControllerRef st →
  onlyActiveRunLive st → onlyActiveRunLive st'.
Proof. intros Hruns Href Hinv i r. rewrite Hruns, Href. apply Hinv. Qed.

Lemma handleVerifyCell_Updated st st' :
  handleVerifyCell st = Updated st' →
  st' = st
  ∨ ∃ d c row cell,
      selectedCell st = Some (d, c) ∧ results st !! d = Some row
      ∧ row !! c = Some (Some cell)
      ∧ st' = setResults
                (λ _, <[d := <[c := Some (withReview verified cell)]> row]> (results st))
                st.
Proof.
  unfold handleVerifyCell, verifyUpdater.
  destruct (selectedCell st) as [[d c]|] eqn:Hsel; [|intros [= <-]; by left].
  destruct (results st !! d) as [row|] eqn:Hrow;
    [|case_decide; [destruct (builtinRead d c)|]; discriminate].
  destruct (row !! c) as [[cell|]|] eqn:Hc; try discriminate.
  intros [= <-]. right. by exists d, c, row, cell.
Qed.

Lemma handleDeleteColumn_controller {Rect} (s : Shell Rect) :
  runs (app (handleDeleteColumn s)) = runs (app s)
  ∧ abortControllerRef (app (handleDeleteColumn s)) = abortControllerRef (app s)
  ∧ isProcessing (app (handleDeleteColumn s)) = isProcessing (app s).
Proof.
  unfold handleDeleteColumn. destruct (truthyString _); [|done].
  destruct (selectedCell (app s)) as [[d c]|]; [case_decide|]; done.
Qed.

Lemma act_controller_frame {Rect} (a : Action Rect) (s s' : Shell Rect) :
  act a s = Some s' → (∀ e, a ≠ ActEvent e) → (∀ b, a ≠ ActClearAll b) →
  runs (app s') = runs (app s)
  ∧ abortControllerRef (app s') = abortControllerRef (app s)
  ∧ isProcessing (app s') = isProcessing (app s).
Proof.
  intros Hact Hev Hcl.
  destruct a; cbn [act] in Hact; try (by destruct (Hev e));
    try (by destruct (Hcl confirmed)); try (injection Hact as <-; done).
  - injection Hact as <-. unfold handleSaveColumn. by destruct (truthyString _).
  - injection Hact as <-. apply handleDeleteColumn_controller.
  - injection Hact as <-. cbn. unfold handleToggleAllDocSelection.
    by destruct (_ =? _)%nat.
  - injection Hact as <-. cbn. unfold toggleChat. by case_decide.
  - destruct (sidebarMode (app s)); try discriminate.
    destruct (getSidebarData (app s)) as [[data|]|]; try discriminate. by injection Hact as <-.
  - destruct (sidebarMode (app s)); try discriminate. by injection Hact as <-.
  - destruct (sidebarMode (app s)); try discriminate.
    destruct (getSidebarData (app s)) as [[data|]|]; try discriminate.
    destruct (handleVerifyCell (app s)) as [st'| |] eqn:Hv; try discriminate.
    injection Hact as <-. cbn [app onApp].
    apply handleVerifyCell_Updated in Hv as [->|(d & c & row & cell & _ & _ & _ & ->)];
      done.
Qed.

Lemma handleClearAll_controller {Rect} confirmed (s : Shell Rect) :
  handleClearAll confirmed s = s
  ∨ (runs (app (handleClearAll confirmed s)) = runs (abortCurrent (app s))
     ∧ abortControllerRef (app (handleClearAll confirmed s))
       = abortControllerRef (app s)
     ∧ isProcessing (app (handleClearAll confirmed s)) = false
     ∧ results (app (handleClearAll confirmed s)) = ∅
     ∧ documents (app (handleClearAll confirmed s)) = []
     ∧ columns (app (handleClearAll confirmed s)) = []).
Proof.
  unfold handleClearAll. destruct (_ && _); [by left|]. right.
  cbn. by rewrite ref_abortCurrent.
Qed.

Lemma onlyActiveRunLive_abortCurrent st st' :
  runs st' = runs (abortCurrent st) →
  abortControllerRef st' = abortControllerRef st →
  onlyActiveRunLive st → onlyActiveRunLive st'.
Proof.
  intros Hruns Href Hinv i r'. rewrite Hruns, Href.
  intros (r & Hr & [[-> _]|[-> Hact]])%lookup_abortCurrent_inv Hne; [|done].
  by apply (Hinv i r).
Qed.

Lemma controllerConsistent_abortCurrent st st' :
  runs st' = runs (abortCurrent st) →
  abortControllerRef st' = abortControllerRef st →
  isProcessing st' = false →
  controllerConsistent st → controllerConsistent st'.
Proof.
  intros Hruns Href Hproc (Ha & Hb & Hc & Hd). unfold controllerConsistent.
  rewrite Hruns, Href, Hproc, length_runs_abortCurrent.
  split; [done|]. split; [done|]. split.
  - intros i r' Hi (r & Hr & [[-> _]|[-> _]])%lookup_abortCurrent_inv;
      by apply (Hc i r).
  - intros i r' (r & Hr & [[-> _]|[-> _]])%lookup_abortCurrent_inv Hfin;
      by apply (Hd i r).
Qed.

Lemma act_controller {Rect} (a : Action Rect) (s s' : Shell Rect) :
  act a s = Some s' →
  onlyActiveRunLive (app s) ∧ controllerConsistent (app s) →
  onlyActiveRunLive (app s') ∧ controllerConsistent (app s').
Proof.
  intros Hact [Hlive Hcons].
  assert (Hcase : (∃ e, a = ActEvent e) ∨ (∃ b, a = ActClearAll b)
                  ∨ ((∀ e, a ≠ ActEvent e) ∧ (∀ b, a ≠ ActClearAll b))).
  { destruct a; eauto; right; right; split; intros; discriminate. }
  destruct Hcase as [[e ->]|[[b ->]|[Hev Hcl]]].
  - injection Hact as <-. split;
      [by apply onlyActiveRunLive_step|by apply controllerConsistent_step].
  - injection Hact as <-.
    destruct (handleClearAll_controller b s) as [->|(Hruns & Href & Hproc & _)];
      [done|]. split.
    + by apply (onlyActiveRunLive_abortCurrent (app s)).
    + by apply (controllerConsistent_abortCurrent (app s)).
  - destruct (act_controller_frame a s s' Hact Hev Hcl) as (Hruns & Href & Hproc).
    split.
    + by apply (onlyActiveRunLive_ext (app s)).
    + apply (controllerConsistent_ext (app s)); [done|done| |done]. by rewrite Hproc.
Qed.

Lemma acts_controller {Rect} (l : list (Action Rect)) : ∀ s s',
  acts l s = Some s' →
  onlyActiveRunLive (app s) ∧ controllerConsistent (app s) →
  onlyActiveRunLive (app s') ∧ controllerConsistent (app s').
Proof.
  induction l as [|a l IH]; intros s s' Hacts Hinv.
  - by injection Hacts as <-.
  - cbn [acts] in Hacts. destruct (act a s) as [s1|] eqn:Ha; [|discriminate].
    apply (IH s1 s' Hacts). by apply (act_controller a s).
Qed.

Lemma initial_controller :
  onlyActiveRunLive initialApp ∧ controllerConsistent initialApp.
Proof.
  split; [intros i r Hr; discriminate|].
  repeat split; discriminate.
Qed.

Lemma reachable_controller {Rect} (l : list (Action Rect)) (s : Shell Rect) :
  acts l initialShell = Some s →
  onlyActiveRunLive (app s) ∧ controllerConsistent (app s).
Proof. intros Hacts. apply (acts_controller l _ _ Hacts), initial_controller. Qed.

(** ** What reachable states guarantee about runs *)

Lemma dead_no_write st rid tid o r :
  runs st !! rid = Some r → dead r →
  results (clientReturns rid tid o st) = results st.
Proof.
  intros Hr Hdead.
  destruct (results_clientReturns_cases rid tid o st)
    as [-> | (r' & t & data & _ & Hr' & Ht & Hph & Hab & _)]; [done|].
  assert (r' = r) as -> by congruence. exfalso.
  destruct Hdead as [Hab'|Hall]; [congruence|].
  by apply (proj1 (Forall_lookup _ _) Hall tid t Ht).
Qed.

Lemma all_dead_frozen st evs :
  (∀ i r, runs st !! i = Some r → dead r) →
  forallb drainsOnly evs = true →
  results (exec evs st) = results st.
Proof.
  intros Hall Hevs. apply map_eq. intros d.
  apply (results_exec_drainsOnly ∅); [done| |set_solver].
  intros i r Hr. left. by apply (Hall i r).
Qed.

Lemma all_dead_after_abort st st' :
  runs st' = runs (abortCurrent st) → onlyActiveRunLive st →
  ∀ i r, runs st' !! i = Some r → dead r.
Proof.
  intros Hruns Hinv i r'. rewrite Hruns.
  intros (r & Hr & [[-> Hne]|[-> _]])%lookup_abortCurrent_inv; [|by left].
  by apply (Hinv i r).
Qed.

(** X2. The invariants of the run controller.  In every state the component
    can reach by its handlers: the controller reference is empty or points to
    the most recently started run; the processing flag is raised only while a
    controller is referenced; the referenced run has not finished; no
    finished run has a task in flight; and every run other than the
    referenced one is cancelled or has no task in flight. *)
Theorem run_controller_invariants {Rect} (l : list (Action Rect)) (s : Shell Rect) :
  acts l initialShell = Some s →
  (∀ i, abortControllerRef (app s) = Some i → S i = length (runs (app s)))
  ∧ (isProcessing (app s) = true → is_Some (abortControllerRef (app s)))
  ∧ (∀ i r, abortControllerRef (app s) = Some i → runs (app s) !! i = Some r →
            run_finished r = false)
  ∧ (∀ i r, runs (app s) !! i = Some r → run_finished r = true →
            Forall (λ t, task_phase t ≠ TaskAwaiting) (run_tasks r))
  ∧ (∀ i r, runs (app s) !! i = Some r → abortControllerRef (app s) ≠ Some i →
            run_aborted r = true
            ∨ Forall (λ t, task_phase t ≠ TaskAwaiting) (run_tasks r)).
Proof.
  intros Hacts. destruct (reachable_controller l s Hacts) as [Hlive (Ha & Hb & Hc & Hd)].
  repeat split; done.
Qed.


(** X3. Only the newest run writes.  In every reachable state, when the
    client call of a task of any run but the most recently started one
    returns, with a result or a failure, the store and the columns stay as
    they are. *)
Theorem superseded_run_never_writes {Rect} (l : list (Action Rect)) (s : Shell Rect)
    (rid tid : nat) (o : ClientOutcome) :
  acts l initialShell = Some s →
  S rid < length (runs (app s)) →
  results (clientReturns rid tid o (app s)) = results (app s)
  ∧ columns (clientReturns rid tid o (app s)) = columns (app s).
Proof.
  intros Hacts Hlt. split; [|apply columns_clientReturns].
  destruct (reachable_controller l s Hacts) as [Hlive (Ha & _)].
  destruct (runs (app s) !! rid) as [r|] eqn:Hr.
  - apply (dead_no_write _ _ _ _ r Hr), (Hlive rid r Hr).
    intros Href. apply Ha in Href. lia.
  - unfold clientReturns. by rewrite Hr.
Qed.


(** X4. Stop freezes the store.  After [handleStopExtraction] in a reachable
    state, no sequence of returning client calls, finishing runs and
    selection events changes the store. *)
Theorem stop_freezes_store {Rect} (l : list (Action Rect)) (s : Shell Rect)
    (evs : list Event) :
  acts l initialShell = Some s →
  forallb drainsOnly evs = true →
  results (exec evs (handleStopExtraction (app s))) = results (app s).
Proof.
  intros Hacts Hevs. destruct (reachable_controller l s Hacts) as [Hlive _].
  assert (Hres : results (handleStopExtraction (app s)) = results (app s)).
  { unfold handleStopExtraction. destruct (abortControllerRef (app s)); [|done].
    cbn. apply results_abortCurrent. }
  rewrite <- Hres. apply all_dead_frozen; [|done].
  apply (all_dead_after_abort (app s)); [|done].
  unfold handleStopExtraction.
  destruct (abortControllerRef (app s)) eqn:Href; [done|].
  by rewrite runs_abortCurrent, Href.
Qed.


(** X5. Clear is final.  After [handleClearAll] has cleared the project (the
    store had no key, or the user confirmed), documents, columns and store
    are empty and stay empty while the cancelled runs drain. *)
Theorem clear_all_is_final {Rect} (l : list (Action Rect)) (s : Shell Rect)
    (confirmed : bool) (evs : list Event) :
  acts l initialShell = Some s →
  size (results (app s)) = 0 ∨ confirmed = true →
  forallb drainsOnly evs = true →
  let st := exec evs (app (handleClearAll confirmed s)) in
  results st = ∅ ∧ documents st = [] ∧ columns st = [].
Proof.
  intros Hacts Hgo Hevs st.
  destruct (reachable_controller l s Hacts) as [Hlive _].
  assert (Hclear : runs (app (handleClearAll confirmed s)) = runs (abortCurrent (app s))
            ∧ results (app (handleClearAll confirmed s)) = ∅
            ∧ documents (app (handleClearAll confirmed s)) = []
            ∧ columns (app (handleClearAll confirmed s)) = []).
  { unfold handleClearAll.
    assert ((negb (size (results (app s)) =? 0)%nat && negb confirmed) = false) as ->.
    { destruct Hgo as [-> | ->]; [done|]. apply andb_false_r. }
    done. }
  destruct Hclear as (Hruns & Hres & Hdocs & Hcols).
  split; [|split].
  - subst st. rewrite all_dead_frozen; [done| |done].
    by apply (all_dead_after_abort (app s)).
  - subst st. revert Hdocs. generalize (app (handleClearAll confirmed s)).
    induction evs as [|e evs IH]; intros st0 Hdocs; [done|].
    cbn [forallb] in Hevs. apply andb_prop in Hevs as [He Hevs].
    cbn [exec]. apply IH; [done|].
    destruct e; try discriminate; cbn [step].
    + unfold handleStopExtraction. destruct (abortControllerRef st0); [|done].
      cbn. unfold abortCurrent. by destruct (abortControllerRef st0).
    + done.
    + unfold handleCellClick. by destruct (truthy _).
    + unfold clientReturns. destruct (runs st0 !! rid) as [r|]; [|done].
      destruct (run_tasks r !! tid) as [t|]; [|done].
      destruct (isAwaiting t); [|done]. unfold taskResume.
      by destruct outcome, (run_aborted r).
    + unfold allSettled. destruct (runs st0 !! rid) as [r|]; [|done].
      destruct (_ || _); [done|].
      by destruct (negb (run_aborted r)); case_decide.
  - subst st. revert Hcols. generalize (app (handleClearAll confirmed s)).
    induction evs as [|e evs IH]; intros st0 Hcols; [done|].
    cbn [forallb] in Hevs. apply andb_prop in Hevs as [He Hevs].
    cbn [exec]. apply IH; [done|].
    destruct (columns (step e st0)) as [|c' cs] eqn:Hc'; [done|]. exfalso.
    assert (Hnn : noNewError (columns st0) (columns (step e st0))).
    { destruct e; try discriminate; try (by apply step_noNewError).
      - apply noNewError_refl.
      - cbn [step]. rewrite (proj2 (proj2 (proj2 (handleCellClick_frame _ _ _)))).
        apply noNewError_refl. }
    destruct (Hnn 0 c') as (c & Hc & _); [by rewrite Hc'|].
    by rewrite Hcols in Hc.
Qed.


(** ** Cells *)

Lemma cellAt_merge_is_Some R d c x d' c' :
  is_Some (cellAt R d' c') → is_Some (cellAt (mergeCell d c x R) d' c').
Proof.
  intros Hsome. destruct (decide ((d', c') = (d, c))) as [[= -> ->]|Hne].
  - rewrite cellAt_merge_same. by eexists.
  - by rewrite cellAt_merge_other.
Qed.

Lemma results_handleRunAnalysis st : results (handleRunAnalysis st) = results st.
Proof.
  unfold handleRunAnalysis. destruct (_ || _); [done|].
  apply results_processExtraction.
Qed.

Lemma results_handleStopExtraction st :
  results (handleStopExtraction st) = results st.
Proof.
  unfold handleStopExtraction. destruct (abortControllerRef st); [|done].
  cbn. apply results_abortCurrent.
Qed.

Lemma results_allSettled rid st : results (allSettled rid st) = results st.
Proof. by destruct (allSettled_cases rid st) as [-> | (r & _ & _ & _ & _ & -> & _)]. Qed.

(** X6. Cells are never lost by the run controller.  An event other than
    loading a project, removing a document or re-running a selection never
    turns a present cell into a missing one: along any sequence of such
    events a key that holds a cell keeps holding one. *)
Theorem run_controller_keeps_cells (evs : list Event) (st : App) (d c : string) :
  forallb keepsCells evs = true →
  is_Some (cellAt (results st) d c) →
  is_Some (cellAt (results (exec evs st)) d c).
Proof.
  revert st. induction evs as [|e evs IH]; intros st Hevs Hcell; [done|].
  cbn [forallb] in Hevs. apply andb_prop in Hevs as [He Hevs].
  cbn [exec]. apply IH; [done|].
  destruct e; try discriminate; cbn [step].
  - by rewrite results_handleRunAnalysis.
  - by rewrite results_handleStopExtraction.
  - done.
  - by rewrite (proj1 (proj2 (proj2 (handleCellClick_frame _ _ _)))).
  - destruct (results_clientReturns_cases rid tid outcome st)
      as [-> | (r & t & data & _ & _ & _ & _ & _ & ->)]; [done|].
    by apply cellAt_merge_is_Some.
  - by rewrite results_allSettled.
Qed.


(** ** A run on a complete grid *)

Lemma planLoop_complete (D : list DocumentFile) (C : list Column) R :
  (∀ d c, d ∈ D → c ∈ C → is_Some (cellAt R (doc_id d) (col_id c))) →
  planLoop D C R false = Some [].
Proof.
  intros Hall. destruct (planLoop_is_Some D C R false) as [l Hl].
  { intros d c Hd Hc. destruct (Hall d c Hd Hc) as [x Hx].
    rewrite (needsTask_cell _ _ _ x Hx). by eexists. }
  rewrite Hl. f_equal. rewrite (planLoop_filter _ _ _ _ _ Hl). apply filter_none.
  intros [d c] [Hd Hc]%elem_of_allPairs. cbn [fst snd].
  destruct (Hall d c Hd Hc) as [x Hx]. rewrite (needsTask_cell _ _ _ x Hx).
  discriminate.
Qed.

Lemma planTasks_complete (D : list DocumentFile) (C : list Column) R :
  (∀ d c, d ∈ D → c ∈ C → is_Some (cellAt R (doc_id d) (col_id c))) →
  planTasks D C R false = [].
Proof. intros Hall. by apply planTasks_Some, planLoop_complete. Qed.

Lemma runAnalysis_guard_passes st :
  documents st ≠ [] → columns st ≠ [] →
  ((length (documents st) =? 0)%nat || (length (columns st) =? 0)%nat) = false.
Proof.
  intros Hd Hc. apply orb_false_intro; apply Nat.eqb_neq.
  - by destruct (documents st).
  - by destruct (columns st).
Qed.

(** X7. Running a complete grid is a no-op on the store.  In a reachable
    state with at least one document and one column in which every pair
    holds a cell, Run Analysis plans no task, and neither the new run nor any
    earlier one changes the store afterwards. *)
Theorem run_on_complete_grid {Rect} (l : list (Action Rect)) (s : Shell Rect)
    (evs : list Event) :
  acts l initialShell = Some s →
  documents (app s) ≠ [] → columns (app s) ≠ [] →
  (∀ d c, d ∈ documents (app s) → c ∈ columns (app s) →
          is_Some (cellAt (results (app s)) (doc_id d) (col_id c))) →
  forallb drainsOnly evs = true →
  planTasks (documents (app s)) (columns (app s)) (results (app s)) false = []
  ∧ results (exec evs (handleRunAnalysis (app s))) = results (app s).
Proof.
  intros Hacts Hdocs Hcols Hall Hevs.
  destruct (reachable_controller l s Hacts) as [Hlive _].
  pose proof (planTasks_complete _ _ _ Hall) as Hplan. split; [exact Hplan|].
  transitivity (results (handleRunAnalysis (app s)));
    [|apply results_handleRunAnalysis].
  apply all_dead_frozen; [|done].
  intros i r. unfold handleRunAnalysis.
  rewrite runAnalysis_guard_passes by done.
  rewrite runs_processExtraction, Hplan.
  intros [Hr|[_ Hr]]%lookup_app_Some.
  - by apply (all_dead_after_abort (app s) (abortCurrent (app s))) in Hr.
  - apply list_lookup_singleton_Some in Hr as [_ <-]. right. constructor.
Qed.


(** ** A run in which every call succeeds *)

Lemma task_static_alter tid (l : list Task) :
  map (λ t, (task_doc t, task_col t)) (alter settleTask tid l)
  = map (λ t, (task_doc t, task_col t)) l.
Proof.
  revert tid. induction l as [|t l IH]; intros [|tid]; cbn; try done.
  by rewrite IH.
Qed.

Lemma static_lookup (l : list Task) (plan : list (DocumentFile * Column)) j t :
  map (λ t, (task_doc t, task_col t)) l = plan → l !! j = Some t →
  plan !! j = Some (task_doc t, task_col t).
Proof.
  intros <- Ht. change map with (@fmap list _).
  by rewrite list_lookup_fmap, Ht.
Qed.

Lemma runProgress_return rid plan R0 cols cols1 st tid data :
  Forall (λ p, cellAt R0 (doc_id p.1) (col_id p.2) = None) plan →
  runProgress rid plan R0 cols cols1 st →
  let st' := clientReturns rid tid (Resolved data) st in
  runProgress rid plan R0 cols cols1 st'
  ∧ (tid < length plan → taskDone rid tid st')
  ∧ (∀ j, taskDone rid j st → taskDone rid j st').
Proof.
  intros Hplan ((r & Hr & Hab & Hfin & Hcols & Hstatic & Hok) & Hkeep & Href & Hc1) st'.
  destruct (run_tasks r !! tid) as [t|] eqn:Ht; cycle 1.
  { assert (st' = st) as -> by (subst st'; unfold clientReturns; by rewrite Hr, Ht).
    split; [|split; [|done]].
    - split; [by exists r|done].
    - intros Hlt. apply lookup_ge_None in Ht.
      rewrite <- Hstatic, length_map in Hlt. lia. }
  destruct (decide (task_phase t = TaskAwaiting)) as [Hph|Hph]; cycle 1.
  { assert (st' = st) as ->.
    { subst st'. unfold clientReturns. rewrite Hr, Ht.
      unfold isAwaiting. by rewrite bool_decide_eq_false_2. }
    split; [|split; [|done]].
    - split; [by exists r|done].
    - intros _. exists r, t. split; [done|]. split; [done|].
      specialize (Hok tid t Ht). unfold taskSettledOk in Hok.
      by destruct (task_phase t). }
  assert (Hst' : st' = setResults
                         (mergeCell (doc_id (task_doc t)) (col_id (task_col t)) data)
                         (setRuns (alter (settleTaskOf tid) rid) st)).
  { subst st'. rewrite (clientReturns_awaiting st rid tid r t) by done.
    by rewrite Hab. }
  assert (Hr' : runs st' !! rid = Some (settleTaskOf tid r)).
  { rewrite Hst'. cbn [runs setResults setRuns].
    by rewrite list_lookup_alter_eq, Hr. }
  assert (Hres' : results st'
                  = mergeCell (doc_id (task_doc t)) (col_id (task_col t)) data
                      (results st)) by (by rewrite Hst').
  pose proof (static_lookup _ _ _ _ Hstatic Ht) as Hpt.
  assert (Hfresh : cellAt R0 (doc_id (task_doc t)) (col_id (task_col t)) = None).
  { by apply (proj1 (Forall_lookup _ _) Hplan tid _ Hpt). }
  split; [|split].
  - split; [|split; [|split]].
    + exists (settleTaskOf tid r). split; [done|]. cbn [settleTaskOf run_aborted
        run_finished run_cols run_tasks]. do 3 (split; [done|]).
      split; [by rewrite task_static_alter|].
      intros j t' (t0 & Ht0 & ->)%lookup_alter_inv. rewrite Hres'.
      case_decide as Hj.
      * subst j. assert (t0 = t) as -> by congruence.
        unfold taskSettledOk. cbn. rewrite cellAt_merge_same. by eexists.
      * specialize (Hok j t0 Ht0). unfold taskSettledOk in *.
        destruct (task_phase t0); try done. by apply cellAt_merge_is_Some.
    + intros d c x Hx. rewrite Hres', cellAt_merge_other; [by apply Hkeep|].
      intros [= -> ->]. congruence.
    + by rewrite Hst'.
    + by rewrite Hst'.
  - intros _. exists (settleTaskOf tid r), (settleTask t). split; [done|].
    split; [|done]. cbn. by rewrite list_lookup_alter_eq, Ht.
  - intros j (r0 & t0 & Hr0 & Ht0 & Hd0). assert (r0 = r) as -> by congruence.
    exists (settleTaskOf tid r). destruct (decide (tid = j)) as [->|Hne].
    + exists (settleTask t0). split; [done|]. split; [|done].
      cbn. by rewrite list_lookup_alter_eq, Ht0.
    + exists t0. split; [done|]. split; [|done].
      cbn. by rewrite list_lookup_alter_ne.
Qed.

Lemma runProgress_exec rid plan R0 cols cols1 evs : ∀ st,
  Forall (λ p, cellAt R0 (doc_id p.1) (col_id p.2) = None) plan →
  Forall (λ e, ∃ tid data, e = EvClientReturns rid tid (Resolved data)) evs →
  runProgress rid plan R0 cols cols1 st →
  runProgress rid plan R0 cols cols1 (exec evs st)
  ∧ ∀ tid, tid < length plan →
      taskDone rid tid st ∨ (∃ data, EvClientReturns rid tid (Resolved data) ∈ evs) →
      taskDone rid tid (exec evs st).
Proof.
  induction evs as [|e evs IH]; intros st Hplan Hevs Hprog.
  - split; [done|]. intros tid _ [Hd|[data Hin]]; [done|by apply elem_of_nil in Hin].
  - apply Forall_cons in Hevs as [(tid0 & data0 & ->) Hevs]. cbn [exec step].
    destruct (runProgress_return rid plan R0 cols cols1 st tid0 data0 Hplan Hprog)
      as (Hprog' & Hdone0 & Hmono).
    destruct (IH _ Hplan Hevs Hprog') as [Hfinal Hdone]. split; [exact Hfinal|].
    intros tid Hlt [Hd|[data Hin]].
    + apply Hdone; [done|]. left. by apply Hmono.
    + apply elem_of_cons in Hin as [Heq|Hin].
      * injection Heq as <- _. apply Hdone; [done|]. left. by apply Hdone0.
      * apply Hdone; [done|]. right. by exists data.
Qed.

Lemma isTarget_self (cols : list Column) (c c' : Column) :
  c ∈ cols → col_id c' = col_id c → isTarget cols c' = true.
Proof.
  intros Hin Hid. unfold isTarget. apply existsb_exists. exists c.
  split; [by apply list_elem_of_In|]. rewrite Hid. apply String.eqb_refl.
Qed.

Lemma lookup_mapped_column (f : Column → Column) (l : list Column) c' :
  (∀ c, col_id (f c) = col_id c) → c' ∈ map f l →
  ∃ c, c ∈ l ∧ c' = f c ∧ col_id c' = col_id c.
Proof.
  intros Hf Hin. change map with (@fmap list _) in Hin.
  apply list_elem_of_fmap in Hin as (c & -> & Hc). by exists c.
Qed.

(** X8. A run whose calls all succeed fills the grid.  From any state with
    at least one document and one column, none of them named like a key of
    [Object.prototype], start Run Analysis and let every planned call return
    a cell, in any order and with no other event in between; when the run
    then finishes, every (document, column) pair holds a cell, every cell
    present before the run is unchanged, every column is [completed], the
    processing flag is down and the controller reference is cleared. *)
Theorem successful_run_fills_grid (st : App) (evs : list Event) :
  documents st ≠ [] → columns st ≠ [] →
  (∀ d, d ∈ documents st → plainId (doc_id d)) →
  (∀ c, c ∈ columns st → plainId (col_id c)) →
  let rid := length (runs st) in
  let plan := planTasks (documents st) (columns st) (results st) false in
  Forall (λ e, ∃ tid data, e = EvClientReturns rid tid (Resolved data)) evs →
  (∀ tid, tid < length plan →
          ∃ data, EvClientReturns rid tid (Resolved data) ∈ evs) →
  let st' := allSettled rid (exec evs (handleRunAnalysis st)) in
  (∀ d c, d ∈ documents st → c ∈ columns st →
          is_Some (cellAt (results st') (doc_id d) (col_id c)))
  ∧ (∀ d c x, cellAt (results st) d c = Some x → cellAt (results st') d c = Some x)
  ∧ (∀ c, c ∈ columns st' → col_status c = completed)
  ∧ map col_id (columns st') = map col_id (columns st)
  ∧ isProcessing st' = false
  ∧ abortControllerRef st' = None.
Proof.
  intros Hdocs Hcols Hplaind Hplainc rid plan Hevs Hall st'.
  set (cols := columns st). set (cols1 := markTargets extracting cols cols).
  pose proof (planLoop_plain (documents st) (columns st) (results st)
                Hplaind Hplainc) as Hloop.
  assert (Hthrows : plannerThrows (documents st) (columns st) (results st) false
                    = false).
  { unfold plannerThrows. by rewrite Hloop. }
  assert (Hfilter : plan
                    = filter (λ p, cellAt (results st) (doc_id p.1) (col_id p.2) = None)
                        (allPairs (documents st) (columns st))).
  { subst plan. by apply planTasks_Some. }
  assert (Hplan : Forall (λ p, cellAt (results st) (doc_id p.1) (col_id p.2) = None) plan).
  { apply Forall_forall. intros [d c]. rewrite Hfilter.
    by intros [Hneed _]%list_elem_of_filter. }
  assert (Hstart : runProgress rid plan (results st) cols cols1 (handleRunAnalysis st)).
  { unfold handleRunAnalysis. rewrite runAnalysis_guard_passes by done.
    split; [|split; [|split]].
    - eexists. rewrite runs_processExtraction.
      split; [apply list_lookup_middle; by rewrite length_runs_abortCurrent|].
      cbn [run_aborted run_finished run_cols run_tasks]. do 3 (split; [done|]).
      split.
      + fold plan. rewrite map_map. transitivity (map id plan); [|apply map_id].
        apply map_ext. by intros [d c].
      + intros j t Ht. change map with (@fmap list _) in Ht.
        rewrite list_lookup_fmap in Ht.
        destruct (planTasks _ _ _ _ !! j); [|discriminate]. by injection Ht as <-.
    - intros d c x. by rewrite results_processExtraction.
    - by rewrite ref_processExtraction, Hthrows.
    - by rewrite columns_processExtraction, Hthrows. }
  destruct (runProgress_exec rid plan (results st) cols cols1 evs _ Hplan Hevs Hstart)
    as [((r & Hr & Hab & Hfin & Hrc & Hstatic & Hok) & Hkeep & Href & Hc1) Hdone].
  assert (Hlen : length (run_tasks r) = length plan).
  { by rewrite <- Hstatic, length_map. }
  assert (Hphase : ∀ j t, run_tasks r !! j = Some t → task_phase t = TaskDone).
  { intros j t Ht. pose proof (lookup_lt_Some _ _ _ Ht) as Hlt. rewrite Hlen in Hlt.
    destruct (Hdone j Hlt) as (r0 & t0 & Hr0 & Ht0 & Hd0); [right; by apply Hall|].
    congruence. }
  assert (Haw : existsb isAwaiting (run_tasks r) = false).
  { apply not_true_is_false. intros (t & Hin & Ht)%existsb_exists.
    apply list_elem_of_In, list_elem_of_lookup in Hin as [j Hj].
    apply isAwaiting_true in Ht. rewrite (Hphase j t Hj) in Ht. discriminate. }
  destruct (allSettled_cases rid (exec evs (handleRunAnalysis st)))
    as [Hsame | (r0 & Hr0 & _ & _ & _ & Hres & Href' & Hcols')].
  { exfalso.
    assert (Hf : run_finished <$> runs (allSettled rid (exec evs (handleRunAnalysis st)))
                   !! rid = Some false) by (by rewrite Hsame, Hr; cbn; rewrite Hfin).
    unfold allSettled in Hf. rewrite Hr, Hfin, Haw in Hf. cbn [orb] in Hf.
    revert Hf. destruct (negb (run_aborted r)); case_decide; cbn;
      rewrite list_lookup_alter_eq, Hr; discriminate. }
  assert (r0 = r) as -> by congruence.
  rewrite Href in Href', Hcols'.
  destruct (decide (Some rid = Some rid)) as [_|?]; [|done].
  rewrite Hab, Hrc, Hc1 in Hcols'.
  assert (Hflag : isProcessing st' = false).
  { subst st'. rewrite (isProcessing_allSettled _ _ r) by done.
    by rewrite Href, decide_True. }
  split; [|split; [|split; [|split; [|split]]]]; try done.
  - intros d c Hd Hc. subst st'. rewrite Hres.
    destruct (cellAt (results st) (doc_id d) (col_id c)) as [x|] eqn:Hx.
    { rewrite (Hkeep _ _ x Hx). by eexists. }
    assert (Hin : (d, c) ∈ plan).
    { rewrite Hfilter. apply list_elem_of_filter.
      split; [done|by apply elem_of_allPairs]. }
    apply list_elem_of_lookup in Hin as [j Hj].
    assert (∃ t, run_tasks r !! j = Some t) as [t Ht].
    { apply lookup_lt_is_Some. rewrite Hlen. by apply lookup_lt_Some in Hj. }
    pose proof (static_lookup _ _ _ _ Hstatic Ht) as Hpt.
    assert (task_doc t = d ∧ task_col t = c) as [<- <-] by (split; congruence).
    specialize (Hok j t Ht). unfold taskSettledOk in Hok.
    by rewrite (Hphase j t Ht) in Hok.
  - intros d c x Hx. subst st'. rewrite Hres. by apply Hkeep.
  - intros c Hc. subst st'. rewrite Hcols' in Hc.
    apply elem_of_resetExtracting in Hc as (_ & c1 & Hc1' & Hid1 & Hkeep1 & _).
    assert (Hs1 : col_status c1 = completed).
    { apply (elem_of_markTargets _ cols _ _ Hc1').
      unfold markTargets in Hc1'. apply lookup_mapped_column in Hc1'
        as (c2 & Hc2 & _ & Hid2); [|intros c0; by destruct (isTarget cols c0)].
      unfold cols1, markTargets in Hc2. apply lookup_mapped_column in Hc2
        as (c3 & Hc3 & _ & Hid3); [|intros c0; by destruct (isTarget cols c0)].
      apply (isTarget_self cols c3); [done|congruence]. }
    rewrite Hkeep1; [done|]. by rewrite Hs1.
  - subst st'. rewrite Hcols'. unfold resetExtracting, cols1, markTargets.
    rewrite !map_map. apply map_ext. intros c0.
    repeat case_decide; repeat (destruct (isTarget _ _)); reflexivity.
Qed.


(** ** Column handlers *)

Lemma lookup_dropColumnResults col (R : ExtractionResult) d :
  dropColumnResults col R !! d
  = (λ row : gmap string (option ExtractionCell),
       match row !! col with
       | Some (Some _) => delete col row
       | Some None => row
       | None => row
       end) <$> R !! d.
Proof. unfold dropColumnResults. apply lookup_fmap. Qed.

Lemma cellAt_dropColumnResults_same col (R : ExtractionResult) d :
  cellAt (dropColumnResults col R) d col = None.
Proof.
  unfold cellAt. rewrite lookup_dropColumnResults.
  destruct (R !! d) as [row|]; [|done]. cbn.
  destruct (row !! col) as [[x|]|] eqn:Hc.
  - by rewrite lookup_delete_eq.
  - by rewrite Hc.
  - by rewrite Hc.
Qed.

Lemma entryAt_dropColumnResults_other col (R : ExtractionResult) d c :
  c ≠ col → entryAt (dropColumnResults col R) d c = entryAt R d c.
Proof.
  intros Hne. unfold entryAt. rewrite lookup_dropColumnResults.
  destruct (R !! d) as [row|]; [|done]. cbn.
  destruct (row !! col) as [[x|]|]; [|done|done]. by apply lookup_delete_ne.
Qed.

(** X9. Column deletion cascade.  Deleting the column being edited removes
    the columns with that id from the column list, leaves no cell for that
    column in any row, keeps every entry of every other column and the set of
    rows, clears the inspected cell exactly when it was in that column, and
    closes the menu.  With no column being edited the handler does nothing. *)
Theorem delete_column_cascade {Rect} (s : Shell Rect) :
  (truthyString (editingColumnId s) = None → handleDeleteColumn s = s)
  ∧ ∀ col, truthyString (editingColumnId s) = Some col →
      let s' := handleDeleteColumn s in
      columns (app s') = filter (λ c, col_id c ≠ col) (columns (app s))
      ∧ (∀ d, cellAt (results (app s')) d col = None)
      ∧ (∀ d c, c ≠ col →
           entryAt (results (app s')) d c = entryAt (results (app s)) d c)
      ∧ dom (results (app s')) = dom (results (app s))
      ∧ (∀ d, selectedCell (app s) = Some (d, col) → selectedCell (app s') = None)
      ∧ (∀ d c, c ≠ col → selectedCell (app s) = Some (d, c) →
           selectedCell (app s') = Some (d, c))
      ∧ documents (app s') = documents (app s)
      ∧ editingColumnId s' = None ∧ addColumnAnchor s' = None.
Proof.
  split.
  { intros Hnone. unfold handleDeleteColumn. by rewrite Hnone. }
  intros col Hcol s'.
  assert (Hres : results (app s') = dropColumnResults col (results (app s))).
  { subst s'. unfold handleDeleteColumn. rewrite Hcol.
    destruct (selectedCell (app s)) as [[d c]|]; [case_decide|]; done. }
  assert (Hcols : columns (app s') = filter (λ c, col_id c ≠ col) (columns (app s))).
  { subst s'. unfold handleDeleteColumn. rewrite Hcol.
    destruct (selectedCell (app s)) as [[d c]|]; [case_decide|]; done. }
  split; [exact Hcols|]. split; [|split; [|split; [|split; [|split; [|split]]]]].
  - intros d. rewrite Hres. apply cellAt_dropColumnResults_same.
  - intros d c Hne. rewrite Hres. by apply entryAt_dropColumnResults_other.
  - rewrite Hres. unfold dropColumnResults. apply dom_fmap_L.
  - intros d Hsel. subst s'. unfold handleDeleteColumn. rewrite Hcol, Hsel.
    by rewrite decide_True.
  - intros d c Hne Hsel. subst s'. unfold handleDeleteColumn. rewrite Hcol, Hsel.
    by rewrite decide_False.
  - subst s'. unfold handleDeleteColumn. rewrite Hcol.
    destruct (selectedCell (app s)) as [[d c]|]; [case_decide|]; done.
  - subst s'. unfold handleDeleteColumn. by rewrite Hcol.
Qed.


Lemma map_if_id {B} (P : Column → Prop) `{!∀ c, Decision (P c)}
    (f : Column → Column) (g : Column → B) (l : list Column) :
  (∀ c, g (f c) = g c) →
  map g (map (λ c, if decide (P c) then f c else c) l) = map g l.
Proof.
  intros Hf. rewrite map_map. apply map_ext. intros c. by case_decide.
Qed.

(** X10. Saving a column.  While a column is being edited, saving replaces
    the name, type and prompt of the columns with that id and nothing else:
    ids, statuses, widths, the order and the number of columns, and the whole
    store are as before, so cells extracted under the old prompt stay.  With
    no column being edited, saving appends one column, [idle] and 250 wide,
    named [col_] followed by the time stamp, and keeps the columns before it.
    Either way the menu is closed. *)
Theorem save_column_frame {Rect} (s : Shell Rect) (now : N) (name : string)
    (type : ColumnType) (prompt : string) :
  let s' := handleSaveColumn now name type prompt s in
  results (app s') = results (app s)
  ∧ documents (app s') = documents (app s)
  ∧ addColumnAnchor s' = None
  ∧ (∀ editing, truthyString (editingColumnId s) = Some editing →
       map col_id (columns (app s')) = map col_id (columns (app s))
       ∧ map col_status (columns (app s')) = map col_status (columns (app s))
       ∧ map col_width (columns (app s')) = map col_width (columns (app s))
       ∧ (∀ i c, columns (app s) !! i = Some c →
            columns (app s') !! i
            = Some (if decide (col_id c = editing)
                    then mkColumn (col_id c) name type prompt (col_status c) (col_width c)
                    else c))
       ∧ editingColumnId s' = None)
  ∧ (truthyString (editingColumnId s) = None →
       columns (app s')
       = columns (app s)
         ++ [mkColumn ("col_" +:+ pretty now) name type prompt idle (Some 250%Z)]).
Proof.
  intros s'. subst s'. unfold handleSaveColumn.
  destruct (truthyString (editingColumnId s)) as [editing|] eqn:He; cbn [app].
  - split; [done|]. split; [done|]. split; [done|]. split; [|done].
    intros ? [= <-]. cbn [columns setColumns editingColumnId].
    split; [by apply map_if_id|]. split; [by apply map_if_id|].
    split; [by apply map_if_id|]. split; [|done].
    intros i c Hc. change map with (@fmap list _).
    rewrite list_lookup_fmap, Hc. cbn. by case_decide.
  - split; [done|]. split; [done|]. split; [done|]. split; [done|]. done.
Qed.


Lemma newColumn_id_inj now1 now2 n1 n2 t1 t2 p1 p2 :
  col_id (newColumn now1 n1 t1 p1) = col_id (newColumn now2 n2 t2 p2) ↔ now1 = now2.
Proof.
  cbn. split; [|by intros ->]. intros Heq. injection Heq as Heq.
  by apply (inj pretty).
Qed.

Lemma acts_selectTemplate_columns {Rect} (specs : list (N * string * ColumnType * string)) :
  ∀ (s s' : Shell Rect),
  acts (map (λ '(now, name, type, prompt), ActSelectTemplate now name type prompt)
          specs) s = Some s' →
  columns (app s')
  = columns (app s)
    ++ map (λ '(now, name, type, prompt), newColumn now name type prompt) specs.
Proof.
  induction specs as [|[[[now name] type] prompt] specs IH]; intros s s' Hacts.
  - injection Hacts as <-. by rewrite app_nil_r.
  - cbn in Hacts. rewrite (IH _ _ Hacts). cbn [app handleSelectTemplate columns
      setColumns map]. by rewrite <- app_assoc.
Qed.

(** X11. Column ids and time stamps.  Two created columns get the same id
    exactly when they are created at the same time stamp.  Adding columns
    from templates to a state without columns, at pairwise distinct time
    stamps, gives one column per template, in order, with pairwise distinct
    ids. *)
Theorem created_columns_have_distinct_ids {Rect}
    (specs : list (N * string * ColumnType * string)) (s s' : Shell Rect) :
  (∀ now1 now2 n1 n2 t1 t2 p1 p2,
     col_id (newColumn now1 n1 t1 p1) = col_id (newColumn now2 n2 t2 p2)
     ↔ now1 = now2)
  ∧ (columns (app s) = [] →
     NoDup (map (λ spec, spec.1.1.1) specs) →
     acts (map (λ '(now, name, type, prompt), ActSelectTemplate now name type prompt)
             specs) s = Some s' →
     length (columns (app s')) = length specs
     ∧ map col_name (columns (app s')) = map (λ spec, spec.1.1.2) specs
     ∧ NoDup (map col_id (columns (app s')))).
Proof.
  split; [apply newColumn_id_inj|]. intros Hempty Hnd Hacts.
  rewrite (acts_selectTemplate_columns specs s s' Hacts), Hempty. cbn [List.app].
  split; [by rewrite length_map|]. split.
  - rewrite map_map. apply map_ext. by intros [[[now name] type] prompt].
  - rewrite map_map.
    assert (Heq : map (λ x : N * string * ColumnType * string,
                     col_id (let '(now, name, type, prompt) := x in
                             newColumn now name type prompt)) specs
                  = map (λ t, "col_" +:+ pretty t) (map (λ spec, spec.1.1.1) specs)).
    { rewrite map_map. apply map_ext. by intros [[[now name] type] prompt]. }
    rewrite Heq. change map with (@fmap list _).
    assert (Inj (=) (=) (λ t : N, "col_" +:+ pretty t)) as Hinj.
    { intros t1 t2 Ht. injection Ht as Ht. by apply (inj pretty). }
    by apply (NoDup_fmap_2 _).
Qed.


(** ** Document selection *)

Lemma setSelectedDocIds_id (X : gset string) (st : App) :
  X = selectedDocIds st → setSelectedDocIds (λ _, X) st = st.
Proof. intros ->. by destruct st. Qed.

Lemma toggle_twice (d : string) (S : gset string) :
  let f := λ prev : gset string,
             if decide (d ∈ prev) then prev ∖ {[d]} else prev ∪ {[d]} in
  f (f S) = S.
Proof.
  cbn. destruct (decide (d ∈ S)) as [Hin|Hout].
  - rewrite decide_False by set_solver.
    apply set_eq. intros x. destruct (decide (x = d)); set_solver.
  - rewrite decide_True by set_solver. set_solver.
Qed.

(** X12. Toggling a document twice restores the selection.  One toggle flips
    the membership of that document and of no other; a second toggle of the
    same document gives back the state before the first. *)
Theorem toggle_selection_involutive (docId : string) (st : App) :
  let st1 := handleToggleDocSelection docId st in
  (docId ∈ selectedDocIds st1 ↔ docId ∉ selectedDocIds st)
  ∧ (∀ d, d ≠ docId → d ∈ selectedDocIds st1 ↔ d ∈ selectedDocIds st)
  ∧ handleToggleDocSelection docId st1 = st.
Proof.
  intros st1. subst st1. split; [|split].
  - unfold handleToggleDocSelection. cbn [selectedDocIds setSelectedDocIds].
    case_decide; set_solver.
  - intros d Hne. unfold handleToggleDocSelection.
    cbn [selectedDocIds setSelectedDocIds]. case_decide; set_solver.
  - transitivity (setSelectedDocIds
                    (λ _, (λ prev : gset string,
                             if decide (docId ∈ prev) then prev ∖ {[docId]}
                             else prev ∪ {[docId]})
                          ((λ prev : gset string,
                              if decide (docId ∈ prev) then prev ∖ {[docId]}
                              else prev ∪ {[docId]}) (selectedDocIds st))) st);
      [reflexivity|].
    apply setSelectedDocIds_id. apply (toggle_twice docId).
Qed.


Lemma size_doc_ids (docs : list DocumentFile) :
  NoDup (map doc_id docs) →
  size (list_to_set (map doc_id docs) : gset string) = length docs.
Proof.
  intros Hnd. rewrite size_list_to_set by done. apply length_map.
Qed.

(** X13. Select all / deselect all.  The header checkbox leaves either no
    document or every document selected.  When the documents have distinct
    ids and only present documents are selected, it deselects all if all
    were selected and selects all otherwise. *)
Theorem toggle_all_selection (st : App) :
  let ids : gset string := list_to_set (map doc_id (documents st)) in
  let S' := selectedDocIds (handleToggleAllDocSelection st) in
  (S' = ∅ ∨ S' = ids)
  ∧ (NoDup (map doc_id (documents st)) → selectedDocIds st ⊆ ids →
       (selectedDocIds st = ids → S' = ∅)
       ∧ (selectedDocIds st ≠ ids → S' = ids)).
Proof.
  intros ids S'. subst S'. unfold handleToggleAllDocSelection.
  split.
  - destruct (_ =? _)%nat; [by left|by right].
  - intros Hnd Hsub. split.
    + intros Hall. rewrite Hall. fold ids. unfold ids.
      rewrite size_doc_ids by done. by rewrite Nat.eqb_refl.
    + intros Hne. destruct (size (selectedDocIds st) =? length (documents st))%nat
        eqn:Hsz; [|done].
      exfalso. apply Hne. apply Nat.eqb_eq in Hsz.
      apply set_subseteq_size_eq; [done|].
      unfold ids. rewrite size_doc_ids by done. lia.
Qed.


(** ** The sidebar and the inspected cell *)

Lemma ui_abortCurrent st :
  sidebarMode (abortCurrent st) = sidebarMode st
  ∧ selectedCell (abortCurrent st) = selectedCell st
  ∧ previewDocId (abortCurrent st) = previewDocId st.
Proof. unfold abortCurrent. by destruct (abortControllerRef st). Qed.

Lemma ui_processExtraction cr docs cols f st :
  sidebarMode (processExtraction cr docs cols f st) = sidebarMode st
  ∧ selectedCell (processExtraction cr docs cols f st) = selectedCell st
  ∧ previewDocId (processExtraction cr docs cols f st) = previewDocId st.
Proof.
  unfold processExtraction. destruct (planLoop docs cols cr f); cbn;
    apply ui_abortCurrent.
Qed.

Lemma ui_clientReturns rid tid o st :
  sidebarMode (clientReturns rid tid o st) = sidebarMode st
  ∧ selectedCell (clientReturns rid tid o st) = selectedCell st
  ∧ previewDocId (clientReturns rid tid o st) = previewDocId st.
Proof.
  unfold clientReturns. destruct (runs st !! rid) as [r|]; [|done].
  destruct (run_tasks r !! tid) as [t|]; [|done].
  destruct (isAwaiting t); [|done]. unfold taskResume.
  by destruct o, (run_aborted r).
Qed.

Lemma ui_allSettled rid st :
  sidebarMode (allSettled rid st) = sidebarMode st
  ∧ selectedCell (allSettled rid st) = selectedCell st
  ∧ previewDocId (allSettled rid st) = previewDocId st.
Proof.
  unfold allSettled. destruct (runs st !! rid) as [r|]; [|done].
  destruct (_ || _); [done|].
  by destruct (negb (run_aborted r)); case_decide.
Qed.

Lemma ui_run_events e st :
  match e with
  | EvRunAnalysis | EvRerunSelected | EvStopExtraction | EvToggleDocSelection _
  | EvClientReturns _ _ _ | EvAllSettled _ => True
  | _ => False
  end →
  sidebarMode (step e st) = sidebarMode st
  ∧ selectedCell (step e st) = selectedCell st
  ∧ previewDocId (step e st) = previewDocId st.
Proof.
  destruct e; try done; intros _; cbn [step].
  - unfold handleRunAnalysis. destruct (_ || _); [done|]. apply ui_processExtraction.
  - unfold handleRerunSelected. destruct (_ || _); [done|].
    apply (ui_processExtraction _ _ _ _ (setResults _ st)).
  - unfold handleStopExtraction. destruct (abortControllerRef st); [|done].
    cbn. apply ui_abortCurrent.
  - apply ui_clientReturns.
  - apply ui_allSettled.
Qed.

Lemma sidebarConsistent_ext st st' :
  sidebarMode st' = sidebarMode st → selectedCell st' = selectedCell st →
  previewDocId st' = previewDocId st →
  sidebarConsistent st → sidebarConsistent st'.
Proof. unfold sidebarConsistent. by intros -> -> ->. Qed.

Lemma sidebarConsistent_cleared st :
  sidebarMode st = SbNone → selectedCell st = None → previewDocId st = None →
  sidebarConsistent st.
Proof. unfold sidebarConsistent. by intros -> -> ->. Qed.

Lemma sidebarConsistent_removeDoc d st :
  sidebarConsistent st → sidebarConsistent (handleRemoveDoc d st).
Proof.
  unfold sidebarConsistent, handleRemoveDoc.
  destruct (sidebarMode st) eqn:Hm, (selectedCell st) as [[d0 c0]|] eqn:Hs,
    (previewDocId st) as [p|] eqn:Hp; intros H;
    try (destruct H as [H1 H2]; try discriminate; by destruct H1);
    try (destruct H as [[H1 H2]|[H1 H2]]; try discriminate;
         try (by destruct H1); try (by destruct H2));
    repeat case_decide; cbn; rewrite ?Hm, ?Hs, ?Hp; cbn;
    try (by split); try (left; by split); try (right; by split); try congruence.
Qed.

Lemma sidebarConsistent_step e st :
  sidebarConsistent st → sidebarConsistent (step e st).
Proof.
  intros Hc. destruct e;
    try (match goal with
         | |- sidebarConsistent (step ?e st) =>
             destruct (ui_run_events e st I) as (Hm & Hs & Hp);
             by apply (sidebarConsistent_ext st)
         end).
  - by apply sidebarConsistent_cleared.
  - by apply sidebarConsistent_removeDoc.
  - cbn [step]. unfold handleCellClick. destruct (truthy _); [|done].
    unfold sidebarConsistent. cbn. left. by split.
Qed.

Lemma ui_handleDeleteColumn {Rect} (s : Shell Rect) :
  sidebarConsistent (app s) → sidebarConsistent (app (handleDeleteColumn s)).
Proof.
  unfold handleDeleteColumn. destruct (truthyString _) as [col|]; [|done].
  cbn [app]. unfold sidebarConsistent.
  destruct (selectedCell (app s)) as [[d c]|] eqn:Hs.
  - case_decide.
    + intros Hcons. cbn. split; [done|].
      destruct (sidebarMode (app s));
        [by destruct Hcons
        |destruct Hcons as [[_ Hp]|[Hn _]]; [done|discriminate]
        |by destruct Hcons].
    + cbn. by rewrite Hs.
  - cbn. by rewrite Hs.
Qed.

Lemma sidebarConsistent_act {Rect} (a : Action Rect) (s s' : Shell Rect) :
  act a s = Some s' → sidebarConsistent (app s) → sidebarConsistent (app s').
Proof.
  intros Hact Hc. destruct a; cbn [act] in Hact;
    try (injection Hact as <-; exact Hc).
  - injection Hact as <-. by apply sidebarConsistent_step.
  - injection Hact as <-. by apply sidebarConsistent_cleared.
  - injection Hact as <-. unfold handleClearAll. destruct (_ && _); [done|].
    by apply sidebarConsistent_cleared.
  - injection Hact as <-. unfold handleSaveColumn. by destruct (truthyString _).
  - injection Hact as <-. by apply ui_handleDeleteColumn.
  - injection Hact as <-. cbn. unfold handleToggleAllDocSelection.
    by destruct (_ =? _)%nat.
  - injection Hact as <-. unfold sidebarConsistent. cbn. right. by split.
  - injection Hact as <-. cbn [app onApp]. unfold toggleChat.
    case_decide as Hm.
    + unfold sidebarConsistent in *. rewrite Hm in Hc. by cbn.
    + unfold sidebarConsistent. by cbn.
  - destruct (sidebarMode (app s)); try discriminate.
    destruct (getSidebarData (app s)) as [[data|]|]; try discriminate. injection Hact as <-.
    by apply sidebarConsistent_cleared.
  - destruct (sidebarMode (app s)) eqn:Hm; try discriminate. injection Hact as <-.
    unfold sidebarConsistent in *. rewrite Hm in Hc. by cbn.
  - destruct (sidebarMode (app s)); try discriminate.
    destruct (getSidebarData (app s)) as [[data|]|]; try discriminate.
    destruct (handleVerifyCell (app s)) as [st'| |] eqn:Hv; try discriminate.
    injection Hact as <-. cbn [app onApp].
    apply handleVerifyCell_Updated in Hv as [->|(d & c & row & cell & _ & _ & _ & ->)];
      [done|]. by apply (sidebarConsistent_ext (app s)).
Qed.

Lemma acts_invariant {Rect} (P : App → Prop) (ok : Action Rect → bool)
    (l : list (Action Rect)) :
  (∀ a s s', ok a = true → act a s = Some s' → P (app s) → P (app s')) →
  ∀ s s', forallb ok l = true → acts l s = Some s' → P (app s) → P (app s').
Proof.
  intros Hstep. induction l as [|a l IH]; intros s s' Hok Hacts HP.
  - by injection Hacts as <-.
  - cbn [forallb] in Hok. apply andb_prop in Hok as [Ha Hok].
    cbn [acts] in Hacts. destruct (act a s) as [s1|] eqn:Hact; [|discriminate].
    apply (IH s1 s' Hok Hacts). by apply (Hstep a s s1).
Qed.

(** X14. Sidebar consistency.  In every reachable state an inspected cell
    and a previewed document are never set together, either of them is set
    only in verify mode, and verify mode always has one of them. *)
Theorem sidebar_is_consistent {Rect} (l : list (Action Rect)) (s : Shell Rect) :
  acts l initialShell = Some s →
  (is_Some (selectedCell (app s)) →
     previewDocId (app s) = None ∧ sidebarMode (app s) = SbVerify)
  ∧ (is_Some (previewDocId (app s)) →
     selectedCell (app s) = None ∧ sidebarMode (app s) = SbVerify)
  ∧ (sidebarMode (app s) = SbVerify →
     is_Some (selectedCell (app s)) ∨ is_Some (previewDocId (app s))).
Proof.
  intros Hacts.
  assert (Hc : sidebarConsistent (app s)).
  { apply (acts_invariant sidebarConsistent (λ _, true) l
             (λ a s0 s1 _, sidebarConsistent_act a s0 s1) initialShell s);
      [|done|by split].
    clear. by induction l. }
  unfold sidebarConsistent in Hc.
  destruct (sidebarMode (app s)), (selectedCell (app s)) as [sel|],
    (previewDocId (app s)) as [p|];
    repeat split; try done; intros; try (by eauto);
    try (destruct Hc as [Hc1 Hc2]; try discriminate; by destruct Hc1);
    try (destruct Hc as [[Hc1 Hc2]|[Hc1 Hc2]]; try discriminate;
         try (by destruct Hc1); by destruct Hc2);
    try (by destruct H).
Qed.


Lemma selectedCellPresent_ext st st' :
  selectedCell st' = selectedCell st → results st' = results st →
  selectedCellPresent st → selectedCellPresent st'.
Proof. unfold selectedCellPresent. by intros -> ->. Qed.

Lemma selectedCellPresent_none st :
  selectedCell st = None → selectedCellPresent st.
Proof. intros Hs d c. by rewrite Hs. Qed.

Lemma selectedCellPresent_removeDoc d0 st :
  selectedCellPresent st → selectedCellPresent (handleRemoveDoc d0 st).
Proof.
  intros Hp d c.
  assert (Hres : results (handleRemoveDoc d0 st) = delete d0 (results st))
    by removeDoc_cases st.
  rewrite Hres. unfold handleRemoveDoc.
  destruct (selectedCell st) as [[d1 c1]|] eqn:Hs.
  - destruct (decide (d1 = d0)) as [->|Hne].
    + by case_decide.
    + assert (Hkeep : ∀ x : App, selectedCell x = Some (d1, c1) →
                selectedCell x = Some (d, c) →
                is_Some (cellAt (delete d0 (results st)) d c)).
      { intros x Hx1 Hx2. assert (d = d1 ∧ c = c1) as [-> ->] by (split; congruence).
        unfold cellAt. rewrite lookup_delete_ne by done. by apply (Hp d1 c1). }
      case_decide; by apply Hkeep.
  - case_decide; cbn; by rewrite Hs.
Qed.

Lemma selectedCellPresent_step e st :
  e ≠ EvRerunSelected →
  (∀ d c, e = EvCellClick d c → plainId d ∧ plainId c) →
  selectedCellPresent st → selectedCellPresent (step e st).
Proof.
  intros Hne Hplain Hp.
  destruct e as [pc pd pr| | | |sel|rdoc|docId colId|rid tid outcome|rid].
  - apply selectedCellPresent_none. reflexivity.
  - destruct (ui_run_events EvRunAnalysis st I) as (_ & Hs & _).
    apply (selectedCellPresent_ext st); [done| |done].
    apply results_handleRunAnalysis.
  - done.
  - destruct (ui_run_events EvStopExtraction st I) as (_ & Hs & _).
    apply (selectedCellPresent_ext st); [done| |done].
    apply results_handleStopExtraction.
  - exact Hp.
  - by apply selectedCellPresent_removeDoc.
  - cbn [step]. unfold handleCellClick.
    destruct (Hplain docId colId eq_refl) as [Hd Hc].
    rewrite readStore_plain by done.
    destruct (cellAt (results st) docId colId) as [x|] eqn:Hx; [|done].
    intros d c. cbn. intros [= <- <-]. rewrite Hx. by eexists.
  - destruct (ui_run_events (EvClientReturns rid tid outcome) st I) as (_ & Hs & _).
    intros d c. rewrite Hs. intros Hsel. cbn [step].
    destruct (results_clientReturns_cases rid tid outcome st)
      as [-> | (r & t & data & _ & _ & _ & _ & _ & ->)]; [by apply Hp|].
    by apply cellAt_merge_is_Some, Hp.
  - destruct (ui_run_events (EvAllSettled rid) st I) as (_ & Hs & _).
    apply (selectedCellPresent_ext st); [done| |done]. apply results_allSettled.
Qed.

Lemma cellAt_dropColumnResults_other col (R : ExtractionResult) d c :
  c ≠ col → cellAt (dropColumnResults col R) d c = cellAt R d c.
Proof. intros Hne. by rewrite !cellAt_entryAt, entryAt_dropColumnResults_other. Qed.

Lemma selectedCellPresent_deleteColumn {Rect} (s : Shell Rect) :
  selectedCellPresent (app s) → selectedCellPresent (app (handleDeleteColumn s)).
Proof.
  intros Hp. unfold handleDeleteColumn.
  destruct (truthyString _) as [col|]; [|done]. cbn [app].
  destruct (selectedCell (app s)) as [[d1 c1]|] eqn:Hs.
  - case_decide as Hc; [by apply selectedCellPresent_none|].
    intros d c. cbn [selectedCell results setResults setColumns]. rewrite Hs.
    intros [= <- <-].
    rewrite cellAt_dropColumnResults_other by done. by apply Hp.
  - apply selectedCellPresent_none. by cbn.
Qed.

Lemma selectedCellPresent_act {Rect} (a : Action Rect) (s s' : Shell Rect) :
  negb (isRerun a) && clicksPlain a = true → act a s = Some s' →
  selectedCellPresent (app s) → selectedCellPresent (app s').
Proof.
  intros [Hok Hclick]%andb_prop Hact Hp. destruct a; cbn [act] in Hact;
    try (injection Hact as <-; exact Hp).
  - injection Hact as <-. cbn [app onApp]. apply selectedCellPresent_step; [| |done].
    + intros ->. discriminate.
    + intros d c ->. cbn in Hclick. apply andb_prop in Hclick as [Hd Hc].
      split; [by apply bool_decide_eq_true in Hd|by apply bool_decide_eq_true in Hc].
  - injection Hact as <-. by apply selectedCellPresent_none.
  - injection Hact as <-. unfold handleClearAll. destruct (_ && _); [done|].
    by apply selectedCellPresent_none.
  - injection Hact as <-. unfold handleSaveColumn. by destruct (truthyString _).
  - injection Hact as <-. by apply selectedCellPresent_deleteColumn.
  - injection Hact as <-. cbn. unfold handleToggleAllDocSelection.
    by destruct (_ =? _)%nat.
  - injection Hact as <-. by apply selectedCellPresent_none.
  - injection Hact as <-. cbn [app onApp]. unfold toggleChat.
    case_decide; [done|]. by apply selectedCellPresent_none.
  - destruct (sidebarMode (app s)); try discriminate.
    destruct (getSidebarData (app s)) as [[data|]|]; try discriminate. injection Hact as <-.
    by apply selectedCellPresent_none.
  - destruct (sidebarMode (app s)); try discriminate. by injection Hact as <-.
  - destruct (sidebarMode (app s)); try discriminate.
    destruct (getSidebarData (app s)) as [[data|]|]; try discriminate.
    destruct (handleVerifyCell (app s)) as [st'| |] eqn:Hv; try discriminate.
    injection Hact as <-. cbn [app onApp].
    apply handleVerifyCell_Updated in Hv
      as [->|(d & c & row & cell & Hsel & _ & _ & ->)]; [done|].
    intros d' c'. cbn. rewrite Hsel. intros [= <- <-].
    unfold cellAt. rewrite lookup_insert_eq, lookup_insert_eq. by eexists.
Qed.

Lemma verify_updates_present st :
  selectedCellPresent st → ∃ st', handleVerifyCell st = Updated st'.
Proof.
  intros Hp. unfold handleVerifyCell, verifyUpdater.
  destruct (selectedCell st) as [[d c]|] eqn:Hs; [|by eexists].
  destruct (Hp d c Hs) as [x Hx]. unfold cellAt in Hx.
  destruct (results st !! d) as [row|]; [|discriminate].
  destruct (row !! c) as [[cell|]|]; try discriminate. by eexists.
Qed.

(** X15. Verify cannot fail before a re-run.  In every state reached without
    the re-run handler and with cell clicks only on identifiers that are not
    keys of [Object.prototype], an inspected cell is a cell of the store, so
    [getSidebarData] returns it and [handleVerifyCell] returns an updated
    store: the verify action, when its control is mounted, always goes
    through. *)
Theorem verify_is_safe_without_rerun {Rect} (l : list (Action Rect)) (s : Shell Rect) :
  forallb (λ a, negb (isRerun a) && clicksPlain a) l = true →
  acts l initialShell = Some s →
  (∀ d c, selectedCell (app s) = Some (d, c) →
     ∃ cell, cellAt (results (app s)) d c = Some cell
       ∧ ∃ data, getSidebarData (app s) = Normal (Some data)
                 ∧ sd_cell data = ReadCell cell)
  ∧ (∃ st', handleVerifyCell (app s) = Updated st')
  ∧ (sidebarMode (app s) = SbVerify →
     (∃ data, getSidebarData (app s) = Normal (Some data)) →
     is_Some (act ActVerifyCell s)).
Proof.
  intros Hok Hacts.
  assert (Hp : selectedCellPresent (app s)).
  { apply (acts_invariant selectedCellPresent
             (λ a, negb (isRerun a) && clicksPlain a) l
             selectedCellPresent_act initialShell s Hok Hacts).
    by apply selectedCellPresent_none. }
  destruct (verify_updates_present _ Hp) as [st' Hv].
  split; [|split].
  - intros d c Hsel. destruct (Hp d c Hsel) as [cell Hcell]. exists cell.
    split; [done|]. unfold getSidebarData.
    rewrite Hsel, (readStore_cell _ _ _ cell Hcell). by eexists.
  - by exists st'.
  - intros Hm [data Hd]. cbn [act]. rewrite Hm, Hd, Hv. by eexists.
Qed.

Lemma noReturn_frame e st :
  noReturn e = true →
  results (step e st) = results st ∧ selectedCell (step e st) = selectedCell st.
Proof.
  destruct e; try discriminate; intros _; cbn [step].
  - split; [apply results_handleStopExtraction|].
    by destruct (ui_run_events EvStopExtraction st I) as (_ & Hs & _).
  - done.
  - split; [apply results_allSettled|].
    by destruct (ui_run_events (EvAllSettled rid) st I) as (_ & Hs & _).
Qed.

Lemma noReturn_exec evs : ∀ st,
  forallb noReturn evs = true →
  results (exec evs st) = results st ∧ selectedCell (exec evs st) = selectedCell st.
Proof.
  induction evs as [|e evs IH]; intros st Hevs; [done|].
  cbn [forallb] in Hevs. apply andb_prop in Hevs as [He Hevs]. cbn [exec].
  destruct (IH (step e st) Hevs) as [-> ->]. by apply noReturn_frame.
Qed.

(** X16. A re-run under an inspected cell breaks verify.  When the document
    of the inspected cell is among the selected ones, its id is not a key of
    [Object.prototype] and a column exists, the re-run deletes the row and
    keeps the selection; from then on, as long as no client call returns and
    the user does no more than stop the run or change the selection of
    documents, [getSidebarData] has no cell to show and the updater of
    [handleVerifyCell] reads a column of a missing row and throws. *)
Theorem rerun_breaks_verify (st : App) (d c : string) (evs : list Event) :
  selectedCell st = Some (d, c) → d ∈ selectedDocIds st → columns st ≠ [] →
  plainId d → forallb noReturn evs = true →
  let st' := exec evs (handleRerunSelected st) in
  selectedCell st' = Some (d, c)
  ∧ results st' !! d = None
  ∧ (∃ data, getSidebarData st' = Normal (Some data) ∧ sd_cell data = ReadFalsy)
  ∧ handleVerifyCell st' = TypeError.
Proof.
  intros Hsel Hin Hcols Hplain Hevs st'.
  assert (HS : selectedDocIds st ≠ ∅) by set_solver.
  destruct (noReturn_exec evs (handleRerunSelected st) Hevs) as [Hres Hui'].
  assert (Hs' : selectedCell st' = Some (d, c)).
  { subst st'. rewrite Hui'.
    destruct (ui_run_events EvRerunSelected st I) as (_ & Hui & _).
    cbn [step] in Hui. by rewrite Hui. }
  assert (Hrow : results st' !! d = None).
  { subst st'. rewrite Hres, results_handleRerunSelected by done.
    apply lookup_foldr_delete. by apply elem_of_elements. }
  split; [done|]. split; [done|]. split.
  - unfold getSidebarData, readStore. rewrite Hs', Hrow.
    rewrite decide_False by done. by eexists.
  - unfold handleVerifyCell, verifyUpdater. rewrite Hs', Hrow.
    by rewrite decide_False.
Qed.

(** ** Column template helpers *)

Lemma filter_all_Forall {A} (P : A → Prop) `{!∀ x, Decision (P x)} (l : list A) :
  Forall P l → filter P l = l.
Proof.
  induction 1 as [|x l Hx _ IH]; [done|]. by rewrite filter_cons_True, IH.
Qed.

Lemma filter_app_singleton_fresh (id : string) (l : list ColumnTemplate)
    (t : ColumnTemplate) :
  tpl_id t = id → Forall (λ t0, tpl_id t0 ≠ id) l →
  filter (λ t0, tpl_id t0 ≠ id) (l ++ [t]) = l.
Proof.
  intros Hid Hfresh. rewrite filter_app.
  rewrite (filter_none _ [t]).
  - rewrite app_nil_r. by apply filter_all_Forall.
  - intros t0 ->%list_elem_of_singleton. tauto.
Qed.

(** X17. Removing a template.  [removeTemplateFromLibrary] leaves no
    template with the given id, keeps the other templates in their order and
    keeps the version; when no template has the id the list is unchanged.
    Removing the template that [addTemplateToLibrary] has just returned, when
    its id was not in use, gives back the list from before the addition. *)
Theorem remove_template_spec (templateId : string) (storage : option ColumnLibrary) :
  let before := loadColumnLibrary storage in
  let after := loadColumnLibrary (removeTemplateFromLibrary templateId storage) in
  lib_version after = lib_version before
  ∧ (∀ t, t ∈ lib_templates after ↔ t ∈ lib_templates before ∧ tpl_id t ≠ templateId)
  ∧ lib_templates after `sublist_of` lib_templates before
  ∧ (Forall (λ t, tpl_id t ≠ templateId) (lib_templates before) →
       lib_templates after = lib_templates before)
  ∧ (∀ input now rand createdAt,
       let added := addTemplateToLibrary input now rand createdAt storage in
       Forall (λ t, tpl_id t ≠ tpl_id added.1) (lib_templates before) →
       lib_templates (loadColumnLibrary
                        (removeTemplateFromLibrary (tpl_id added.1) added.2))
       = lib_templates before).
Proof.
  intros before after. subst before after.
  unfold removeTemplateFromLibrary, saveColumnLibrary. cbn [loadColumnLibrary
    lib_version lib_templates].
  split; [done|]. split; [|split; [|split]].
  - intros t. rewrite list_elem_of_filter. tauto.
  - apply sublist_filter.
  - intros Hfresh. apply filter_all_Forall. exact Hfresh.
  - intros input now rand createdAt. cbv zeta.
    unfold addTemplateToLibrary, saveColumnLibrary.
    cbn [fst snd loadColumnLibrary lib_templates lib_version tpl_id].
    intros Hfresh. by apply filter_app_singleton_fresh.
Qed.


(** X18. Updating a template.  [updateTemplateInLibrary] changes the first
    template with the given id, and only it, to the template with the given
    fields replaced; ids, creation stamps, the number and order of templates
    and the version stay.  When no template has the id, the storage is left
    exactly as it was. *)
Theorem update_template_spec (templateId : string) (updates : TemplateUpdates)
    (storage : option ColumnLibrary) :
  let before := loadColumnLibrary storage in
  let after := loadColumnLibrary (updateTemplateInLibrary templateId updates storage) in
  (Forall (λ t, tpl_id t ≠ templateId) (lib_templates before) →
     updateTemplateInLibrary templateId updates storage = storage)
  ∧ lib_version after = lib_version before
  ∧ map tpl_id (lib_templates after) = map tpl_id (lib_templates before)
  ∧ map tpl_createdAt (lib_templates after) = map tpl_createdAt (lib_templates before)
  ∧ (∀ i t, lib_templates before !! i = Some t → tpl_id t = templateId →
       (∀ j t', lib_templates before !! j = Some t' → j < i → tpl_id t' ≠ templateId) →
       lib_templates after !! i = Some (applyUpdates updates t)
       ∧ ∀ j, j ≠ i → lib_templates after !! j = lib_templates before !! j).
Proof.
  intros before after. subst before after. unfold updateTemplateInLibrary.
  destruct (list_find _ _) as [[index t0]|] eqn:Hfind.
  - apply list_find_Some in Hfind as (Ht0 & Hid0 & Hfirst).
    unfold saveColumnLibrary. cbn [loadColumnLibrary lib_version lib_templates].
    assert (Hlt : index < length (lib_templates (loadColumnLibrary storage)))
      by (by apply lookup_lt_Some in Ht0).
    split; [|split; [done|split; [|split]]].
    + intros Hnone. exfalso.
      by apply (proj1 (Forall_lookup _ _) Hnone index t0 Ht0).
    + change map with (@fmap list _). rewrite list_fmap_insert.
      apply list_insert_id. by rewrite list_lookup_fmap, Ht0.
    + change map with (@fmap list _). rewrite list_fmap_insert.
      apply list_insert_id. by rewrite list_lookup_fmap, Ht0.
    + intros i t Ht Hid Hmin.
      assert (i = index) as ->.
      { destruct (Nat.lt_trichotomy i index) as [Hlt'|[->|Hgt]]; [|done|].
        - by destruct (Hfirst i t Ht Hlt').
        - by destruct (Hmin index t0 Ht0 Hgt). }
      assert (t = t0) as -> by congruence.
      split; [by apply list_lookup_insert_eq|].
      intros j Hne. by apply list_lookup_insert_ne.
  - apply list_find_None in Hfind.
    split; [done|]. split; [done|]. split; [done|]. split; [done|].
    intros i t Ht Hid _. exfalso.
    by apply (proj1 (Forall_lookup _ _) Hfind i t Ht).
Qed.


(** ** Template categories *)

Lemma utf16Rank_inj (a b : ascii) : utf16Rank a = utf16Rank b → a = b.
Proof.
  unfold utf16Rank. intros Heq.
  pose proof (N_ascii_bounded a) as Ha. pose proof (N_ascii_bounded b) as Hb.
  rewrite <- (ascii_N_embedding a), <- (ascii_N_embedding b). f_equal.
  destruct ((238 <=? N_of_ascii a)%N && (N_of_ascii a <=? 239)%N) eqn:Ea,
    ((238 <=? N_of_ascii b)%N && (N_of_ascii b <=? 239)%N) eqn:Eb; lia.
Qed.

Lemma N_compare_trans (x y z : N) (r : comparison) :
  (x ?= y)%N = r → (y ?= z)%N = r → r ≠ Eq → (x ?= z)%N = r.
Proof.
  intros Hxy Hyz Hr. destruct r; [done| |].
  - exact (N.lt_trans _ _ _ Hxy Hyz).
  - apply N.compare_gt_iff. apply N.compare_gt_iff in Hxy, Hyz.
    exact (N.lt_trans _ _ _ Hyz Hxy).
Qed.

Lemma utf16Compare_eq : ∀ s1 s2, utf16Compare s1 s2 = Eq → s1 = s2.
Proof.
  induction s1 as [|a s1 IH]; intros [|b s2]; cbn; try done.
  destruct (utf16Rank a ?= utf16Rank b)%N eqn:Hab; try done.
  intros Heq. apply N.compare_eq_iff, utf16Rank_inj in Hab as ->.
  by rewrite (IH s2 Heq).
Qed.

Lemma utf16Compare_antisym : ∀ s1 s2,
  utf16Compare s2 s1 = CompOpp (utf16Compare s1 s2).
Proof.
  induction s1 as [|a s1 IH]; intros [|b s2]; cbn; try done.
  rewrite (N.compare_antisym (utf16Rank a) (utf16Rank b)).
  destruct (utf16Rank a ?= utf16Rank b)%N; cbn; [apply IH|done|done].
Qed.

Lemma utf16Compare_trans_not_gt : ∀ s1 s2 s3,
  utf16Compare s1 s2 ≠ Gt → utf16Compare s2 s3 ≠ Gt → utf16Compare s1 s3 ≠ Gt.
Proof.
  induction s1 as [|a s1 IH]; intros [|b s2] [|c s3]; cbn; try done.
  destruct (utf16Rank a ?= utf16Rank b)%N eqn:Hab,
    (utf16Rank b ?= utf16Rank c)%N eqn:Hbc; try done.
  - apply N.compare_eq_iff in Hab as ->. rewrite Hbc. apply IH.
  - apply N.compare_eq_iff in Hab as ->. by rewrite Hbc.
  - apply N.compare_eq_iff in Hbc as <-. by rewrite Hab.
  - by rewrite (N_compare_trans _ _ _ Lt Hab Hbc).
Qed.

#[global] Instance stringLe_total : Total stringLe.
Proof.
  intros s1 s2. unfold stringLe. rewrite (utf16Compare_antisym s1 s2).
  destruct (utf16Compare s1 s2); cbn; [by left|by left|by right].
Qed.

#[global] Instance stringLe_trans : Transitive stringLe.
Proof. intros s1 s2 s3. apply utf16Compare_trans_not_gt. Qed.

#[global] Instance stringLe_antisymm : AntiSymm (=) stringLe.
Proof.
  intros s1 s2. unfold stringLe. rewrite (utf16Compare_antisym s1 s2).
  destruct (utf16Compare s1 s2) eqn:Hcmp; cbn; try done.
  intros _ _. by apply utf16Compare_eq.
Qed.

(** On strings of characters below U+0080 the order is the order of the
    character codes, and a character of U+E000..U+FFFF comes after every
    character beyond U+FFFF. *)
Lemma utf16Rank_order (b1 b2 : ascii) :
  ((N_of_ascii b1 < 238)%N → (N_of_ascii b2 < 238)%N →
     (utf16Rank b1 ?= utf16Rank b2)%N = (N_of_ascii b1 ?= N_of_ascii b2)%N)
  ∧ ((238 <= N_of_ascii b1 <= 239)%N → (240 <= N_of_ascii b2)%N →
       (utf16Rank b1 ?= utf16Rank b2)%N = Gt).
Proof.
  unfold utf16Rank. pose proof (N_ascii_bounded b2) as Hb2. split.
  - intros H1 H2.
    assert (((238 <=? N_of_ascii b1)%N && (N_of_ascii b1 <=? 239)%N) = false) as ->
      by (apply andb_false_iff; left; apply N.leb_gt; lia).
    assert (((238 <=? N_of_ascii b2)%N && (N_of_ascii b2 <=? 239)%N) = false) as ->
      by (apply andb_false_iff; left; apply N.leb_gt; lia).
    done.
  - intros [H1 H1'] H2.
    assert (((238 <=? N_of_ascii b1)%N && (N_of_ascii b1 <=? 239)%N) = true) as ->
      by (apply andb_true_iff; split; apply N.leb_le; lia).
    assert (((238 <=? N_of_ascii b2)%N && (N_of_ascii b2 <=? 239)%N) = false) as ->
      by (apply andb_false_iff; right; apply N.leb_gt; lia).
    apply N.compare_gt_iff. lia.
Qed.

Lemma truthyString_Some (o : option string) (s : string) :
  truthyString o = Some s ↔ o = Some s ∧ s ≠ EmptyString.
Proof.
  unfold truthyString. destruct o as [s0|]; [|naive_solver].
  case_decide; naive_solver.
Qed.

(** X19. Template categories.  [getTemplateCategories] returns exactly the
    non-empty categories that occur in the stored library, each once, in
    ascending order; it is the only sorted duplicate-free list with these
    members. *)
Theorem template_categories_spec (storage : option ColumnLibrary) :
  let cats := getTemplateCategories storage in
  Sorted stringLe cats
  ∧ NoDup cats
  ∧ (∀ c, c ∈ cats
       ↔ c ≠ EmptyString
         ∧ ∃ t, t ∈ lib_templates (loadColumnLibrary storage)
                ∧ tpl_category t = Some c)
  ∧ (∀ l, Sorted stringLe l → NoDup l → (∀ c, c ∈ l ↔ c ∈ cats) → l = cats).
Proof.
  intros cats. subst cats. unfold getTemplateCategories.
  set (X := list_to_set _ : gset string).
  assert (Hsorted : Sorted stringLe (merge_sort stringLe (elements X)))
    by apply (Sorted_merge_sort _).
  assert (Hperm : merge_sort stringLe (elements X) ≡ₚ elements X)
    by apply merge_sort_Permutation.
  assert (Hnd : NoDup (merge_sort stringLe (elements X))).
  { rewrite Hperm. apply NoDup_elements. }
  split; [done|]. split; [done|]. split.
  - intros c. rewrite Hperm, elem_of_elements. unfold X.
    rewrite elem_of_list_to_set, list_elem_of_omap. split.
    + intros (t & Ht & [Hc Hne]%truthyString_Some). split; [done|]. by exists t.
    + intros (Hne & t & Ht & Hc). exists t. split; [done|].
      by apply truthyString_Some.
  - intros l Hl Hndl Hmem. apply (Sorted_unique stringLe); [done|done|].
    apply NoDup_Permutation; done.
Qed.


(** ** Distinct template ids *)

Lemma NoDup_ids_filter (P : ColumnTemplate → Prop) `{!∀ t, Decision (P t)}
    (l : list ColumnTemplate) :
  NoDup (map tpl_id l) → NoDup (map tpl_id (filter P l)).
Proof.
  change map with (@fmap list _). intros Hnd.
  eapply sublist_NoDup; [exact Hnd|]. apply fmap_sublist, sublist_filter.
Qed.

(** X20. Template ids stay distinct.  If the stored templates have pairwise
    distinct ids, they still have after an import of a library whose own ids
    are distinct, whether the import is rejected at its first step or merges,
    after a removal, after an update, and after an addition whose generated
    id is not in use. *)
Theorem library_ids_stay_distinct (storage : option ColumnLibrary) :
  NoDup (map tpl_id (lib_templates (loadColumnLibrary storage))) →
  (∀ fsAccess imported, NoDup (map tpl_id (lib_templates imported)) →
     NoDup (map tpl_id (lib_templates
                          (loadColumnLibrary
                             (importColumnLibrary fsAccess imported storage).2))))
  ∧ (∀ templateId,
       NoDup (map tpl_id (lib_templates
                            (loadColumnLibrary
                               (removeTemplateFromLibrary templateId storage)))))
  ∧ (∀ templateId updates,
       NoDup (map tpl_id (lib_templates
                            (loadColumnLibrary
                               (updateTemplateInLibrary templateId updates storage)))))
  ∧ (∀ input now rand createdAt,
       let added := addTemplateToLibrary input now rand createdAt storage in
       tpl_id added.1 ∉ map tpl_id (lib_templates (loadColumnLibrary storage)) →
       NoDup (map tpl_id (lib_templates (loadColumnLibrary added.2)))).
Proof.
  intros Hnd. split; [|split; [|split]].
  - intros [b|] imported Hi; [|done].
    cbn [importColumnLibrary saveColumnLibrary snd
      loadColumnLibrary mergeLibraries lib_templates].
    rewrite map_app. apply NoDup_app. split; [done|]. split.
    + intros id Hin Hin'. change map with (@fmap list _) in Hin'.
      apply list_elem_of_fmap in Hin' as (t & -> & Ht).
      apply list_elem_of_filter in Ht as [Hnot _]. apply Hnot.
      by apply elem_of_list_to_set.
    + by apply NoDup_ids_filter.
  - intros templateId. cbn [removeTemplateFromLibrary saveColumnLibrary
      loadColumnLibrary lib_templates]. by apply NoDup_ids_filter.
  - intros templateId updates.
    destruct (decide (Forall (λ t, tpl_id t ≠ templateId)
                        (lib_templates (loadColumnLibrary storage)))) as [Hnone|Hsome].
    + unfold updateTemplateInLibrary.
      destruct (list_find _ _) as [[index t0]|] eqn:Hfind; [|done].
      apply list_find_Some in Hfind as (Ht0 & Hid0 & _). exfalso.
      by apply (proj1 (Forall_lookup _ _) Hnone index t0 Ht0).
    + unfold updateTemplateInLibrary.
      destruct (list_find _ _) as [[index t0]|] eqn:Hfind; [|done].
      apply list_find_Some in Hfind as (Ht0 & Hid0 & _).
      cbn [saveColumnLibrary loadColumnLibrary lib_templates].
      change map with (@fmap list _). rewrite list_fmap_insert.
      rewrite list_insert_id; [done|]. by rewrite list_lookup_fmap, Ht0.
  - intros input now rand createdAt. cbv zeta.
    unfold addTemplateToLibrary, saveColumnLibrary.
    cbn [fst snd loadColumnLibrary lib_templates tpl_id]. intros Hfresh.
    rewrite map_app. apply NoDup_app. split; [done|]. split.
    + intros id Hin ->%list_elem_of_singleton. by apply Hfresh.
    + apply NoDup_singleton.
Qed.


(** ** A successful task *)

(** X21. A successful task writes exactly its key.  When the client call of
    a suspended task of a run that is not cancelled returns a cell, that
    cell becomes the entry of the task's (document id, column id), every
    other entry of the store and the column list are unchanged, and the task
    is settled, so a second return of the same call changes nothing. *)
Theorem successful_task_writes_its_key (st : App) (rid tid : nat) (r : Run) (t : Task)
    (data : ExtractionCell) :
  runs st !! rid = Some r → run_aborted r = false →
  run_tasks r !! tid = Some t → task_phase t = TaskAwaiting →
  let st' := clientReturns rid tid (Resolved data) st in
  cellAt (results st') (doc_id (task_doc t)) (col_id (task_col t)) = Some data
  ∧ (∀ d c, (d, c) ≠ (doc_id (task_doc t), col_id (task_col t)) →
       entryAt (results st') d c = entryAt (results st) d c)
  ∧ columns st' = columns st
  ∧ (∀ o, clientReturns rid tid o st' = st').
Proof.
  intros Hr Hab Ht Hph st'.
  assert (Hst' : st' = setResults
                         (mergeCell (doc_id (task_doc t)) (col_id (task_col t)) data)
                         (setRuns (alter (settleTaskOf tid) rid) st)).
  { subst st'. rewrite (clientReturns_awaiting st rid tid r t) by done.
    by rewrite Hab. }
  split; [|split; [|split]].
  - rewrite Hst'. apply cellAt_merge_same.
  - intros d c Hne. rewrite Hst'. by apply entryAt_merge_other.
  - by rewrite Hst'.
  - intros o. unfold clientReturns. rewrite Hst'. cbn [runs setResults setRuns].
    rewrite list_lookup_alter_eq, Hr. cbn.
    rewrite list_lookup_alter_eq, Ht. cbn. reflexivity.
Qed.


(** ** The column menu *)

Lemma truthyString_nonempty (x : string) :
  x ≠ EmptyString → truthyString (Some x) = Some x.
Proof. intros Hx. unfold truthyString. by case_decide. Qed.

(** X22. Saving from the column menu.  With an empty name or an empty
    prompt the save does nothing, to the columns and to the library.
    Otherwise it is [handleSaveColumn] on the form; with the library box
    unticked the stored library is untouched, with the box ticked the library
    gains exactly one template, at its end, holding the form's name, type and
    prompt and its category when that is not empty, and the category is then
    listed by [getTemplateCategories].  A column created later from that
    template agrees with the column this save created in everything but the
    id. *)
Theorem menu_save_and_reuse {Rect} (form : MenuForm) (tplNow : N)
    (rand createdAt : string) (colNow : N) (s : Shell Rect)
    (storage : option ColumnLibrary) :
  let out := menuHandleSave form tplNow rand createdAt colNow s storage in
  (mf_name form = EmptyString ∨ mf_prompt form = EmptyString → out = (s, storage))
  ∧ (mf_name form ≠ EmptyString → mf_prompt form ≠ EmptyString →
       out.1 = handleSaveColumn colNow (mf_name form) (mf_type form) (mf_prompt form) s
       ∧ (mf_saveToLibrary form = false → out.2 = storage)
       ∧ (mf_saveToLibrary form = true →
            ∃ t, lib_templates (loadColumnLibrary out.2)
                 = lib_templates (loadColumnLibrary storage) ++ [t]
              ∧ tpl_name t = mf_name form ∧ tpl_type t = mf_type form
              ∧ tpl_prompt t = mf_prompt form
              ∧ tpl_category t = truthyString (Some (mf_category form))
              ∧ (mf_category form ≠ EmptyString →
                   mf_category form ∈ getTemplateCategories out.2)
              ∧ (truthyString (editingColumnId s) = None →
                   ∀ now' (s2 : Shell Rect), ∃ c1 c2,
                     last (columns (app out.1)) = Some c1
                     ∧ last (columns
                               (app (handleSelectTemplate now' (tpl_name t)
                                       (tpl_type t) (tpl_prompt t) s2))) = Some c2
                     ∧ col_name c2 = col_name c1 ∧ col_type c2 = col_type c1
                     ∧ col_prompt c2 = col_prompt c1
                     ∧ col_status c2 = col_status c1
                     ∧ col_width c2 = col_width c1))).
Proof.
  intros out. subst out. unfold menuHandleSave. split.
  - intros [Hn|Hp].
    + rewrite Hn. reflexivity.
    + rewrite Hp. destruct (truthyString (Some (mf_name form))); reflexivity.
  - intros Hn Hp.
    rewrite (truthyString_nonempty _ Hn), (truthyString_nonempty _ Hp).
    cbn [fst snd]. split; [done|]. split.
    + by intros ->.
    + intros ->.
      unfold addTemplateToLibrary, saveColumnLibrary. cbn [fst snd].
      eexists. split; [reflexivity|]. cbn [tpl_name tpl_type tpl_prompt tpl_category].
      split; [done|]. split; [done|]. split; [done|]. split; [done|]. split.
      * intros Hc. unfold getTemplateCategories.
        rewrite merge_sort_Permutation, elem_of_elements, elem_of_list_to_set,
          list_elem_of_omap.
        eexists. split.
        -- cbn [loadColumnLibrary lib_templates]. apply elem_of_app. right.
           apply list_elem_of_singleton. reflexivity.
        -- cbn [tpl_category in_category].
           by rewrite !(truthyString_nonempty _ Hc).
      * intros Hed now' s2. unfold handleSaveColumn, handleSelectTemplate.
        rewrite Hed. cbn [app columns setColumns].
        eexists _, _. rewrite !last_snoc. split; [reflexivity|].
        split; [reflexivity|]. done.
Qed.

End Properties.

(** * Scenarios

    The theorems above at concrete inputs, on the sample host. *)

#[local] Existing Instance sampleHost.

Lemma merge_isolation_witness :
  let R : ExtractionResult := {[ "doc1" := {[ "colA" := None ]} ]} in
  let x := mkExtractionCell "42" High "q" 1 "r" None in
  let y := mkExtractionCell "yes" Low "p" 2 "s" None in
  cellAt (mergeCell "doc1" "colB" y (mergeCell "doc1" "colA" x R)) "doc1" "colA" = Some x
  ∧ cellAt (mergeCell "doc1" "colA" x (mergeCell "doc1" "colB" y R)) "doc1" "colB" = Some y.
Proof.
  intros R x y.
  assert (Hne : "colA" ≠ "colB") by discriminate.
  pose proof (merge_isolation R "doc1" "colA" "colB" x y Hne) as (H1 & _ & _ & H4 & _).
  split; [exact H1 | exact H4].
Defined.

Lemma deletion_cascade_witness :
  let cell := mkExtractionCell "v" High "q" 1 "r" None in
  let st := setSelectedCell (Some ("A", "X"))
              (setResults (λ _, {[ "A" := {[ "X" := Some cell ]};
                                   "B" := {[ "X" := Some cell ]} ]}) initialApp) in
  selectedCell (handleRemoveDoc "A" st) = None
  ∧ results (handleRemoveDoc "A" st) !! "B" = results st !! "B".
Proof.
  intros cell st.
  destruct (deletion_cascade st "A") as (_ & _ & Hframe & Hsel & _).
  split.
  - apply (Hsel "X"). reflexivity.
  - apply Hframe. discriminate.
Defined.

Lemma verify_is_status_overlay_witness :
  let cell := mkExtractionCell "12 months" Medium "term of one year" 3 "clause 2" None in
  let st := setSelectedCell (Some ("A", "X"))
              (setResults (λ _, {[ "A" := {[ "X" := Some cell ]} ]}) initialApp) in
  ∃ st' cell',
    handleVerifyCell st = Updated st'
    ∧ cellAt (results st') "A" "X" = Some cell'
    ∧ cell_status cell' = Some verified
    ∧ cell_value cell' = "12 months".
Proof.
  intros cell st.
  destruct (verify_is_status_overlay st "A" "X" eq_refl) as [Hok _].
  destruct (Hok cell eq_refl) as (st' & cell' & H1 & H2 & H3 & H4 & _).
  exists st', cell'. repeat split; assumption.
Defined.

Lemma export_throws_on_inherited_pair_witness :
  let st := handleLoadProject [colName] [docConstructor] ∅ initialApp in
  cellAt (results st) "constructor" "name" = None
  ∧ readStore (results st) "constructor" "name" = ReadOther
  ∧ handleExportCSV st = Throws.
Proof.
  intros st.
  assert (Hd : docConstructor ∈ documents st) by left.
  assert (Hc : colName ∈ columns st) by left.
  assert (Hkey : doc_id docConstructor ∈ objectPrototypeKeys) by left.
  assert (Hread : builtinRead (doc_id docConstructor) (col_id colName) = BuiltinTruthy)
    by (vm_compute; reflexivity).
  destruct (export_throws_on_inherited_pair st docConstructor colName
              Hd Hc eq_refl Hkey Hread) as (Hcell & _ & Hthrows).
  split; [exact Hcell|]. split; [reflexivity|exact Hthrows].
Defined.

Lemma csv_export_text_witness :
  let quote := String "034"%char EmptyString in
  let feed := String "010"%char EmptyString in
  let cell := mkExtractionCell ("He said " +:+ quote +:+ "hi" +:+ quote) High "q" 1 "r"
                None in
  let docA := mkDocumentFile "A" "a.pdf" "application/pdf" 10 "IyBB" "text/markdown" in
  let docB := mkDocumentFile "B" "b.pdf" "application/pdf" 10 "IyBB" "text/markdown" in
  let colX := mkColumn "X" "Quote" TyText "what was said" idle None in
  let st := handleLoadProject [colX] [docA; docB] {[ "A" := {[ "X" := Some cell ]} ]}
              initialApp in
  handleExportCSV st
  = Normal (Some ("Document Name,Quote" +:+ feed
                  +:+ "a.pdf," +:+ quote +:+ "He said " +:+ quote +:+ quote +:+ "hi"
                  +:+ quote +:+ quote +:+ quote +:+ feed
                  +:+ "b.pdf," +:+ quote +:+ quote)).
Proof.
  intros quote feed cell docA docB colX st.
  assert (HD : ∀ d, d ∈ documents st → plainId (doc_id d))
    by (apply plainIds_decide; vm_compute; reflexivity).
  assert (HC : ∀ c, c ∈ columns st → plainId (col_id c))
    by (apply plainIds_decide; vm_compute; reflexivity).
  destruct (csv_export_text st HD HC) as (_ & Hsome & _).
  rewrite Hsome by discriminate. vm_compute. reflexivity.
Defined.


Lemma task_failure_isolated_witness :
  let st := exec [EvLoadProject [colX] [docA; docB] ∅; EvRunAnalysis] initialApp in
  let st' := clientReturns 0 0 (Rejected "429 rate limit") st in
  console st' = [("Failed to extract Term for a.pdf", "429 rate limit")]
  ∧ results st' = results st
  ∧ results (clientReturns 0 1 (Resolved cellA1) st')
    = results (clientReturns 0 1 (Resolved cellA1) st).
Proof.
  intros st st'.
  pose proof (task_failure_isolated st 0 0
                (mkRun false [colX]
                   [mkTask docA colX TaskAwaiting; mkTask docB colX TaskAwaiting] false)
                (mkTask docA colX TaskAwaiting) "429 rate limit"
                eq_refl eq_refl eq_refl)
    as (Hlog & Hres & _ & _ & _ & _ & Hothers).
  split; [exact Hlog|]. split; [exact Hres|].
  apply Hothers. discriminate.
Defined.

Lemma cancellation_discards_witness :
  let st := exec [EvLoadProject [colX] [docA; docB] ∅; EvRunAnalysis] initialApp in
  let st1 := exec [EvClientReturns 0 1 (Rejected "timeout")] (handleStopExtraction st) in
  results (clientReturns 0 0 (Resolved cellA1) st1) = results st1
  ∧ results st1 = ∅.
Proof.
  intros st st1.
  pose proof (cancellation_discards st 0 0
                (mkRun false [colX]
                   [mkTask docA colX TaskAwaiting; mkTask docB colX TaskAwaiting] false)
                (mkTask docA colX TaskAwaiting) cellA1
                [EvClientReturns 0 1 (Rejected "timeout")]
                eq_refl eq_refl eq_refl eq_refl)
    as (_ & _ & Hres & _).
  split; [exact Hres | reflexivity].
Defined.




Lemma scoped_rerun_witness :
  let evs0 := [EvLoadProject [colX] [docA; docB]
                 {[ "A" := {[ "X" := Some cellA1 ]}; "B" := {[ "X" := Some cellA1 ]} ]};
               EvToggleDocSelection "A"] in
  let st := exec evs0 initialApp in
  let st' := exec [EvClientReturns 0 0 (Resolved cellA2); EvAllSettled 0]
               (handleRerunSelected st) in
  runControl st = RerunButton false
  ∧ results (handleRerunSelected st) !! "A" = None
  ∧ results st' !! "B" = Some {[ "X" := Some cellA1 ]}
  ∧ cellAt (results st') "A" "X" = Some cellA2.
Proof.
  intros evs0 st st'.
  assert (Hbutton : runControl st = RerunButton false) by (vm_compute; reflexivity).
  destruct (scoped_rerun evs0 Hbutton) as (Hdel & _ & _ & _ & _ & Hframe).
  split; [exact Hbutton|]. split; [|split].
  - apply Hdel. apply elem_of_elements. vm_compute. left.
  - subst st'. rewrite Hframe; [vm_compute; reflexivity|reflexivity|].
    intros Hin%elem_of_elements. vm_compute in Hin.
    apply list_elem_of_singleton in Hin. discriminate.
  - vm_compute. reflexivity.
Defined.


Lemma planner_misses_inherited_pair_witness :
  let st := handleLoadProject [colName] [docConstructor] ∅ initialApp in
  cellAt (results st) "constructor" "name" = None
  ∧ (docConstructor, colName) ∈ allPairs (documents st) (columns st)
  ∧ planTasks (documents st) (columns st) (results st) false = []
  ∧ (run_tasks <$> last (runs (handleRunAnalysis st))) = Some [].
Proof.
  intros st.
  assert (Hd : docConstructor ∈ documents st) by left.
  assert (Hc : colName ∈ columns st) by left.
  assert (Hkey : doc_id docConstructor ∈ objectPrototypeKeys) by left.
  assert (Hread : builtinRead (doc_id docConstructor) (col_id colName) = BuiltinTruthy)
    by (vm_compute; reflexivity).
  destruct (planner_misses_inherited_pair (documents st) (columns st) (results st)
              docConstructor colName Hd Hc eq_refl Hkey Hread)
    as (Hcell & Hpair & Hnot & _).
  split; [exact Hcell|]. split; [exact Hpair|].
  split; vm_compute; reflexivity.
Defined.

Lemma planner_exact_on_plain_ids_witness :
  planTasks [docA; docB] [colX] {[ "A" := {[ "X" := Some cellA1 ]} ]} false
  = [(docB, colX)].
Proof.
  assert (HD : ∀ d, d ∈ [docA; docB] → plainId (doc_id d))
    by (apply plainIds_decide; vm_compute; reflexivity).
  assert (HC : ∀ c, c ∈ [colX] → plainId (col_id c))
    by (apply plainIds_decide; vm_compute; reflexivity).
  destruct (planner_exact_on_plain_ids [docA; docB] [colX]
              {[ "A" := {[ "X" := Some cellA1 ]} ]} HD HC) as (_ & Hplan & _).
  rewrite Hplan. vm_compute. reflexivity.
Defined.

Lemma plan_has_distinct_keys_witness :
  NoDup (map pairKey (planTasks [docA; docB] [colX] ∅ false)).
Proof.
  apply plan_has_distinct_keys.
  - cbn. apply (bool_decide_unpack _). vm_compute. reflexivity.
  - cbn. apply (bool_decide_unpack _). vm_compute. reflexivity.
Defined.

Lemma run_controller_invariants_witness :
  (∀ i, abortControllerRef (app runningShell) = Some i →
        S i = length (runs (app runningShell)))
  ∧ (isProcessing (app runningShell) = true →
     is_Some (abortControllerRef (app runningShell))).
Proof.
  assert (Hacts : acts sampleActions initialShell = Some runningShell)
    by (vm_compute; reflexivity).
  pose proof (run_controller_invariants sampleActions runningShell Hacts)
    as (Ha & Hb & _).
  split; [exact Ha | exact Hb].
Defined.

Lemma superseded_run_never_writes_witness :
  let s : Shell unit :=
    mkShell (exec [EvStopExtraction; EvRunAnalysis] (app runningShell))
      None None false in
  results (clientReturns 0 0 (Resolved cellA1) (app s)) = results (app s).
Proof.
  intros s.
  assert (Hlt : 1 < length (runs (app s))) by (vm_compute; lia).
  assert (Hacts : acts (sampleActions
                          ++ [ActEvent EvStopExtraction; ActEvent EvRunAnalysis])
                    initialShell = Some s)
    by (vm_compute; reflexivity).
  exact (proj1 (superseded_run_never_writes _ s 0 0 (Resolved cellA1) Hacts Hlt)).
Defined.

Lemma stop_freezes_store_witness :
  results (exec [EvClientReturns 0 0 (Resolved cellA1); EvAllSettled 0]
             (handleStopExtraction (app runningShell)))
  = results (app runningShell).
Proof.
  assert (Hacts : acts sampleActions initialShell = Some runningShell)
    by (vm_compute; reflexivity).
  exact (stop_freezes_store sampleActions runningShell
           [EvClientReturns 0 0 (Resolved cellA1); EvAllSettled 0] Hacts eq_refl).
Defined.

Lemma clear_all_is_final_witness :
  let st := exec [EvClientReturns 0 0 (Resolved cellA1); EvAllSettled 0]
              (app (handleClearAll true runningShell)) in
  results st = ∅ ∧ documents st = [] ∧ columns st = [].
Proof.
  assert (Hacts : acts sampleActions initialShell = Some runningShell)
    by (vm_compute; reflexivity).
  exact (clear_all_is_final sampleActions runningShell true
           [EvClientReturns 0 0 (Resolved cellA1); EvAllSettled 0]
           Hacts (or_intror eq_refl) eq_refl).
Defined.

Lemma run_controller_keeps_cells_witness :
  let st := setResults (λ _, {[ "A" := {[ "X" := Some cellA1 ]} ]})
              (app runningShell) in
  is_Some (cellAt (results (exec [EvClientReturns 0 0 (Resolved cellA2);
                                  EvStopExtraction; EvAllSettled 0] st)) "A" "X").
Proof.
  intros st.
  apply (run_controller_keeps_cells _ st "A" "X"); [reflexivity|].
  vm_compute. by eexists.
Defined.

Lemma run_on_complete_grid_witness :
  let s : Shell unit :=
    mkShell (exec [EvLoadProject [colX] [docA]
                     {[ "A" := {[ "X" := Some cellA1 ]} ]}] initialApp)
      None None false in
  results (exec [EvAllSettled 0] (handleRunAnalysis (app s))) = results (app s).
Proof.
  intros s.
  assert (Hacts : acts [ActEvent (EvLoadProject [colX] [docA]
                                    {[ "A" := {[ "X" := Some cellA1 ]} ]})]
                    initialShell = Some s)
    by (vm_compute; reflexivity).
  refine (proj2 (run_on_complete_grid _ s [EvAllSettled 0] Hacts _ _ _ eq_refl)).
  - discriminate.
  - discriminate.
  - intros d c Hd Hc. cbn in Hd, Hc.
    apply list_elem_of_singleton in Hd as ->. apply list_elem_of_singleton in Hc as ->.
    vm_compute. by eexists.
Defined.

Lemma successful_run_fills_grid_witness :
  let st := exec [EvLoadProject [colX] [docA; docB] ∅] initialApp in
  let evs := [EvClientReturns 0 1 (Resolved cellA2); EvClientReturns 0 0 (Resolved cellA1)] in
  let st' := allSettled 0 (exec evs (handleRunAnalysis st)) in
  (∀ c, c ∈ columns st' → col_status c = completed)
  ∧ isProcessing st' = false.
Proof.
  intros st evs st'.
  assert (Hd : documents st ≠ []) by discriminate.
  assert (Hc : columns st ≠ []) by discriminate.
  assert (Hevs : Forall (λ e, ∃ tid data, e = EvClientReturns 0 tid (Resolved data)) evs).
  { repeat constructor; by eexists _, _. }
  assert (Hall : ∀ tid,
            tid < length (planTasks (documents st) (columns st) (results st) false) →
            ∃ data, EvClientReturns 0 tid (Resolved data) ∈ evs).
  { intros [|[|tid]] Hlt.
    - exists cellA1. right. left.
    - exists cellA2. left.
    - vm_compute in Hlt. lia. }
  assert (HD : ∀ d, d ∈ documents st → plainId (doc_id d))
    by (apply plainIds_decide; vm_compute; reflexivity).
  assert (HC : ∀ c, c ∈ columns st → plainId (col_id c))
    by (apply plainIds_decide; vm_compute; reflexivity).
  pose proof (successful_run_fills_grid st evs Hd Hc HD HC Hevs Hall)
    as (_ & _ & Hdone & _ & Hflag & _).
  split; [exact Hdone | exact Hflag].
Defined.

Lemma delete_column_cascade_witness :
  let s : Shell unit :=
    mkShell
      (setSelectedCell (Some ("A", "X"))
         (setResults (λ _, {[ "A" := {[ "X" := Some cellA1; "Y" := Some cellA2 ]} ]})
            (app runningShell)))
      (Some "X") (Some tt) false in
  cellAt (results (app (handleDeleteColumn s))) "A" "X" = None
  ∧ entryAt (results (app (handleDeleteColumn s))) "A" "Y" = Some (Some cellA2)
  ∧ selectedCell (app (handleDeleteColumn s)) = None.
Proof.
  intros s.
  destruct (delete_column_cascade s) as [_ H].
  destruct (H "X" eq_refl) as (_ & Hgone & Hkeep & _ & Hsel & _).
  split; [apply Hgone|]. split.
  - rewrite Hkeep by discriminate. vm_compute. reflexivity.
  - apply (Hsel "A"). reflexivity.
Defined.

Lemma save_column_frame_witness :
  let s : Shell unit := mkShell (app runningShell) (Some "X") (Some tt) false in
  map col_status (columns (app (handleSaveColumn 1700000000000 "Duration" TyText
                                  "How long?" s)))
  = map col_status (columns (app s)).
Proof.
  intros s.
  destruct (save_column_frame s 1700000000000 "Duration" TyText "How long?")
    as (_ & _ & _ & Hedit & _).
  destruct (Hedit "X" eq_refl) as (_ & Hstatus & _). exact Hstatus.
Defined.

Lemma created_columns_have_distinct_ids_witness :
  let specs := [(1700000000000%N, "Term", TyText, "What is the term?");
                (1700000000001%N, "Party", TyText, "Who signs?")] in
  let s' : Shell unit :=
    mkShell
      (setColumns (λ _, [newColumn 1700000000000 "Term" TyText "What is the term?";
                         newColumn 1700000000001 "Party" TyText "Who signs?"])
         initialApp)
      None None false in
  map col_id (columns (app s')) = ["col_1700000000000"; "col_1700000000001"]
  ∧ NoDup (map col_id (columns (app s'))).
Proof.
  intros specs s'. split; [vm_compute; reflexivity|].
  assert (Hacts : acts (map (λ '(now, name, type, prompt),
                               ActSelectTemplate now name type prompt) specs)
                    initialShell = Some s') by (vm_compute; reflexivity).
  destruct (created_columns_have_distinct_ids specs initialShell s') as [_ H].
  apply H; [reflexivity| |exact Hacts].
  apply (bool_decide_unpack _). vm_compute. reflexivity.
Defined.

Lemma toggle_selection_involutive_witness :
  handleToggleDocSelection "A" (handleToggleDocSelection "A" initialApp) = initialApp.
Proof.
  exact (proj2 (proj2 (toggle_selection_involutive "A" initialApp))).
Defined.

Lemma toggle_all_selection_witness :
  let st := app runningShell in
  selectedDocIds (handleToggleAllDocSelection st)
  = list_to_set (map doc_id (documents st)).
Proof.
  intros st.
  destruct (toggle_all_selection st) as [_ H].
  assert (Hnd : NoDup (map doc_id (documents st))).
  { apply (bool_decide_unpack _). vm_compute. reflexivity. }
  assert (Hsub : selectedDocIds st ⊆ list_to_set (map doc_id (documents st))).
  { change (selectedDocIds st) with (∅ : gset string). set_solver. }
  destruct (H Hnd Hsub) as [_ Hsel]. apply Hsel.
  change (selectedDocIds st) with (∅ : gset string).
  intros Heq. assert (Hin : "A" ∈ (∅ : gset string)) by (rewrite Heq; set_solver).
  set_solver.
Defined.

Lemma sidebar_is_consistent_witness :
  let l : list (Action unit) :=
    sampleActions ++ [ActEvent (EvClientReturns 0 0 (Resolved cellA1));
                      ActEvent (EvCellClick "A" "X")] in
  let s : Shell unit :=
    mkShell (exec [EvClientReturns 0 0 (Resolved cellA1); EvCellClick "A" "X"]
               (app runningShell)) None None false in
  selectedCell (app s) = Some ("A", "X")
  ∧ previewDocId (app s) = None ∧ sidebarMode (app s) = SbVerify.
Proof.
  intros l s.
  assert (Hacts : acts l initialShell = Some s) by (vm_compute; reflexivity).
  assert (Hsel : selectedCell (app s) = Some ("A", "X")) by (vm_compute; reflexivity).
  destruct (sidebar_is_consistent l s Hacts) as (Hcell & _ & _).
  split; [exact Hsel|]. apply Hcell. rewrite Hsel. by eexists.
Defined.

Lemma verify_is_safe_without_rerun_witness :
  let l : list (Action unit) :=
    sampleActions ++ [ActEvent (EvClientReturns 0 0 (Resolved cellA1));
                      ActEvent (EvCellClick "A" "X")] in
  let s : Shell unit :=
    mkShell (exec [EvClientReturns 0 0 (Resolved cellA1); EvCellClick "A" "X"]
               (app runningShell)) None None false in
  is_Some (act ActVerifyCell s).
Proof.
  intros l s.
  assert (Hok : forallb (λ a : Action unit, negb (isRerun a) && clicksPlain a) l
                = true) by (vm_compute; reflexivity).
  assert (Hacts : acts l initialShell = Some s) by (vm_compute; reflexivity).
  destruct (verify_is_safe_without_rerun l s Hok Hacts) as (_ & _ & Hact).
  apply Hact; [vm_compute; reflexivity|]. eexists. vm_compute. reflexivity.
Defined.

Lemma rerun_breaks_verify_witness :
  let st := exec [EvClientReturns 0 0 (Resolved cellA1); EvCellClick "A" "X";
                  EvStopExtraction; EvToggleDocSelection "A"] (app runningShell) in
  handleVerifyCell (exec [EvToggleDocSelection "B"; EvStopExtraction]
                      (handleRerunSelected st)) = TypeError.
Proof.
  intros st.
  assert (Hsel : selectedCell st = Some ("A", "X")) by (vm_compute; reflexivity).
  assert (Hin : "A" ∈ selectedDocIds st).
  { apply elem_of_elements. vm_compute. left. }
  assert (Hcols : columns st ≠ []) by (vm_compute; discriminate).
  assert (Hplain : plainId "A") by (apply (bool_decide_unpack _); vm_compute; reflexivity).
  destruct (rerun_breaks_verify st "A" "X"
              [EvToggleDocSelection "B"; EvStopExtraction]
              Hsel Hin Hcols Hplain eq_refl) as (_ & _ & _ & Hv).
  exact Hv.
Defined.


Lemma remove_template_spec_witness :
  let input := mkTemplateInput "Party" TyText "Who signs?" None in
  let added := addTemplateToLibrary input 3 "ccccc" "2025-01-03T00:00:00.000Z"
                 sampleStorage in
  lib_templates (loadColumnLibrary
                   (removeTemplateFromLibrary (tpl_id added.1) added.2))
  = [tplTerm; tplFee].
Proof.
  intros input added.
  destruct (remove_template_spec "tpl_3_ccccc" sampleStorage) as (_ & _ & _ & _ & H).
  apply (H input 3%N "ccccc" "2025-01-03T00:00:00.000Z").
  repeat constructor; vm_compute; discriminate.
Defined.

Lemma update_template_spec_witness :
  let updates := mkTemplateUpdates None None (Some "Which fee applies?") None in
  let after := loadColumnLibrary
                 (updateTemplateInLibrary "tpl_2_bbbbb" updates sampleStorage) in
  lib_templates after !! 1
  = Some (mkColumnTemplate "tpl_2_bbbbb" "Fee" TyNumber "Which fee applies?"
            (Some "Financial") "2025-01-02T00:00:00.000Z")
  ∧ lib_templates after !! 0 = Some tplTerm.
Proof.
  intros updates after.
  destruct (update_template_spec "tpl_2_bbbbb" updates sampleStorage)
    as (_ & _ & _ & _ & H).
  destruct (H 1 tplFee eq_refl eq_refl) as [Hnew Hold].
  - intros [|[|j]] t' Ht' Hlt; [|lia|lia].
    injection Ht' as <-. vm_compute. discriminate.
  - split; [exact Hnew|]. unfold after. rewrite (Hold 0) by lia. reflexivity.
Defined.

Lemma template_categories_spec_witness :
  getTemplateCategories unicodeStorage = [category1F600; categoryFF5E]
  ∧ getTemplateCategories sampleStorage = ["Financial"; "Legal"].
Proof.
  split; [vm_compute; reflexivity|].
  destruct (template_categories_spec sampleStorage) as (_ & _ & Hmem & Huniq).
  symmetry. apply Huniq.
  - repeat constructor. intros Hgt. vm_compute in Hgt. discriminate.
  - apply (bool_decide_unpack _). vm_compute. reflexivity.
  - intros c. rewrite Hmem. cbn. split.
    + intros [->|[->|[]%elem_of_nil]%elem_of_cons]%elem_of_cons.
      * split; [done|]. exists tplFee. split; [|done]. right; left.
      * split; [done|]. exists tplTerm. split; [|done]. left.
    + intros (_ & t & [->|[->|[]%elem_of_nil]%elem_of_cons]%elem_of_cons & Hc);
        injection Hc as <-; [right; left|left].
Defined.

Lemma library_ids_stay_distinct_witness :
  NoDup (map tpl_id (lib_templates
                       (loadColumnLibrary
                          (importColumnLibrary (Some false)
                             (mkColumnLibrary 1 [tplFee; tplTerm])
                             (Some (mkColumnLibrary 1 [tplTerm]))).2))).
Proof.
  assert (H1 : NoDup (map tpl_id (lib_templates
                                    (loadColumnLibrary
                                       (Some (mkColumnLibrary 1 [tplTerm])))))).
  { apply (bool_decide_unpack _). vm_compute. reflexivity. }
  destruct (library_ids_stay_distinct _ H1) as [Himp _].
  apply Himp. apply (bool_decide_unpack _). vm_compute. reflexivity.
Defined.

Lemma successful_task_writes_its_key_witness :
  let st := app runningShell in
  cellAt (results (clientReturns 0 1 (Resolved cellA2) st)) "B" "X" = Some cellA2.
Proof.
  intros st.
  exact (proj1 (successful_task_writes_its_key st 0 1
                  (mkRun false [colX]
                     [mkTask docA colX TaskAwaiting; mkTask docB colX TaskAwaiting]
                     false)
                  (mkTask docB colX TaskAwaiting) cellA2
                  eq_refl eq_refl eq_refl eq_refl)).
Defined.

Lemma menu_save_and_reuse_witness :
  let form := mkMenuForm "Term" TyText "What is the term?" "Legal" true in
  let out := menuHandleSave form 5 "abcde" "2025-01-03T00:00:00.000Z" 6
               (initialShell : Shell unit) None in
  map col_id (columns (app out.1)) = ["col_6"]
  ∧ map tpl_id (lib_templates (loadColumnLibrary out.2)) = ["tpl_5_abcde"]
  ∧ getTemplateCategories out.2 = ["Legal"].
Proof.
  intros form out.
  assert (Hn : mf_name form ≠ EmptyString) by done.
  assert (Hp : mf_prompt form ≠ EmptyString) by done.
  pose proof (menu_save_and_reuse form 5 "abcde" "2025-01-03T00:00:00.000Z" 6
                (initialShell : Shell unit) None) as [_ Hspec].
  destruct (Hspec Hn Hp) as (Hcol & _ & Hlib).
  destruct (Hlib eq_refl) as (t & Ht & _).
  subst out. split; [rewrite Hcol|split]; vm_compute; reflexivity.
Defined.
